(** * Image modification pipeline of custom-debian-iso

    A shallow embedding of [src/iso/injection.py] and [src/udib/modiso.py]
    and the properties of their five pipeline stages: ISO extraction, MBR
    extraction, initrd patching, checksum-manifest regeneration and ISO
    repacking, plus the orchestrator that sequences them.

    The Python code works on the file system through [pathlib], [open],
    [gzip], [hashlib] and external programs, so the embedding is a state
    and exception monad over a model of the file-system name space.  *)

From Stdlib Require Import ZArith NArith Lia List.
From Stdlib.Strings Require Import Ascii String Byte.
From stdpp Require Import base option list strings gmap fin_maps.

Local Open Scope string_scope.
Local Open Scope list_scope.

(** ** File-system model

    A path is the list of its components below the root directory;
    [~] expansion and the joining of relative paths with the current
    directory are pure rewritings of the path text and are done before a
    path enters the model.  The name space is a finite map from paths to
    nodes.  A symbolic link stores its target as such a path.  Mode bits
    are recorded, not enforced: the pipeline is run with enough privilege
    to pass the access checks of the kernel. *)

Abbreviation path := (list string).

Inductive node :=
| File (mode : N) (data : list byte)
| Dir (mode : N)
| Symlink (target : path).

Abbreviation FS := (gmap (list string) node).

#[export] Instance byte_eq_dec : EqDecision byte := Byte.byte_eq_dec.
#[export] Instance node_eq_dec : EqDecision node.
Proof. solve_decision. Defined.

(** The Python exceptions the two modules raise or let through. *)
Inductive runtime_msg :=
| ExtractFailed (src : path)
| NotAnImage (src : path)
| AppendFailed (archive : path)
| InvalidCharacter (c : N)
| RepackFailed (root : path)
| SymlinkLoop (p : path).

Inductive exn :=
| FileNotFoundError (p : path)
| NotADirectoryError (p : path)
| FileExistsError (p : path)
| IsADirectoryError (p : path)
| AssertionError (name : string)
| RuntimeError (m : runtime_msg)
| ValueError (p root : path)
| BadGzipFile (p : path)
| OSError (p : path)
| CalledProcessError (returncode : Z)
| RecursionError.

#[export] Instance runtime_msg_eq_dec : EqDecision runtime_msg.
Proof. solve_decision. Defined.
#[export] Instance exn_eq_dec : EqDecision exn.
Proof. solve_decision. Defined.

(** The error taxonomy of the specification (section 7). *)
Inductive error_kind :=
| NotFound | NotADirectory | AlreadyExists
| InvalidFormat | InvalidArgument | ProcessFailure | Unclassified.

Definition classify (e : exn) : error_kind :=
  match e with
  | FileNotFoundError _ => NotFound
  | NotADirectoryError _ => NotADirectory
  | FileExistsError _ => AlreadyExists
  | AssertionError _ => InvalidFormat
  | RuntimeError (NotAnImage _) => InvalidFormat
  | RuntimeError (InvalidCharacter _) => InvalidArgument
  | RuntimeError (ExtractFailed _) => ProcessFailure
  | RuntimeError (AppendFailed _) => ProcessFailure
  | RuntimeError (RepackFailed _) => ProcessFailure
  | _ => Unclassified
  end.

(** ** State and exception monad

    A raised exception keeps the state reached so far: nothing is rolled
    back when a Python call fails half-way. *)

Inductive outcome (A : Type) :=
| Ok (a : A)
| Raise (e : exn).
Arguments Ok {A} a.
Arguments Raise {A} e.

#[export] Instance outcome_eq_dec {A} `{EqDecision A} : EqDecision (outcome A).
Proof. solve_decision. Defined.

Definition M (A : Type) : Type := FS → outcome A * FS.

#[export] Instance M_ret : MRet M := λ A a fs, (Ok a, fs).
#[export] Instance M_bind : MBind M := λ A B f m fs,
  match m fs with
  | (Ok a, fs') => f a fs'
  | (Raise e, fs') => (Raise e, fs')
  end.

Definition raise {A} (e : exn) : M A := λ fs, (Raise e, fs).
Definition gets {A} (f : FS → A) : M A := λ fs, (Ok (f fs), fs).
Definition modify (f : FS → FS) : M unit := λ fs, (Ok tt, f fs).
Definition when_ (b : bool) (m : M unit) : M unit := if b then m else mret tt.

(** [try: body except <caught>: handler] *)
Definition try_except {A} (body : M A) (caught : exn → bool) (handler : M A) : M A :=
  λ fs,
    match body fs with
    | (Raise e, fs') => if caught e then handler fs' else (Raise e, fs')
    | r => r
    end.

Definition is_CalledProcessError (e : exn) : bool :=
  match e with CalledProcessError _ => true | _ => false end.

(** A [with] block whose context manager writes when it is left: on an
    exception in the body, [on_exit] is run and the exception goes on. *)
Definition with_exit {A} (body : M A) (on_exit : M unit) : M A :=
  λ fs,
    match body fs with
    | (Raise e, fs') => (Raise e, (on_exit fs').2)
    | r => r
    end.

(** ** Path resolution

    [walk] follows a path component by component from the root, the way
    the kernel does: a symbolic link met on the way is replaced by its
    target, at most [MAXSYMLINKS] times. *)

Inductive walk_result :=
| Found (q : path)
| Absent (q rest : path)
| NotDir (q rest : path)
| Loop.

Definition MAXSYMLINKS : nat := 40.

Fixpoint walk (fuel : nat) (fs : FS) (done todo : path) {struct fuel} : walk_result :=
  (fix go (done todo : path) {struct todo} : walk_result :=
     match todo with
     | [] => Found done
     | c :: rest =>
         match fs !! (done ++ [c]) with
         | Some (Symlink t) =>
             match fuel with
             | O => Loop
             | S f => walk f fs [] (t ++ rest)
             end
         | Some (Dir _) => go (done ++ [c]) rest
         | Some (File _ _) =>
             match rest with
             | [] => Found (done ++ [c])
             | _ :: _ => NotDir (done ++ [c]) rest
             end
         | None => Absent (done ++ [c]) rest
         end
     end) done todo.

(** [os.stat]: the canonical path and the node a path leads to. *)
Definition stat (fs : FS) (p : path) : option (path * node) :=
  match walk MAXSYMLINKS fs [] p with
  | Found q => (λ n, (q, n)) <$> fs !! q
  | _ => None
  end.

(** [os.lstat]: as [stat], the last component is not followed. *)
Definition lstat (fs : FS) (p : path) : option (path * node) :=
  match p with
  | [] => stat fs []
  | _ =>
      match stat fs (removelast p) with
      | Some (d, Dir _) =>
          let k := d ++ [List.last p ""] in (λ n, (k, n)) <$> fs !! k
      | _ => None
      end
  end.

Definition path_exists (fs : FS) (p : path) : bool :=
  match stat fs p with Some _ => true | None => false end.
Definition is_file (fs : FS) (p : path) : bool :=
  match stat fs p with Some (_, File _ _) => true | _ => false end.
Definition is_dir (fs : FS) (p : path) : bool :=
  match stat fs p with Some (_, Dir _) => true | _ => false end.
Definition is_symlink (fs : FS) (p : path) : bool :=
  match lstat fs p with Some (_, Symlink _) => true | _ => false end.

(** [Path.resolve()] (not strict): what is missing is appended as it is. *)
Definition resolve (p : path) : M path := λ fs,
  match walk MAXSYMLINKS fs [] p with
  | Found q => (Ok q, fs)
  | Absent q rest | NotDir q rest => (Ok (q ++ rest), fs)
  | Loop => (Raise (RuntimeError (SymlinkLoop p)), fs)
  end.

(** ** Pure path operations of [pathlib] *)

Definition name (p : path) : string := List.last p "".
Definition parent (p : path) : path := removelast p.

Fixpoint rfind_dot (s : string) (i : nat) : option nat :=
  match s with
  | EmptyString => None
  | String a s' =>
      match rfind_dot s' (S i) with
      | Some j => Some j
      | None => if Ascii.eqb a "." then Some i else None
      end
  end.

Definition suffix (nm : string) : string :=
  match rfind_dot nm 0 with
  | Some i =>
      if ((0 <? i) && (i <? String.length nm - 1))%nat
      then substring i (String.length nm - i) nm
      else ""
  | None => ""
  end.

Definition with_suffix_empty (p : path) : path :=
  let nm := name p in
  parent p ++ [substring 0 (String.length nm - String.length (suffix nm)) nm].

(** ** File operations *)

Definition default_mode : N := 420%N. (* 0o644 *)

Definition chmod (p : path) (mode : N) : M unit := λ fs,
  match stat fs p with
  | Some (q, File _ d) => (Ok tt, <[q := File mode d]> fs)
  | Some (q, Dir _) => (Ok tt, <[q := Dir mode]> fs)
  | _ => (Raise (FileNotFoundError p), fs)
  end.

Definition unlink (p : path) : M unit := λ fs,
  match lstat fs p with
  | Some (k, Dir _) => (Raise (IsADirectoryError p), fs)
  | Some (k, _) => (Ok tt, delete k fs)
  | None => (Raise (FileNotFoundError p), fs)
  end.

(** [open(p, "rb")] and [open(p, "r+b")]: the file must be there; nothing
    is created or truncated.  The handle is the canonical path. *)
Definition open_existing (p : path) : M path := λ fs,
  match stat fs p with
  | Some (q, File _ _) => (Ok q, fs)
  | Some (q, Dir _) => (Raise (IsADirectoryError p), fs)
  | _ => (Raise (FileNotFoundError p), fs)
  end.

(** [open(p, "w")], ["wb"], ["w+b"]: truncate, or create in an existing
    directory. *)
Definition open_truncate (p : path) : M path := λ fs,
  match walk MAXSYMLINKS fs [] p with
  | Found q =>
      match fs !! q with
      | Some (File m _) => (Ok q, <[q := File m []]> fs)
      | Some (Dir _) => (Raise (IsADirectoryError p), fs)
      | _ => (Raise (FileNotFoundError p), fs)
      end
  | Absent q [] => (Ok q, <[q := File default_mode []]> fs)
  | Absent _ (_ :: _) => (Raise (FileNotFoundError p), fs)
  | NotDir _ _ => (Raise (NotADirectoryError p), fs)
  | Loop => (Raise (OSError p), fs)
  end.

Definition read_handle (h : path) : M (list byte) := λ fs,
  match fs !! h with
  | Some (File _ d) => (Ok d, fs)
  | _ => (Raise (OSError h), fs)
  end.

Definition write_handle (h : path) (data : list byte) : M unit := λ fs,
  match fs !! h with
  | Some (File m d) => (Ok tt, <[h := File m (d ++ data)]> fs)
  | _ => (Raise (OSError h), fs)
  end.

(** What [open(p, "rb").read()] returns in a given state. *)
Definition read_file (fs : FS) (p : path) : option (list byte) :=
  match stat fs p with
  | Some (_, File _ d) => Some d
  | _ => None
  end.

(** ** MbrExtractor: [extract_mbr_from_iso] *)

Definition MBR_SIZE : nat := 432.

Definition image_suffixes : list string := [".iso"; ".img"].

Definition has_image_suffix (p : path) : bool :=
  bool_decide (suffix (name p) ∈ image_suffixes).

(** The part both modules share, from the first check on. *)
Definition extract_mbr_checked (path_to_output_file path_to_source_iso : path) : M unit :=
  fs ← gets id;
  if path_exists fs path_to_output_file
  then raise (FileExistsError path_to_output_file)
  else if negb (is_file fs path_to_source_iso)
  then raise (FileNotFoundError path_to_source_iso)
  else if negb (has_image_suffix path_to_source_iso)
  then raise (RuntimeError (NotAnImage path_to_source_iso))
  else
    iso_file ← open_existing path_to_source_iso;
    mbr_file ← open_truncate path_to_output_file;
    data ← read_handle iso_file;
    write_handle mbr_file (take MBR_SIZE data).




(** ** The world outside the two modules

    External programs, [gzip], the Unicode database of the interpreter and
    the names [tempfile] draws are not code of the repository: they are
    parameters of the model. *)

(** An element of an argument vector: a [str] literal, a [str] given by
    the caller (a sequence of code points), a [Path] object, or the [str]
    of a [Path]. *)
Inductive arg :=
| Str (s : string)
| Text (t : list N)
| PathArg (p : path)
| StrOf (p : path).

Record Env := {
  (** a program run without a shell: argument vector, working directory,
      standard input; the result is the return code *)
  run_process : list arg → option path → list byte → M Z;
  (** [/bin/sh -c] on the first element, the others being the positional
      parameters of the shell *)
  run_shell : list arg → M Z;
  gzip_compress : list byte → list byte;
  gzip_decompress : list byte → option (list byte);
  (** [str.isalnum] above Latin-1 *)
  unicode_isalnum : N → bool;
  (** [tempfile.gettempdir()] and the names drawn by the n-th [mkdtemp] *)
  gettempdir : path;
  candidate_names : nat → list string;
}.

(** [subprocess.run(argv, check=True)] *)
Definition subprocess_run_check (E : Env) (argv : list arg) : M unit :=
  rc ← run_process E argv None [];
  if (rc =? 0)%Z then mret tt else raise (CalledProcessError rc).

(** [subprocess.run(argv, shell=True, check=True)] *)
Definition subprocess_run_shell_check (E : Env) (argv : list arg) : M unit :=
  rc ← run_shell E argv;
  if (rc =? 0)%Z then mret tt else raise (CalledProcessError rc).

(** [Popen(argv, cwd=cwd, stdin=PIPE, ...).communicate(input)]: the
    process is waited for and its return code is kept in the [Popen]
    object; no exception is raised for a non-zero return code. *)
Definition popen_communicate (E : Env) (argv : list arg) (cwd : path) (input : list byte) : M Z :=
  run_process E argv (Some cwd) input.

(** [os.system(command)] *)
Definition os_system (E : Env) (command : string) : M Z :=
  run_shell E [Str command].

(** ** The filesystem-name check of [repack_iso]

    [re.compile(r"[^\w .-]").search(name)]: in a [str] pattern [\w] is
    [Py_UNICODE_ISALNUM(ch) || ch == '_']. *)

Definition in_range (lo hi c : N) : bool := ((lo <=? c) && (c <=? hi))%N.

Definition latin1_isalnum (c : N) : bool :=
  in_range 48 57 c || in_range 65 90 c || in_range 97 122 c
  || in_range 170 170 c || in_range 178 179 c || in_range 181 181 c
  || in_range 185 186 c || in_range 188 190 c || in_range 192 214 c
  || in_range 216 246 c || in_range 248 255 c.

Definition Py_UNICODE_ISALNUM (E : Env) (c : N) : bool :=
  if (c <? 256)%N then latin1_isalnum c else unicode_isalnum E c.

Definition re_word (E : Env) (c : N) : bool :=
  Py_UNICODE_ISALNUM E c || (c =? 95)%N.

(** the class [[^\w .-]] *)
Definition invalid_char (E : Env) (c : N) : bool :=
  negb (re_word E c || (c =? 32)%N || (c =? 46)%N || (c =? 45)%N).

(** the first match of the one-character pattern, if any *)
Definition search_invalid_char (E : Env) (name : list N) : option N :=
  List.find (invalid_char E) name.

Definition mkisofs_argv (name : list N) (out mbr root : path) : list arg :=
  [ Str "xorriso"; Str "-as"; Str "mkisofs";
    Str "-r"; Str "-V"; Text name;
    Str "-o"; PathArg out;
    Str "-J"; Str "-J"; Str "-joliet-long"; Str "-cache-inodes";
    Str "-isohybrid-mbr"; PathArg mbr;
    Str "-b"; Str "isolinux/isolinux.bin";
    Str "-c"; Str "isolinux/boot.cat";
    Str "-boot-load-size"; Str "4"; Str "-boot-info-table"; Str "-no-emul-boot";
    Str "-eltorito-alt-boot";
    Str "-e"; Str "boot/grub/efi.img"; Str "-no-emul-boot";
    Str "-isohybrid-gpt-basdat"; Str "-isohybrid-apm-hfsplus";
    PathArg root ].

Definition osirrox_argv (src dst : path) : list arg :=
  [ Str "xorriso"; Str "-osirrox"; Str "on"; Str "-indev"; PathArg src;
    Str "-extract"; Str "/"; PathArg dst ].

(** ** The two halves of the initrd rewrite

    [gzip.open] and [shutil.copyfileobj]; the copy is taken as one step:
    a stream that does not decompress leaves the new file empty. *)

Definition bytes_of (s : string) : list byte := list_byte_of_string s.

Definition gunzip_to (E : Env) (archive extracted : path) : M unit :=
  file_gz ← open_existing archive;
  file_raw ← open_truncate extracted;
  data ← read_handle file_gz;
  match gzip_decompress E data with
  | Some raw => write_handle file_raw raw
  | None => raise (BadGzipFile archive)
  end.

Definition gzip_from (E : Env) (archive extracted : path) : M unit :=
  file_gz ← open_truncate archive;
  with_exit
    (file_raw ← open_existing extracted;
     data ← read_handle file_raw;
     write_handle file_gz (gzip_compress E data))
    (write_handle file_gz (gzip_compress E [])).

Definition cpio_append_argv (extracted : path) : list arg :=
  [ Str "cpio"; Str "-H"; Str "newc"; Str "-o"; Str "-A"; Str "-F"; StrOf extracted ].

(** ** [hashlib.md5] (RFC 1321)

    32-bit words are [N] with the wrap-around written out. *)

Module MD5.

Definition mask32 : N := 4294967295%N.
Definition add32 (a b : N) : N := N.land (a + b) mask32.
Definition not32 (a : N) : N := N.lxor (N.land a mask32) mask32.
Definition rotl32 (x s : N) : N :=
  N.land (N.lor (N.shiftl x s) (N.shiftr (N.land x mask32) (32 - s))) mask32.

Definition K : list N :=
  [ 3614090360; 3905402710; 606105819; 3250441966; 4118548399; 1200080426;
    2821735955; 4249261313; 1770035416; 2336552879; 4294925233; 2304563134;
    1804603682; 4254626195; 2792965006; 1236535329; 4129170786; 3225465664;
    643717713; 3921069994; 3593408605; 38016083; 3634488961; 3889429448;
    568446438; 3275163606; 4107603335; 1163531501; 2850285829; 4243563512;
    1735328473; 2368359562; 4294588738; 2272392833; 1839030562; 4259657740;
    2763975236; 1272893353; 4139469664; 3200236656; 681279174; 3936430074;
    3572445317; 76029189; 3654602809; 3873151461; 530742520; 3299628645;
    4096336452; 1126891415; 2878612391; 4237533241; 1700485571; 2399980690;
    4293915773; 2240044497; 1873313359; 4264355552; 2734768916; 1309151649;
    4149444226; 3174756917; 718787259; 3951481745 ]%N.

Definition S : list N :=
  [ 7; 12; 17; 22; 7; 12; 17; 22; 7; 12; 17; 22; 7; 12; 17; 22;
    5; 9; 14; 20; 5; 9; 14; 20; 5; 9; 14; 20; 5; 9; 14; 20;
    4; 11; 16; 23; 4; 11; 16; 23; 4; 11; 16; 23; 4; 11; 16; 23;
    6; 10; 15; 21; 6; 10; 15; 21; 6; 10; 15; 21; 6; 10; 15; 21 ]%N.

Record state := { sa : N; sb : N; sc : N; sd : N }.

Definition init : state :=
  {| sa := 1732584193; sb := 4023233417; sc := 2562383102; sd := 271733878 |}%N.

Definition round (words : list N) (st : state) (i : nat) : state :=
  let '(f, g) :=
    if (i <? 16)%nat then
      (N.lor (N.land (sb st) (sc st)) (N.land (not32 (sb st)) (sd st)), i)
    else if (i <? 32)%nat then
      (N.lor (N.land (sd st) (sb st)) (N.land (not32 (sd st)) (sc st)),
       ((5 * i + 1) mod 16)%nat)
    else if (i <? 48)%nat then
      (N.lxor (sb st) (N.lxor (sc st) (sd st)), ((3 * i + 5) mod 16)%nat)
    else
      (N.lxor (sc st) (N.lor (sb st) (not32 (sd st))), ((7 * i) mod 16)%nat) in
  let f' := add32 (add32 (add32 f (sa st)) (nth i K 0%N)) (nth g words 0%N) in
  {| sa := sd st; sd := sc st; sc := sb st;
     sb := add32 (sb st) (rotl32 f' (nth i S 0%N)) |}.

Definition word_of_bytes (bs : list N) : N :=
  (nth 0 bs 0 + 256 * nth 1 bs 0 + 65536 * nth 2 bs 0 + 16777216 * nth 3 bs 0)%N.

Definition bytes_of_word (w : N) : list N :=
  [ N.land w 255; N.land (N.shiftr w 8) 255;
    N.land (N.shiftr w 16) 255; N.land (N.shiftr w 24) 255 ]%N.

Fixpoint words_of (n : nat) (bs : list N) : list N :=
  match n with
  | O => []
  | Datatypes.S n' => word_of_bytes (take 4 bs) :: words_of n' (drop 4 bs)
  end.

Definition process_chunk (st : state) (chunk : list N) : state :=
  let words := words_of 16 chunk in
  let st' := fold_left (round words) (seq 0 64) st in
  {| sa := add32 (sa st) (sa st'); sb := add32 (sb st) (sb st');
     sc := add32 (sc st) (sc st'); sd := add32 (sd st) (sd st') |}.

Fixpoint process (n : nat) (st : state) (bs : list N) : state :=
  match n with
  | O => st
  | Datatypes.S n' => process n' (process_chunk st (take 64 bs)) (drop 64 bs)
  end.

Definition length_bytes (bits : N) : list N :=
  map (λ i, N.land (N.shiftr bits (8 * N.of_nat i)) 255) (seq 0 8).

Definition pad (msg : list N) : list N :=
  let len := length msg in
  let zeros := ((55 + 64 - len mod 64) mod 64)%nat in
  msg ++ [128%N] ++ repeat 0%N zeros ++ length_bytes (8 * N.of_nat len).

Definition digest (msg : list byte) : list N :=
  let padded := pad (map Byte.to_N msg) in
  let st := process (length padded / 64) init padded in
  bytes_of_word (sa st) ++ bytes_of_word (sb st)
  ++ bytes_of_word (sc st) ++ bytes_of_word (sd st).

Definition hex_digit (n : N) : ascii :=
  nth (N.to_nat n)
    [ "0"; "1"; "2"; "3"; "4"; "5"; "6"; "7"; "8"; "9";
      "a"; "b"; "c"; "d"; "e"; "f" ]%char "0"%char.

Fixpoint hex (bs : list N) : string :=
  match bs with
  | [] => EmptyString
  | b :: bs' => String (hex_digit (N.shiftr b 4)) (String (hex_digit (N.land b 15)) (hex bs'))
  end.

(** [hashlib.md5(data).hexdigest()] *)
Definition hexdigest (msg : list byte) : string := hex (digest msg).

End MD5.

(** ** Directory listing and the checksum manifest *)

(** [Path.iterdir()]: the entries of a directory, as paths; the order is
    that of the underlying map, as arbitrary as that of [os.listdir]. *)
Definition iterdir (fs : FS) (d : path) : list path :=
  List.filter (λ k, bool_decide (k ≠ [] ∧ removelast k = d)) (map fst (map_to_list fs)).

(** The loop [for subpath in ...: files += visit(subpath)], stopped by the
    first exception. *)
Fixpoint collect (visit : path → outcome (list path)) (subpaths : list path)
  : outcome (list path) :=
  match subpaths with
  | [] => Ok []
  | subpath :: rest =>
      match visit subpath with
      | Raise e => Raise e
      | Ok found =>
          match collect visit rest with
          | Raise e => Raise e
          | Ok files => Ok (found ++ files)
          end
      end
  end.

(** [_find_all_files_under], with the depth of the recursion as fuel. *)
Fixpoint find_files_from (depth : nat) (fs : FS) (parent_dir : path)
  : outcome (list path) :=
  match depth with
  | O => Raise RecursionError
  | S depth' =>
      match resolve parent_dir fs with
      | (Raise e, _) => Raise e
      | (Ok parent_dir, _) =>
          if negb (is_dir fs parent_dir)
          then Raise (NotADirectoryError parent_dir)
          else
            collect
              (λ subpath,
                 if is_file fs subpath then
                   match resolve subpath fs with
                   | (Ok resolved, _) => Ok [resolved]
                   | (Raise e, _) => Raise e
                   end
                 else if negb (is_symlink fs subpath) && is_dir fs subpath then
                   find_files_from depth' fs subpath
                 else Ok [])
              (iterdir fs parent_dir)
      end
  end.

(** The longest path of the name space bounds the depth of the recursion;
    the recursion limit of the interpreter is not modelled. *)
Definition max_depth (fs : FS) : nat :=
  foldr Nat.max O (map (λ kv, length kv.1) (map_to_list fs)).

Definition find_all_files (parent_dir : path) : M (list path) := λ fs,
  (find_files_from (S (max_depth fs)) fs parent_dir, fs).

(** [subpath.relative_to(root)] *)
Fixpoint strip_prefix (root p : path) : option path :=
  match root, p with
  | [], _ => Some p
  | r :: root', c :: p' => if String.eqb r c then strip_prefix root' p' else None
  | _ :: _, [] => None
  end.

Definition relative_to (p root : path) : M path :=
  match strip_prefix root p with
  | Some rel => mret rel
  | None => raise (ValueError p root)
  end.

(** [str] of a relative path *)
Fixpoint join_path (rel : path) : string :=
  match rel with
  | [] => "."
  | [c] => c
  | c :: rel' => (c ++ "/" ++ join_path rel')%string
  end.

Definition newline : string := String (ascii_of_nat 10) EmptyString.

Definition manifest_line (data : list byte) (rel : path) : string :=
  (MD5.hexdigest data ++ "  " ++ join_path rel ++ newline)%string.

Fixpoint for_each {A} (l : list A) (body : A → M unit) : M unit :=
  match l with
  | [] => mret tt
  | x :: l' => body x;; for_each l' body
  end.

(** [regenerate_iso_md5sums_file], the same in both modules but for the
    function that enumerates the files. *)
Definition regenerate_with (find_all_files_under : path → M (list path))
    (path_to_extracted_iso_root : path) : M unit :=
  path_to_extracted_iso_root ← resolve path_to_extracted_iso_root;
  fs ← gets id;
  if negb (is_dir fs path_to_extracted_iso_root)
  then raise (NotADirectoryError path_to_extracted_iso_root)
  else
    let path_to_md5sum_file := path_to_extracted_iso_root ++ ["md5sum.txt"] in
    chmod path_to_md5sum_file 420;;
    chmod (parent path_to_md5sum_file) 493;;
    unlink path_to_md5sum_file;;
    subpaths ← find_all_files_under path_to_extracted_iso_root;
    md5sum_file ← open_truncate path_to_md5sum_file;
    for_each subpaths
      (λ subpath,
         file ← open_existing subpath;
         data ← read_handle file;
         rel ← relative_to subpath path_to_extracted_iso_root;
         write_handle md5sum_file (bytes_of (manifest_line data rel)));;
    chmod path_to_md5sum_file 292;;
    chmod (parent path_to_md5sum_file) 365.

(** ** [tempfile.TemporaryDirectory] and the shell commands *)

(** [os.mkdir]: the directories above are resolved, the last component
    is not followed. *)
Definition mkdir (p : path) (mode : N) : M unit := λ fs,
  match p with
  | [] => (Raise (FileExistsError p), fs)
  | _ =>
      match walk MAXSYMLINKS fs [] (removelast p) with
      | Found d =>
          match fs !! d with
          | Some (Dir _) =>
              let k := d ++ [List.last p ""] in
              match fs !! k with
              | Some _ => (Raise (FileExistsError p), fs)
              | None => (Ok tt, <[k := Dir mode]> fs)
              end
          | Some _ => (Raise (NotADirectoryError p), fs)
          | None => (Raise (FileNotFoundError p), fs)
          end
      | Absent _ _ => (Raise (FileNotFoundError p), fs)
      | NotDir _ _ => (Raise (NotADirectoryError p), fs)
      | Loop => (Raise (OSError p), fs)
      end
  end.

(** [tempfile.mkdtemp]: the candidate names are tried in turn; a name that
    exists is passed over. *)
Fixpoint mkdtemp_from (dir : path) (names : list string) : M path :=
  match names with
  | [] => raise (FileExistsError dir)
  | nm :: rest =>
      λ fs,
        match mkdir (dir ++ [nm]) 448 fs with
        | (Ok _, fs') => (Ok (dir ++ [nm]), fs')
        | (Raise (FileExistsError _), _) => mkdtemp_from dir rest fs
        | (Raise e, fs') => (Raise e, fs')
        end
  end.

(** The n-th [TemporaryDirectory()] of a run; the result is its [name]. *)
Definition TemporaryDirectory (E : Env) (n : nat) : M path :=
  mkdtemp_from (gettempdir E) (candidate_names E n).

(** [shutil.rmtree] on a directory: the entry and all below it go. *)
Definition rmtree (k : path) (fs : FS) : FS :=
  filter (λ kv, ¬ k `prefix_of` kv.1) fs.

(** [TemporaryDirectory.cleanup()]: a name that is not there is passed
    over; [rmtree] refuses a symbolic link and fails on a file. *)
Definition cleanup (name : path) : M unit := λ fs,
  match lstat fs name with
  | None => (Ok tt, fs)
  | Some (k, Dir _) => (Ok tt, rmtree k fs)
  | Some (_, Symlink _) => (Raise (OSError name), fs)
  | Some (_, File _ _) => (Raise (NotADirectoryError name), fs)
  end.

(** [str] of an absolute path *)
Definition path_str (p : path) : string :=
  match p with
  | [] => "/"
  | _ => List.fold_right (λ c s, "/" ++ c ++ s)%string EmptyString p
  end.

(** The double quote of the command strings *)
Definition dq : string := String (ascii_of_nat 34) EmptyString.

(** [needle in hay] on [str] *)
Fixpoint contains (needle hay : string) : bool :=
  String.prefix needle hay ||
  match hay with
  | EmptyString => false
  | String _ hay' => contains needle hay'
  end.

(** The three groups of shell commands of [inject_files_into_iso]; the
    return value of [os.system] is not looked at. *)
Definition remove_xen (E : Env) (dir : string) (arch : string) : M unit :=
  os_system E ("chmod +w '" ++ dir ++ "/install." ++ arch ++ "'");;
  os_system E ("chmod -R +w '" ++ dir ++ "/install." ++ arch ++ "/xen'");;
  os_system E ("rm -rf '" ++ dir ++ "/install." ++ arch ++ "/xen'");;
  os_system E ("chmod -w '" ++ dir ++ "/install." ++ arch ++ "'");;
  mret tt.

Definition inject_tree_files (E : Env) (dir arch dist testing : string) : M unit :=
  os_system E ("chmod +w " ++ dir ++ "/boot/grub");;
  os_system E ("chmod +w " ++ dir ++ "/boot/grub/grub.cfg");;
  os_system E ("chmod -R +w " ++ dir ++ "/isolinux");;
  os_system E ("cp -r ./files_to_inject/* " ++ dir ++ "/");;
  os_system E ("sed " ++ dq ++ "s@__ARCH__@" ++ arch ++ "@g" ++ dq ++ " -i "
               ++ dq ++ dir ++ "/isolinux/menu.cfg" ++ dq);;
  os_system E ("sed " ++ dq ++ "s@__DIST__@" ++ dist ++ "@g" ++ dq ++ " -i "
               ++ dq ++ dir ++ "/preseeds/" ++ dq ++ "*");;
  os_system E ("sed " ++ dq ++ "s@__TESTING__@" ++ testing ++ "@g" ++ dq ++ " -i "
               ++ dq ++ dir ++ "/preseeds/" ++ dq ++ "*");;
  os_system E ("chmod -w " ++ dir ++ "/boot/grub");;
  os_system E ("chmod -w " ++ dir ++ "/boot/grub/grub.cfg");;
  os_system E ("chmod -R -w " ++ dir ++ "/isolinux");;
  os_system E ("chmod -R -w " ++ dir ++ "/preseeds");;
  mret tt.

Definition stage_logo (E : Env) (tmp : string) : M unit :=
  os_system E ("mkdir -p " ++ tmp ++ "/usr/share/graphics/");;
  os_system E ("cp ./files_to_inject/logo.png " ++ tmp ++ "/usr/share/graphics/logo_debian.png");;
  mret tt.

(** * [src/udib/modiso.py] *)

Module Modiso.

Definition extract_iso (E : Env) (path_to_output_dir path_to_input_file : path) : M unit :=
  fs ← gets id;
  if negb (is_dir fs path_to_output_dir)
  then raise (NotADirectoryError path_to_output_dir)
  else if negb (is_file fs path_to_input_file)
  then raise (FileNotFoundError path_to_input_file)
  else
    try_except
      (src ← resolve path_to_input_file;
       dst ← resolve path_to_output_dir;
       subprocess_run_check E (osirrox_argv src dst))
      is_CalledProcessError
      (raise (RuntimeError (ExtractFailed path_to_input_file))).

Definition repack_iso (E : Env) (path_to_output_iso path_to_mbr_data_file
                                 path_to_input_files_root_dir : path)
                      (created_iso_filesystem_name : list N) : M unit :=
  fs ← gets id;
  if path_exists fs path_to_output_iso
  then raise (FileExistsError path_to_output_iso)
  else if negb (is_file fs path_to_mbr_data_file)
  then raise (FileNotFoundError path_to_mbr_data_file)
  else if negb (is_dir fs path_to_input_files_root_dir)
  then raise (NotADirectoryError path_to_input_files_root_dir)
  else
    match search_invalid_char E created_iso_filesystem_name with
    | Some c => raise (RuntimeError (InvalidCharacter c))
    | None =>
        try_except
          (out ← resolve path_to_output_iso;
           mbr ← resolve path_to_mbr_data_file;
           root ← resolve path_to_input_files_root_dir;
           subprocess_run_check E
             (mkisofs_argv created_iso_filesystem_name out mbr root))
          is_CalledProcessError
          (raise (RuntimeError (RepackFailed path_to_input_files_root_dir)))
    end.

(** [src/udib/modiso.py]: the paths are used as given. *)
Definition extract_mbr_from_iso (path_to_output_file path_to_source_iso : path) : M unit :=
  extract_mbr_checked path_to_output_file path_to_source_iso.

Definition append_file_contents_to_initrd_archive (E : Env)
    (path_to_initrd_archive path_to_input_file : path) : M unit :=
  fs ← gets id;
  if negb (is_file fs path_to_initrd_archive)
  then raise (FileNotFoundError path_to_initrd_archive)
  else if negb (String.eqb (name path_to_initrd_archive) "initrd.gz")
  then raise (AssertionError (name path_to_initrd_archive))
  else if negb (is_file fs path_to_input_file)
  then raise (FileNotFoundError path_to_input_file)
  else
    chmod path_to_initrd_archive 420;;
    chmod (parent path_to_initrd_archive) 493;;
    let path_to_initrd_extracted := with_suffix_empty path_to_initrd_archive in
    gunzip_to E path_to_initrd_archive path_to_initrd_extracted;;
    unlink path_to_initrd_archive;;
    try_except
      (input ← resolve path_to_input_file;
       extracted ← resolve path_to_initrd_extracted;
       subprocess_run_shell_check E
         (Str "echo" :: StrOf input :: Str "|" :: cpio_append_argv extracted))
      is_CalledProcessError
      (raise (RuntimeError (AppendFailed path_to_initrd_archive)));;
    gzip_from E path_to_initrd_archive path_to_initrd_extracted;;
    unlink path_to_initrd_extracted;;
    chmod path_to_initrd_archive 292;;
    chmod (parent path_to_initrd_archive) 365.

Definition _find_all_files_under (parent_dir : path) : M (list path) :=
  find_all_files parent_dir.

Definition regenerate_iso_md5sums_file (path_to_extracted_iso_root : path) : M unit :=
  regenerate_with _find_all_files_under path_to_extracted_iso_root.

End Modiso.

(** * [src/iso/injection.py] *)

Module Injection.

Definition extract_iso (E : Env) (path_to_output_dir path_to_input_file : path) : M unit :=
  path_to_output_dir ← resolve path_to_output_dir;
  path_to_input_file ← resolve path_to_input_file;
  fs ← gets id;
  if negb (is_dir fs path_to_output_dir)
  then raise (NotADirectoryError path_to_output_dir)
  else if negb (is_file fs path_to_input_file)
  then raise (FileNotFoundError path_to_input_file)
  else
    try_except
      (subprocess_run_check E (osirrox_argv path_to_input_file path_to_output_dir))
      is_CalledProcessError
      (raise (RuntimeError (ExtractFailed path_to_input_file))).

Definition repack_iso (E : Env) (path_to_output_iso path_to_mbr_data_file
                                 path_to_input_files_root_dir : path)
                      (created_iso_filesystem_name : list N) : M unit :=
  path_to_output_iso ← resolve path_to_output_iso;
  path_to_mbr_data_file ← resolve path_to_mbr_data_file;
  path_to_input_files_root_dir ← resolve path_to_input_files_root_dir;
  fs ← gets id;
  if path_exists fs path_to_output_iso
  then raise (FileExistsError path_to_output_iso)
  else if negb (is_file fs path_to_mbr_data_file)
  then raise (FileNotFoundError path_to_mbr_data_file)
  else if negb (is_dir fs path_to_input_files_root_dir)
  then raise (NotADirectoryError path_to_input_files_root_dir)
  else
    match search_invalid_char E created_iso_filesystem_name with
    | Some c => raise (RuntimeError (InvalidCharacter c))
    | None =>
        try_except
          (subprocess_run_check E
             (mkisofs_argv created_iso_filesystem_name path_to_output_iso
                path_to_mbr_data_file path_to_input_files_root_dir))
          is_CalledProcessError
          (raise (RuntimeError (RepackFailed path_to_input_files_root_dir)))
    end.

(** [src/iso/injection.py]: the output path is resolved first, the
    source path is not. *)
Definition extract_mbr_from_iso (path_to_output_file path_to_source_iso : path) : M unit :=
  out ← resolve path_to_output_file;
  extract_mbr_checked out path_to_source_iso.

Definition append_file_contents_to_initrd_archive (E : Env)
    (path_to_initrd_archive base_dir : path)
    (relative_path_to_input_file : string) : M unit :=
  path_to_initrd_archive ← resolve path_to_initrd_archive;
  fs ← gets id;
  if negb (is_file fs path_to_initrd_archive)
  then raise (FileNotFoundError path_to_initrd_archive)
  else if negb (String.eqb (name path_to_initrd_archive) "initrd.gz")
  then raise (AssertionError (name path_to_initrd_archive))
  else
    chmod path_to_initrd_archive 420;;
    chmod (parent path_to_initrd_archive) 493;;
    let path_to_initrd_extracted := with_suffix_empty path_to_initrd_archive in
    gunzip_to E path_to_initrd_archive path_to_initrd_extracted;;
    unlink path_to_initrd_archive;;
    try_except
      (extracted ← resolve path_to_initrd_extracted;
       popen_communicate E (cpio_append_argv extracted) base_dir
         (bytes_of relative_path_to_input_file);;
       mret tt)
      is_CalledProcessError
      (raise (RuntimeError (AppendFailed path_to_initrd_archive)));;
    gzip_from E path_to_initrd_archive path_to_initrd_extracted;;
    unlink path_to_initrd_extracted;;
    chmod path_to_initrd_archive 292;;
    chmod (parent path_to_initrd_archive) 365.

(** [find_all_files_under] is imported from [core.utils], which is not
    among the sources: it is a parameter. *)
Definition regenerate_iso_md5sums_file (find_all_files_under : path → M (list path))
    (path_to_extracted_iso_root : path) : M unit :=
  regenerate_with find_all_files_under path_to_extracted_iso_root.

(** The names [inject_files_into_iso] derives from the name of the input
    image. *)
Definition arch_of (nm : string) : string :=
  if contains "amd64" nm then "amd" else "386".
Definition dist_of (nm : string) : string :=
  if contains "debian-12" nm then "bookworm" else "bullseye".
Definition testing_of (dist : string) : string :=
  if String.eqb dist "bookworm" then "testing" else "".

(** The printer only writes to the terminal and is left out; the three
    [cleanup()] calls are the last statements, outside any [finally]. *)
Definition inject_files_into_iso (E : Env)
    (find_all_files_under : path → M (list path))
    (path_to_output_iso_file path_to_input_iso_file : path)
    (iso_filesystem_name : list N) : M unit :=
  path_to_input_iso_file ← resolve path_to_input_iso_file;
  fs ← gets id;
  if negb (is_file fs path_to_input_iso_file)
  then raise (FileNotFoundError path_to_input_iso_file)
  else
    path_to_output_iso_file ← resolve path_to_output_iso_file;
    fs ← gets id;
    if is_file fs path_to_output_iso_file
    then raise (FileExistsError path_to_output_iso_file)
    else if negb (is_dir fs (parent path_to_output_iso_file))
    then raise (NotADirectoryError (parent path_to_output_iso_file))
    else
      path_to_extracted_iso_dir ← TemporaryDirectory E 0;
      extract_iso E path_to_extracted_iso_dir path_to_input_iso_file;;
      path_to_mbr_dir ← TemporaryDirectory E 1;
      let path_to_mbr_file := path_to_mbr_dir ++ ["mbr.bin"] in
      extract_mbr_from_iso path_to_mbr_file path_to_input_iso_file;;
      let arch := arch_of (name path_to_input_iso_file) in
      let dist := dist_of (name path_to_input_iso_file) in
      let testing := testing_of dist in
      remove_xen E (path_str path_to_extracted_iso_dir) arch;;
      inject_tree_files E (path_str path_to_extracted_iso_dir) arch dist testing;;
      temp_file_dir ← TemporaryDirectory E 2;
      stage_logo E (path_str temp_file_dir);;
      append_file_contents_to_initrd_archive E
        (path_to_extracted_iso_dir ++ [("install." ++ arch)%string; "gtk"; "initrd.gz"])
        temp_file_dir "usr/share/graphics/logo_debian.png";;
      regenerate_iso_md5sums_file find_all_files_under path_to_extracted_iso_dir;;
      repack_iso E path_to_output_iso_file path_to_mbr_file path_to_extracted_iso_dir
        iso_filesystem_name;;
      cleanup temp_file_dir;;
      cleanup path_to_mbr_dir;;
      cleanup path_to_extracted_iso_dir.

End Injection.

(** ** Predicates used in the statements *)

(** The kind of a node: what path resolution looks at. *)
Definition kind (n : node) : node :=
  match n with
  | File _ _ => File 0 []
  | Dir _ => Dir 0
  | Symlink t => Symlink t
  end.

(** [extends fs fs']: every entry of [fs] is in [fs'] with the same kind. *)
Definition extends (fs fs' : FS) : Prop :=
  ∀ k n, fs !! k = Some n → ∃ n', fs' !! k = Some n' ∧ kind n' = kind n.

(** [dirs_to fs d]: every component on the way to [d], and [d] itself, is
    a real directory. *)
Definition dirs_to (fs : FS) (d : path) : Prop :=
  ∀ pre c post, d = pre ++ c :: post → ∃ m, fs !! (pre ++ [c]) = Some (Dir m).

(** Where a walk can end. *)
Definition canonical (fs : FS) (q : path) : Prop :=
  dirs_to fs q ∨ ∃ d c m x, q = d ++ [c] ∧ dirs_to fs d ∧ fs !! q = Some (File m x).

Definition creatable (fs : FS) (q : path) : Prop :=
  ∃ d c, q = d ++ [c] ∧ dirs_to fs d ∧ fs !! q = None.

(** The kernel would create a file at [p]: the path leads to no node and
    the directory that is to hold the new entry exists. *)
Definition can_create (fs : FS) (p : path) : bool :=
  match walk MAXSYMLINKS fs [] p with
  | Absent _ [] => true
  | _ => false
  end.


(** ** Example states *)

(** A 500-byte image in [/srv]; [/tmp] exists, [/srv/out] does not. *)
Definition image_500 : list byte := repeat "x"%byte 500.

Definition fs_image : FS :=
  list_to_map
    [ ([], Dir 493%N);
      (["srv"], Dir 493%N);
      (["srv"; "debian.iso"], File 420%N image_500);
      (["tmp"], Dir 511%N);
      (["tmp"; "old.bin"], File 420%N (bytes_of "previous")) ].

(** The class [[A-Za-z0-9 ._-]] of the specification. *)
Definition ascii_name_char (c : N) : bool :=
  in_range 48 57 c || in_range 65 90 c || in_range 97 122 c
  || (c =? 32)%N || (c =? 46)%N || (c =? 95)%N || (c =? 45)%N.

(** No symbolic-link loop on the way along [p]. *)
Definition loop_free (fs : FS) (p : path) : bool :=
  match walk MAXSYMLINKS fs [] p with
  | Loop => false
  | _ => true
  end.

(** ** A stand-in environment for the examples

    [xorriso -as mkisofs] writes an image at its [-o] path; [xorriso
    -osirrox] unpacks a small installer tree; [cpio] appends its input to
    the archive named after [-F] and returns a given code; every other
    program returns 0 and changes nothing.  [gzip] is a two-byte header. *)

Fixpoint path_after (flag : string) (argv : list arg) : option path :=
  match argv with
  | [] => None
  | Str f :: rest =>
      match rest with
      | PathArg p :: _ | StrOf p :: _ =>
          if String.eqb f flag then Some p else path_after flag rest
      | _ => path_after flag rest
      end
  | _ :: rest => path_after flag rest
  end.

Definition last_path (argv : list arg) : option path :=
  match List.last argv (Str "") with
  | PathArg p | StrOf p => Some p
  | _ => None
  end.

Definition demo_gzip (d : list byte) : list byte := "031"%byte :: "139"%byte :: d.
Definition demo_gunzip (d : list byte) : option (list byte) :=
  match d with
  | "031"%byte :: "139"%byte :: d' => Some d'
  | _ => None
  end.

Definition demo_tree (dst : path) : list (path * node) :=
  [ (dst ++ ["md5sum.txt"], File 292%N (bytes_of "stale"));
    (dst ++ ["install.386"], Dir 365%N);
    (dst ++ ["install.386"; "gtk"], Dir 365%N);
    (dst ++ ["install.386"; "gtk"; "initrd.gz"],
       File 292%N (demo_gzip (bytes_of "cpio:")));
    (dst ++ ["isolinux"], Dir 365%N);
    (dst ++ ["isolinux"; "menu.cfg"], File 292%N (bytes_of "menu")) ].

Definition demo_run_process (cpio_rc : Z) (argv : list arg) (cwd : option path)
    (input : list byte) : M Z :=
  match argv with
  | Str prog :: Str a1 :: _ =>
      if String.eqb prog "xorriso" && String.eqb a1 "-as" then
        match path_after "-o" argv with
        | Some out => h ← open_truncate out; write_handle h (bytes_of "ISO");; mret 0%Z
        | None => mret 1%Z
        end
      else if String.eqb prog "xorriso" && String.eqb a1 "-osirrox" then
        match last_path argv with
        | Some dst => modify (λ fs, list_to_map (demo_tree dst) ∪ fs);; mret 0%Z
        | None => mret 1%Z
        end
      else if String.eqb prog "cpio" then
        if (cpio_rc =? 0)%Z then
          match path_after "-F" argv with
          | Some archive => write_handle archive input;; mret 0%Z
          | None => mret 1%Z
          end
        else mret cpio_rc
      else mret 0%Z
  | _ => mret 0%Z
  end.

Definition demo_env (cpio_rc : Z) : Env :=
  {| run_process := demo_run_process cpio_rc;
     run_shell := λ _, mret 0%Z;
     gzip_compress := demo_gzip;
     gzip_decompress := demo_gunzip;
     unicode_isalnum := λ _, false;
     gettempdir := ["tmp"];
     candidate_names := λ n, match n with
                             | O => ["old.bin"; "tmpa"]
                             | 1%nat => ["tmpb"]
                             | _ => ["tmpc"]
                             end |}.

(** An extracted tree with its initrd, a link to it, and a staging
    directory. *)
Definition fs_initrd : FS :=
  list_to_map
    [ ([], Dir 493%N);
      (["iso"], Dir 365%N);
      (["iso"; "initrd.gz"], File 292%N (demo_gzip (bytes_of "cpio:")));
      (["iso"; "vmlinuz"], File 292%N (bytes_of "kernel"));
      (["iso"; "ramdisk"], Symlink ["iso"; "initrd.gz"]);
      (["stage"], Dir 493%N);
      (["stage"; "logo.png"], File 420%N (bytes_of "png")) ].

(** [file_below fs d rel]: from the directory [d], the relative path [rel]
    leads through real directories to a regular file. *)
Fixpoint file_below (fs : FS) (d rel : path) : Prop :=
  match rel with
  | [] => False
  | c :: rel' =>
      match rel' with
      | [] => ∃ m x, fs !! (d ++ [c]) = Some (File m x)
      | _ :: _ => (∃ m, fs !! (d ++ [c]) = Some (Dir m)) ∧ file_below fs (d ++ [c]) rel'
      end
  end.

(** The regular files of the tree at [root], symbolic links left out. *)
Definition regular_under (fs : FS) (root p : path) : Prop :=
  ∃ rel, p = root ++ rel ∧ file_below fs root rel.

(** What one round of the loop finds through the entry [s]. *)
Definition found_through (fs : FS) (s p : path) : Prop :=
  match fs !! s with
  | Some (File _ _) => p = s
  | Some (Dir _) => regular_under fs s p
  | _ => False
  end.

(** No symbolic link of the tree at [root] leads to a regular file. *)
Definition no_file_links (fs : FS) (root : path) : Prop :=
  ∀ rel t, fs !! (root ++ rel) = Some (Symlink t) → is_file fs (root ++ rel) = false.

(** An extracted tree: two regular files, one in a subdirectory, a link
    to the tree itself and a dangling link; [/etc/passwd] is outside. *)
Definition fs_tree : FS :=
  list_to_map
    [ ([], Dir 493%N);
      (["iso"], Dir 365%N);
      (["iso"; "md5sum.txt"], File 292%N (bytes_of "stale"));
      (["iso"; "a.txt"], File 292%N (bytes_of "hi"));
      (["iso"; "b"], Dir 365%N);
      (["iso"; "b"; "c.txt"], File 292%N (bytes_of "bye"));
      (["iso"; "debian"], Symlink ["iso"]);
      (["iso"; "dangling"], Symlink ["nowhere"]);
      (["etc"], Dir 493%N);
      (["etc"; "passwd"], File 420%N (bytes_of "root")) ].

(** The same with a link [/iso/ln] to [/etc/passwd]. *)
Definition fs_tree_link : FS := <[ ["iso"; "ln"] := Symlink ["etc"; "passwd"] ]> fs_tree.

(** A node with its mode bits replaced, as [chmod] leaves it. *)
Definition with_mode (mode : N) (n : node) : node :=
  match n with
  | File _ d => File mode d
  | Dir _ => Dir mode
  | Symlink t => Symlink t
  end.

(** The mode bits a path leads to. *)
Definition mode_of (fs : FS) (p : path) : option N :=
  match stat fs p with
  | Some (_, File m _) | Some (_, Dir m) => Some m
  | _ => None
  end.

(** Two name spaces with the same entries of the same kinds. *)
Definition same_kinds (fs fs' : FS) : Prop :=
  ∀ k, kind <$> fs !! k = kind <$> fs' !! k.

(** The body of the loop of [regenerate_iso_md5sums_file]. *)
Definition manifest_body (root md5sum_file : path) : path → M unit :=
  λ subpath,
    file ← open_existing subpath;
    data ← read_handle file;
    rel ← relative_to subpath root;
    write_handle md5sum_file (bytes_of (manifest_line data rel)).

(** The line of the manifest for the file [p] as it is in [fs]: the MD5
    digest of its contents in hexadecimal, two spaces, its path relative
    to [root], a newline. *)
Definition entry_bytes (fs : FS) (root p : path) : list byte :=
  match fs !! p, strip_prefix root p with
  | Some (File _ d), Some rel => bytes_of (manifest_line d rel)
  | _, _ => []
  end.

Definition manifest_text (fs : FS) (root : path) (files : list path) : list byte :=
  flat_map (entry_bytes fs root) files.

(** The state in which the files are enumerated: the modes of the
    manifest and of the root widened, the old manifest removed. *)
Definition before_enumeration (fs : FS) (root' qm : path) (nm : node) : FS :=
  delete (root' ++ ["md5sum.txt"])
    (<[root' := Dir 493]> (<[qm := with_mode 420 nm]> fs)).


(** The state [regenerate_iso_md5sums_file] leaves when it returns
    normally, from the state [F3] in which the files were enumerated. *)
Definition after_regeneration (F3 : FS) (root' : path) (files : list path) : FS :=
  <[root' := Dir 365]>
    (<[root' ++ ["md5sum.txt"] := File 292 (manifest_text F3 root' files)]> F3).

(** The states of the initrd rewrite, for an archive [d/initrd.gz] with
    contents that decompress to [raw]: after the archive is unpacked and
    removed, and after the rewrite is complete with [raw'] in the unpacked
    file. *)
Definition initrd_unpacked (fs : FS) (d : path) (raw : list byte) : FS :=
  delete (d ++ ["initrd.gz"])
    (<[d ++ ["initrd"] := File default_mode raw]> (<[d := Dir 493]> fs)).

Definition initrd_repacked (E : Env) (fs : FS) (d : path) (raw' : list byte) : FS :=
  <[d := Dir 365]> (<[d ++ ["initrd.gz"] := File 292 (gzip_compress E raw')]> fs).

(** The stand-in environment with a shell whose commands fail with
    status 1 and change nothing. *)
Definition demo_env_failing_shell : Env :=
  {| run_process := demo_run_process 0;
     run_shell := λ _, mret 1%Z;
     gzip_compress := demo_gzip;
     gzip_decompress := demo_gunzip;
     unicode_isalnum := λ _, false;
     gettempdir := ["tmp"];
     candidate_names := λ _, ["tmpa"] |}.


(** The stand-in environment with programs that fail with status 1 and
    change nothing. *)
Definition demo_env_failing_programs : Env :=
  {| run_process := λ _ _ _, mret 1%Z;
     run_shell := λ _, mret 0%Z;
     gzip_compress := demo_gzip;
     gzip_decompress := demo_gunzip;
     unicode_isalnum := λ _, false;
     gettempdir := ["tmp"];
     candidate_names := λ _, ["tmpa"] |}.

(** [fs_image] with the first temporary directory. *)
Definition fs_image_tmpa : FS := <[ ["tmp"; "tmpa"] := Dir 448 ]> fs_image.

(** The stand-in environment with a shell that appends a fixed record to
    the archive named after [-F] and returns 0. *)
Definition demo_env_shell : Env :=
  {| run_process := demo_run_process 0;
     run_shell := λ argv,
       match path_after "-F" argv with
       | Some archive => write_handle archive (bytes_of "logo");; mret 0%Z
       | None => mret 1%Z
       end;
     gzip_compress := demo_gzip;
     gzip_decompress := demo_gunzip;
     unicode_isalnum := λ _, false;
     gettempdir := ["tmp"];
     candidate_names := λ _, ["tmpa"] |}.
(** Closed equations between outcomes and states are decided by
    evaluation. *)
Ltac by_evaluation :=
  repeat split;
  match goal with
  | |- _ ≠ _ => apply (bool_decide_unpack _); vm_compute; exact I
  | |- _ = _ => apply (bool_decide_unpack _); vm_compute; exact I
  end.

(** ** Facts about path resolution *)

Lemma walk_nil fuel fs done : walk fuel fs done [] = Found done.
Proof. by destruct fuel. Qed.

Lemma walk_cons fuel fs done c rest :
  walk fuel fs done (c :: rest) =
  match fs !! (done ++ [c]) with
  | Some (Symlink t) =>
      match fuel with
      | O => Loop
      | S f => walk f fs [] (t ++ rest)
      end
  | Some (Dir _) => walk fuel fs (done ++ [c]) rest
  | Some (File _ _) =>
      match rest with
      | [] => Found (done ++ [c])
      | _ :: _ => NotDir (done ++ [c]) rest
      end
  | None => Absent (done ++ [c]) rest
  end.
Proof. by destruct fuel. Qed.

#[global] Arguments walk : simpl never.

(** Induction along the steps of [walk]. *)
Lemma walk_steps_ind (fs : FS) (P : nat → path → path → Prop) :
  (∀ fuel done, P fuel done []) →
  (∀ fuel done c rest,
      (∀ m, fs !! (done ++ [c]) = Some (Dir m) → P fuel (done ++ [c]) rest) →
      (∀ t f, fs !! (done ++ [c]) = Some (Symlink t) → fuel = S f →
              P f [] (t ++ rest)) →
      P fuel done (c :: rest)) →
  ∀ fuel done todo, P fuel done todo.
Proof.
  intros Hnil Hcons fuel.
  induction fuel as [|f IHf]; intros done todo; revert done;
    induction todo as [|c rest IHrest]; intros done; auto;
    apply Hcons; auto; intros t f' _ Hf; try discriminate.
  injection Hf as <-. apply IHf.
Qed.



Lemma extends_refl fs : extends fs fs.
Proof. intros k n H. eauto. Qed.

Lemma extends_trans fs1 fs2 fs3 :
  extends fs1 fs2 → extends fs2 fs3 → extends fs1 fs3.
Proof.
  intros H12 H23 k n H.
  destruct (H12 k n H) as (n2 & H2 & K2).
  destruct (H23 k n2 H2) as (n3 & H3 & K3).
  exists n3. split; [done | congruence].
Qed.

Lemma subseteq_extends (fs fs' : FS) : fs ⊆ fs' → extends fs fs'.
Proof. intros Hsub k n H. exists n. split; [by eapply lookup_weaken | done]. Qed.

Lemma extends_insert_fresh (fs : FS) k n :
  fs !! k = None → extends fs (<[k := n]> fs).
Proof. intros H. apply subseteq_extends. by apply insert_subseteq. Qed.


Lemma extends_delete (fs : FS) k : extends (delete k fs) fs.
Proof. apply subseteq_extends, delete_subseteq. Qed.

Lemma walk_extends fs fs' fuel done todo q :
  extends fs fs' →
  walk fuel fs done todo = Found q →
  walk fuel fs' done todo = Found q.
Proof.
  intros Hext. revert fuel done todo.
  apply (walk_steps_ind fs (λ fuel done todo,
    walk fuel fs done todo = Found q → walk fuel fs' done todo = Found q)).
  - intros fuel done. by rewrite !walk_nil.
  - intros fuel done c rest IHdir IHlink. rewrite !walk_cons.
    destruct (fs !! (done ++ [c])) as [n|] eqn:E; [|done].
    destruct (Hext _ _ E) as (n' & -> & K).
    destruct n as [m d|m|t], n' as [m' d'|m'|t']; try discriminate K.
    + done.
    + eauto.
    + injection K as ->. destruct fuel; [done | eauto].
Qed.

Lemma stat_extends fs fs' p q n :
  extends fs fs' →
  stat fs p = Some (q, n) →
  ∃ n', stat fs' p = Some (q, n') ∧ fs' !! q = Some n' ∧ kind n' = kind n.
Proof.
  unfold stat. intros Hext H.
  destruct (walk MAXSYMLINKS fs [] p) as [q0| | |] eqn:W; try discriminate.
  destruct (fs !! q0) as [n0|] eqn:E; [|discriminate].
  injection H as -> ->.
  rewrite (walk_extends _ _ _ _ _ _ Hext W).
  destruct (Hext _ _ E) as (n' & E' & K). exists n'. by rewrite E'.
Qed.

Lemma stat_lookup fs p q n : stat fs p = Some (q, n) → fs !! q = Some n.
Proof.
  unfold stat. destruct (walk MAXSYMLINKS fs [] p); try discriminate.
  destruct (fs !! q0) eqn:E; [|discriminate]. by intros [= <- <-].
Qed.

Lemma stat_weaken (fs fs' : FS) p q n :
  fs ⊆ fs' → stat fs p = Some (q, n) → stat fs' p = Some (q, n).
Proof.
  intros Hsub H.
  destruct (stat_extends _ _ _ _ _ (subseteq_extends _ _ Hsub) H) as (n' & H' & E' & _).
  rewrite H'. f_equal. f_equal.
  apply stat_lookup in H. eapply lookup_weaken in H; [|done]. congruence.
Qed.

Lemma read_file_weaken (fs fs' : FS) p d :
  fs ⊆ fs' → read_file fs p = Some d → read_file fs' p = Some d.
Proof.
  unfold read_file. intros Hsub H.
  destruct (stat fs p) as [[q n]|] eqn:S; [|discriminate].
  by rewrite (stat_weaken _ _ _ _ _ Hsub S).
Qed.


Lemma dirs_to_nil fs : dirs_to fs [].
Proof. intros pre c post H. by destruct pre. Qed.

Lemma dirs_to_snoc fs d c m :
  dirs_to fs d → fs !! (d ++ [c]) = Some (Dir m) → dirs_to fs (d ++ [c]).
Proof.
  intros Hd Hc pre c' post E.
  destruct post as [|x post _] using rev_ind.
  - apply app_inj_tail in E as [-> ->]. eauto.
  - rewrite app_comm_cons, app_assoc in E.
    apply app_inj_tail in E as [-> _]. eapply Hd. done.
Qed.

Lemma dirs_to_app_l fs d e : dirs_to fs (d ++ e) → dirs_to fs d.
Proof.
  intros H pre c post ->. apply (H pre c (post ++ e)).
  by rewrite <- app_assoc.
Qed.

Lemma dirs_to_lookup fs d c : dirs_to fs (d ++ [c]) → ∃ m, fs !! (d ++ [c]) = Some (Dir m).
Proof. intros H. by apply (H d c []). Qed.

Lemma dirs_to_extends fs fs' d : extends fs fs' → dirs_to fs d → dirs_to fs' d.
Proof.
  intros Hext H pre c post E. destruct (H pre c post E) as [m Hm].
  destruct (Hext _ _ Hm) as ([| m' |] & Hn & K); try discriminate K. eauto.
Qed.

(** Walking through real directories consumes the path as it is. *)
Lemma walk_dirs_to fuel fs done pre rest :
  dirs_to fs (done ++ pre) →
  walk fuel fs done (pre ++ rest) = walk fuel fs (done ++ pre) rest.
Proof.
  revert done. induction pre as [|c pre IH]; intros done H.
  - by rewrite app_nil_r.
  - simpl. rewrite walk_cons.
    assert (dirs_to fs ((done ++ [c]) ++ pre)) as H'
      by (by rewrite <- app_assoc).
    destruct (dirs_to_lookup fs done c (dirs_to_app_l _ _ _ H')) as [m ->].
    rewrite IH by done. by rewrite <- app_assoc.
Qed.



Lemma walk_Found_canonical fs fuel done todo q :
  dirs_to fs done → walk fuel fs done todo = Found q → canonical fs q.
Proof.
  revert fuel done todo.
  apply (walk_steps_ind fs (λ fuel done todo,
    dirs_to fs done → walk fuel fs done todo = Found q → canonical fs q)).
  - intros fuel done Hd. rewrite walk_nil. intros [= <-]. by left.
  - intros fuel done c rest IHdir IHlink Hd. rewrite walk_cons.
    destruct (fs !! (done ++ [c])) as [[m x|m|t]|] eqn:E; [| | |done].
    + destruct rest; [|done]. intros [= <-]. right. by exists done, c, m, x.
    + apply (IHdir m); [done|]. by eapply dirs_to_snoc.
    + destruct fuel; [done|]. eapply IHlink; [done|done|]. apply dirs_to_nil.
Qed.

Lemma walk_Absent_creatable fs fuel done todo q rest :
  dirs_to fs done → walk fuel fs done todo = Absent q rest → creatable fs q.
Proof.
  revert fuel done todo.
  apply (walk_steps_ind fs (λ fuel done todo,
    dirs_to fs done → walk fuel fs done todo = Absent q rest → creatable fs q)).
  - intros fuel done Hd. by rewrite walk_nil.
  - intros fuel done c rest' IHdir IHlink Hd. rewrite walk_cons.
    destruct (fs !! (done ++ [c])) as [[m x|m|t]|] eqn:E.
    + by destruct rest'.
    + apply (IHdir m); [done|]. by eapply dirs_to_snoc.
    + destruct fuel; [done|]. eapply IHlink; [done|done|]. apply dirs_to_nil.
    + intros [= <- _]. by exists done, c.
Qed.

Lemma walk_NotDir_inv fs fuel done todo q rest :
  dirs_to fs done → walk fuel fs done todo = NotDir q rest →
  ∃ d c m x, q = d ++ [c] ∧ dirs_to fs d ∧ fs !! q = Some (File m x) ∧ rest ≠ [].
Proof.
  revert fuel done todo.
  apply (walk_steps_ind fs (λ fuel done todo,
    dirs_to fs done → walk fuel fs done todo = NotDir q rest →
    ∃ d c m x, q = d ++ [c] ∧ dirs_to fs d ∧ fs !! q = Some (File m x) ∧ rest ≠ [])).
  - intros fuel done Hd. by rewrite walk_nil.
  - intros fuel done c rest' IHdir IHlink Hd. rewrite walk_cons.
    destruct (fs !! (done ++ [c])) as [[m x|m|t]|] eqn:E; [| | |done].
    + destruct rest'; [done|]. intros [= <- <-]. by exists done, c, m, x.
    + apply (IHdir m); [done|]. by eapply dirs_to_snoc.
    + destruct fuel; [done|]. eapply IHlink; [done|done|]. apply dirs_to_nil.
Qed.

Lemma walk_canonical fs fuel q : canonical fs q → walk fuel fs [] q = Found q.
Proof.
  intros [Hd | (d & c & m & x & -> & Hd & Hf)].
  - rewrite <- (app_nil_r q) at 1. rewrite walk_dirs_to by done. apply walk_nil.
  - rewrite walk_dirs_to by done. simpl. rewrite walk_cons. simpl. by rewrite Hf.
Qed.

Lemma walk_creatable fs fuel q : creatable fs q → walk fuel fs [] q = Absent q [].
Proof.
  intros (d & c & -> & Hd & Hf).
  rewrite walk_dirs_to by done. simpl. rewrite walk_cons. simpl. by rewrite Hf.
Qed.

(** Resolving twice is resolving once. *)
Lemma stat_canonical fs p q n : stat fs p = Some (q, n) → stat fs q = Some (q, n).
Proof.
  intros H. pose proof (stat_lookup _ _ _ _ H) as Hq. unfold stat in *.
  destruct (walk MAXSYMLINKS fs [] p) as [q0| | |] eqn:W; try discriminate.
  destruct (fs !! q0) eqn:E; [|discriminate]. injection H as -> ->.
  rewrite walk_canonical; [by rewrite Hq|].
  eapply walk_Found_canonical; [apply dirs_to_nil | done].
Qed.

(** [stat] does not tell a path from its resolution. *)
Lemma stat_resolve fs p q fs' :
  resolve p fs = (Ok q, fs') → fs' = fs ∧ stat fs q = stat fs p.
Proof.
  unfold resolve, stat.
  destruct (walk MAXSYMLINKS fs [] p) as [q0|q0 rest|q0 rest|] eqn:W;
    intros [= <- <-]; (split; [done|]).
  - rewrite walk_canonical; [done|].
    eapply walk_Found_canonical; [apply dirs_to_nil | done].
  - destruct (walk_Absent_creatable _ _ _ _ _ _ (dirs_to_nil fs) W)
      as (d & c & -> & Hd & Hn).
    rewrite <- app_assoc, walk_dirs_to by done. simpl.
    rewrite walk_cons. simpl. by rewrite Hn.
  - destruct (walk_NotDir_inv _ _ _ _ _ _ (dirs_to_nil fs) W)
      as (d & c & m & x & -> & Hd & Hf & Hrest).
    rewrite <- app_assoc, walk_dirs_to by done. simpl.
    rewrite walk_cons. simpl. rewrite Hf. by destruct rest.
Qed.

(** Creating the missing last component makes the walk succeed. *)
Lemma walk_insert_absent fs fuel done todo q n :
  (∀ t, n ≠ Symlink t) →
  fs !! q = None →
  walk fuel fs done todo = Absent q [] →
  walk fuel (<[q := n]> fs) done todo = Found q.
Proof.
  intros Hn Hq. revert fuel done todo.
  apply (walk_steps_ind fs (λ fuel done todo,
    walk fuel fs done todo = Absent q [] →
    walk fuel (<[q := n]> fs) done todo = Found q)).
  - intros fuel done. by rewrite walk_nil.
  - intros fuel done c rest IHdir IHlink. rewrite !walk_cons.
    destruct (fs !! (done ++ [c])) as [n0|] eqn:E.
    + rewrite lookup_insert_ne by congruence. rewrite E.
      destruct n0 as [m x|m|t]; [by destruct rest | eauto |].
      destruct fuel; [done | eauto].
    + intros [= <- ->]. rewrite lookup_insert_eq.
      destruct n as [m x|m|t]; [done | apply walk_nil | by destruct (Hn t)].
Qed.

(** ** Properties of [extract_mbr_from_iso] *)


Lemma can_create_not_exists fs p : can_create fs p = true → path_exists fs p = false.
Proof.
  unfold can_create, path_exists, stat.
  by destruct (walk MAXSYMLINKS fs [] p) as [| ? [|]| |].
Qed.

Lemma extract_mbr_checked_ok fs out src q qs m d :
  walk MAXSYMLINKS fs [] out = Absent q [] →
  stat fs src = Some (qs, File m d) →
  has_image_suffix src = true →
  extract_mbr_checked out src fs
  = (Ok tt, <[q := File default_mode (take MBR_SIZE d)]> fs).
Proof.
  intros W S Hsuf.
  assert (fs !! q = None) as Hq.
  { destruct (walk_Absent_creatable _ _ _ _ _ _ (dirs_to_nil fs) W)
      as (? & ? & _ & _ & ?). done. }
  pose proof (stat_lookup _ _ _ _ S) as Hqs.
  assert (q ≠ qs) as Hne by congruence.
  unfold extract_mbr_checked, mbind, M_bind, gets, raise, id.
  unfold path_exists, is_file, stat at 1. rewrite W, S, Hsuf. simpl.
  unfold open_existing. rewrite S.
  unfold open_truncate. rewrite W.
  unfold read_handle. rewrite lookup_insert_ne, Hqs by done.
  unfold write_handle. rewrite lookup_insert_eq. simpl.
  by rewrite insert_insert_eq.
Qed.

Lemma extract_mbr_checked_exists fs out src :
  path_exists fs out = true →
  extract_mbr_checked out src fs = (Raise (FileExistsError out), fs).
Proof.
  intros H. unfold extract_mbr_checked, mbind, M_bind, gets, raise, id.
  by rewrite H.
Qed.

(** Whatever the outcome, nothing that was there is changed. *)
Lemma extract_mbr_checked_grows fs out src r fs' :
  extract_mbr_checked out src fs = (r, fs') → fs ⊆ fs'.
Proof.
  unfold extract_mbr_checked, mbind, M_bind, gets, raise, id.
  destruct (path_exists fs out) eqn:Hex; [by intros [= _ <-]|].
  destruct (is_file fs src); simpl; [|by intros [= _ <-]].
  destruct (has_image_suffix src); simpl; [|by intros [= _ <-]].
  unfold open_existing.
  destruct (stat fs src) as [[qs [m d|m|t]]|]; try by intros [= _ <-].
  unfold open_truncate. unfold path_exists, stat in Hex.
  destruct (walk MAXSYMLINKS fs [] out) as [q|q [|? ?]|q rest|] eqn:W;
    try by intros [= _ <-].
  - destruct (fs !! q) as [n|]; [discriminate|]. by intros [= _ <-].
  - assert (fs !! q = None) as Hq.
    { destruct (walk_Absent_creatable _ _ _ _ _ _ (dirs_to_nil fs) W)
        as (? & ? & _ & _ & ?). done. }
    unfold read_handle.
    destruct (<[q:=File default_mode []]> fs !! qs) as [[m' d'|m'|t']|];
      try (intros [= _ <-]; by apply insert_subseteq).
    unfold write_handle. rewrite lookup_insert_eq. intros [= _ <-].
    rewrite insert_insert_eq. by apply insert_subseteq.
Qed.

(** ** Properties of [repack_iso] *)

Lemma find_first_split {A} (f : A → bool) (l : list A) :
  Exists (λ x, f x = true) l →
  ∃ pre c post, l = pre ++ c :: post ∧ Forall (λ x, f x = false) pre ∧
                f c = true ∧ List.find f l = Some c.
Proof.
  induction l as [|a l IH]; intros Hex; [by apply Exists_nil in Hex|].
  destruct (f a) eqn:Fa.
  - exists [], a, l. simpl. rewrite Fa. eauto.
  - apply Exists_cons in Hex as [Ha|Hl]; [congruence|].
    destruct (IH Hl) as (pre & c & post & -> & Hpre & Hc & Hfind).
    exists (a :: pre), c, post. simpl. rewrite Fa. eauto.
Qed.

(** What the code rejects lies outside the class of the specification. *)
Lemma invalid_char_outside_ascii_class E c :
  invalid_char E c = true → ascii_name_char c = false.
Proof.
  unfold invalid_char, re_word, Py_UNICODE_ISALNUM, latin1_isalnum, ascii_name_char.
  intros H. apply negb_true_iff in H.
  repeat (apply orb_false_iff in H as [H ?]).
  destruct (c <? 256)%N eqn:Hc.
  - repeat (apply orb_false_iff in H as [H ?]).
    repeat (apply orb_false_iff; split); done.
  - apply N.ltb_ge in Hc. unfold in_range.
    repeat (apply orb_false_iff; split); try done;
      apply andb_false_iff; right; apply N.leb_gt; lia.
Qed.

Lemma path_exists_resolve fs p q fs' :
  resolve p fs = (Ok q, fs') → fs' = fs ∧ path_exists fs q = path_exists fs p.
Proof. intros H. apply stat_resolve in H as [-> H]. unfold path_exists. by rewrite H. Qed.

Lemma is_file_resolve fs p q fs' :
  resolve p fs = (Ok q, fs') → fs' = fs ∧ is_file fs q = is_file fs p.
Proof. intros H. apply stat_resolve in H as [-> H]. unfold is_file. by rewrite H. Qed.

Lemma is_dir_resolve fs p q fs' :
  resolve p fs = (Ok q, fs') → fs' = fs ∧ is_dir fs q = is_dir fs p.
Proof. intros H. apply stat_resolve in H as [-> H]. unfold is_dir. by rewrite H. Qed.

Lemma resolve_loop_free fs p :
  loop_free fs p = true → ∃ q, resolve p fs = (Ok q, fs).
Proof.
  unfold loop_free, resolve.
  destruct (walk MAXSYMLINKS fs [] p); eauto; discriminate.
Qed.

Lemma stat_loop_free fs p x : stat fs p = Some x → loop_free fs p = true.
Proof. unfold stat, loop_free. by destruct (walk MAXSYMLINKS fs [] p). Qed.

Lemma resolve_of_stat fs p q n : stat fs p = Some (q, n) → resolve p fs = (Ok q, fs).
Proof.
  unfold stat, resolve.
  destruct (walk MAXSYMLINKS fs [] p) as [q0| | |]; try discriminate.
  destruct (fs !! q0); [|discriminate]. by intros [= -> _].
Qed.

(** ** Running the monad *)

Lemma bind_run {A B} (m : M A) (f : A → M B) fs :
  (m ≫= f) fs =
  match m fs with
  | (Ok a, fs1) => f a fs1
  | (Raise e, fs1) => (Raise e, fs1)
  end.
Proof. reflexivity. Qed.

Lemma bind_Ok_inv {A B} (m : M A) (f : A → M B) fs b fs' :
  (m ≫= f) fs = (Ok b, fs') →
  ∃ a fs1, m fs = (Ok a, fs1) ∧ f a fs1 = (Ok b, fs').
Proof.
  rewrite bind_run. destruct (m fs) as [[a|e] fs1]; [eauto | discriminate].
Qed.

(** One step of a sequence whose first action is known. *)
Ltac step_with H := rewrite bind_run, H; cbn beta iota.

Lemma resolve_state fs p r fs' : resolve p fs = (r, fs') → fs' = fs.
Proof.
  unfold resolve. by destruct (walk MAXSYMLINKS fs [] p); intros [= _ <-].
Qed.

(** ** External programs *)

Lemma run_check_outcome E argv fs rc fs1 e :
  run_process E argv None [] fs = (Ok rc, fs1) →
  try_except (subprocess_run_check E argv) is_CalledProcessError (raise e) fs
  = (if (rc =? 0)%Z then Ok tt else Raise e, fs1).
Proof.
  intros H. unfold try_except, subprocess_run_check. rewrite bind_run, H.
  by destruct (rc =? 0)%Z.
Qed.

Lemma ascii_name_char_valid E c : ascii_name_char c = true → invalid_char E c = false.
Proof.
  intros H. destruct (invalid_char E c) eqn:Hi; [|done].
  apply invalid_char_outside_ascii_class in Hi. congruence.
Qed.

Lemma search_invalid_char_None E fsname :
  Forall (λ c, invalid_char E c = false) fsname ↔ search_invalid_char E fsname = None.
Proof.
  unfold search_invalid_char. induction fsname as [|c l IH]; simpl.
  - split; [done | constructor].
  - destruct (invalid_char E c) eqn:Hc.
    + split; [|done]. intros H. apply Forall_cons in H as [? _]. congruence.
    + rewrite <- IH. split; [by intros [_ ?]%Forall_cons | by constructor].
Qed.

(** ** Directory listing *)

Lemma removelast_snoc {A} (l : list A) x : removelast (l ++ [x]) = l.
Proof. by rewrite removelast_app, app_nil_r. Qed.

Lemma last_snoc' {A} (l : list A) x d : List.last (l ++ [x]) d = x.
Proof. apply last_last. Qed.

Lemma elem_of_iterdir fs d k :
  k ∈ iterdir fs d ↔ ∃ c, k = d ++ [c] ∧ is_Some (fs !! k).
Proof.
  unfold iterdir. rewrite list_elem_of_In, filter_In, <- list_elem_of_In.
  rewrite bool_decide_eq_true, list_elem_of_fmap. split.
  - intros ((kv & -> & Hkv) & Hne & Hd).
    destruct kv as [k n]. apply elem_of_map_to_list in Hkv. simpl in *.
    destruct (exists_last Hne) as (l & c & ->).
    rewrite removelast_snoc in Hd. subst l. eauto.
  - intros (c & -> & [n Hn]). split.
    + exists (d ++ [c], n). split; [done|]. by apply elem_of_map_to_list.
    + split; [by destruct d | apply removelast_snoc].
Qed.

Lemma NoDup_iterdir fs d : NoDup (iterdir fs d).
Proof.
  unfold iterdir. apply NoDup_ListNoDup, List.NoDup_filter, NoDup_ListNoDup.
  apply NoDup_fst_map_to_list.
Qed.

Lemma max_depth_bound (fs : FS) k : is_Some (fs !! k) → (length k ≤ max_depth fs)%nat.
Proof.
  intros [n Hn]. apply elem_of_map_to_list in Hn. unfold max_depth.
  induction (map_to_list fs) as [|kv l IH]; [by apply elem_of_nil in Hn|].
  apply elem_of_cons in Hn as [<-|Hn]; simpl; [lia|].
  specialize (IH Hn). lia.
Qed.

(** ** The loop of [_find_all_files_under] *)

Lemma collect_Ok_inv visit subpaths l :
  collect visit subpaths = Ok l →
  ∀ p, p ∈ l ↔ ∃ s found, s ∈ subpaths ∧ visit s = Ok found ∧ p ∈ found.
Proof.
  revert l. induction subpaths as [|s rest IH]; simpl; intros l H p.
  - injection H as <-. split; [by intros ?%elem_of_nil|].
    by intros (? & ? & ?%elem_of_nil & _).
  - destruct (visit s) as [found|] eqn:Hs; [|discriminate].
    destruct (collect visit rest) as [files|] eqn:Hrest; [|discriminate].
    injection H as <-. rewrite elem_of_app, (IH files eq_refl). split.
    + intros [Hp|(s' & f' & Hin & Hv & Hp)].
      * exists s, found. split; [left|]; done.
      * exists s', f'. split; [by right|done].
    + intros (s' & f' & Hin & Hv & Hp).
      apply elem_of_cons in Hin as [->|Hin].
      * left. congruence.
      * right. eauto.
Qed.

Lemma collect_spec visit subpaths (P : path → path → Prop) :
  (∀ s, s ∈ subpaths → ∃ l, visit s = Ok l ∧ NoDup l ∧ ∀ p, p ∈ l ↔ P s p) →
  NoDup subpaths →
  (∀ s s' p, s ∈ subpaths → s' ∈ subpaths → P s p → P s' p → s = s') →
  ∃ l, collect visit subpaths = Ok l ∧ NoDup l ∧
       ∀ p, p ∈ l ↔ ∃ s, s ∈ subpaths ∧ P s p.
Proof.
  induction subpaths as [|s rest IH]; intros Hvisit Hnd Hdisj; simpl.
  - exists []. split; [done|]. split; [constructor|].
    intros p. split; [by intros ?%elem_of_nil|]. by intros (? & ?%elem_of_nil & _).
  - assert (s ∈ s :: rest) as Hin by left.
    destruct (Hvisit s Hin) as (found & Hv & Hndf & Hfound). rewrite Hv.
    apply NoDup_cons in Hnd as [Hs Hnd].
    assert (∀ s', s' ∈ rest → ∃ l, visit s' = Ok l ∧ NoDup l ∧ ∀ p, p ∈ l ↔ P s' p)
      as Hvisit' by (intros s' Hs'; apply Hvisit; by right).
    assert (∀ s1 s2 p, s1 ∈ rest → s2 ∈ rest → P s1 p → P s2 p → s1 = s2)
      as Hdisj' by (intros s1 s2 p H1 H2; apply Hdisj; by right).
    destruct (IH Hvisit' Hnd Hdisj') as (files & Hc & Hndfiles & Hfiles).
    rewrite Hc.
    exists (found ++ files). split; [done|]. split.
    + apply NoDup_app. split; [done|]. split; [|done].
      intros p Hp Hp'. apply Hfound in Hp. apply Hfiles in Hp' as (s' & Hs' & Hp').
      assert (s = s') as -> by (eapply Hdisj; [left | by right | done | done]).
      done.
    + intros p. rewrite elem_of_app, Hfound, Hfiles. split.
      * intros [Hp|(s' & Hs' & Hp)]; [exists s; split; [left|done] |].
        exists s'. split; [by right|done].
      * intros (s' & Hs' & Hp). apply elem_of_cons in Hs' as [->|Hs']; eauto.
Qed.

(** ** Entries of a real directory *)

Lemma stat_real_dir fs d m :
  dirs_to fs d → fs !! d = Some (Dir m) → stat fs d = Some (d, Dir m).
Proof.
  intros Hd Hm. unfold stat. rewrite walk_canonical by (by left). by rewrite Hm.
Qed.

Lemma stat_real_file fs d c m x :
  dirs_to fs d → fs !! (d ++ [c]) = Some (File m x) →
  stat fs (d ++ [c]) = Some (d ++ [c], File m x).
Proof.
  intros Hd Hf. unfold stat.
  rewrite walk_canonical by (right; by exists d, c, m, x). by rewrite Hf.
Qed.

Lemma lstat_entry fs d c m :
  dirs_to fs d → fs !! d = Some (Dir m) →
  lstat fs (d ++ [c]) = (λ n, (d ++ [c], n)) <$> fs !! (d ++ [c]).
Proof.
  intros Hd Hm. unfold lstat.
  destruct (d ++ [c]) as [|a l] eqn:E; [by destruct d|]. rewrite <- E.
  by rewrite removelast_snoc, last_snoc', (stat_real_dir _ _ _ Hd Hm).
Qed.

Lemma file_below_cons fs d c rel :
  file_below fs d (c :: rel) ↔
  (rel = [] ∧ ∃ m x, fs !! (d ++ [c]) = Some (File m x)) ∨
  (rel ≠ [] ∧ (∃ m, fs !! (d ++ [c]) = Some (Dir m)) ∧ file_below fs (d ++ [c]) rel).
Proof.
  destruct rel as [|c' rel]; simpl; split.
  - intros H. left. done.
  - intros [[_ H]|[H _]]; done.
  - intros H. right. done.
  - intros [[H _]|[_ H]]; done.
Qed.

Lemma regular_under_prefix fs root p : regular_under fs root p → root `prefix_of` p.
Proof. intros (rel & -> & _). by exists rel. Qed.

Lemma regular_under_is_file fs root p :
  regular_under fs root p → ∃ m x, fs !! p = Some (File m x).
Proof.
  intros (rel & -> & H). revert root H.
  induction rel as [|c rel IH]; intros root H; [done|].
  apply file_below_cons in H as [[-> H]|(Hne & _ & H)]; [done|].
  specialize (IH _ H). by rewrite <- app_assoc in IH.
Qed.

Lemma found_through_prefix fs s p : found_through fs s p → s `prefix_of` p.
Proof.
  unfold found_through. destruct (fs !! s) as [[| |]|]; try done.
  - by intros ->.
  - apply regular_under_prefix.
Qed.

Lemma regular_under_entries fs d p :
  regular_under fs d p ↔ ∃ s, s ∈ iterdir fs d ∧ found_through fs s p.
Proof.
  split.
  - intros (rel & -> & H). destruct rel as [|c rel]; [done|].
    apply file_below_cons in H as [[-> (m & x & Hf)]|(Hne & (m & Hm) & H)].
    + exists (d ++ [c]). split; [apply elem_of_iterdir; eauto|].
      unfold found_through. by rewrite Hf.
    + exists (d ++ [c]). split; [apply elem_of_iterdir; eauto|].
      unfold found_through. rewrite Hm. exists rel.
      split; [by rewrite <- app_assoc | done].
  - intros (s & Hs & H). apply elem_of_iterdir in Hs as (c & -> & _).
    unfold found_through in H.
    destruct (fs !! (d ++ [c])) as [[m x|m|t]|] eqn:E; try done.
    + subst p. exists [c]. split; [done|]. simpl. eauto.
    + destruct H as (rel & -> & H). exists (c :: rel).
      split; [by rewrite <- app_assoc|].
      apply file_below_cons. right. split; [by destruct rel|]. eauto.
Qed.

(** With no link to a regular file in the tree, [_find_all_files_under]
    lists the regular files of the tree, each once. *)
Lemma find_files_from_spec depth fs d m :
  dirs_to fs d →
  fs !! d = Some (Dir m) →
  (∀ k, is_Some (fs !! k) → (length k < depth + length d)%nat) →
  no_file_links fs d →
  ∃ l, find_files_from depth fs d = Ok l ∧ NoDup l ∧
       ∀ p, p ∈ l ↔ regular_under fs d p.
Proof.
  revert d m. induction depth as [|depth IH]; intros d m Hd Hm Hdepth Hlinks.
  { specialize (Hdepth d (mk_is_Some _ _ Hm)). lia. }
  simpl. unfold resolve. rewrite walk_canonical by (by left).
  unfold is_dir. rewrite (stat_real_dir _ _ _ Hd Hm). simpl.
  set (visit := λ subpath : path, _).
  destruct (collect_spec visit (iterdir fs d) (found_through fs))
    as (l & Hl & Hnd & Hspec).
  - intros s Hs. apply elem_of_iterdir in Hs as (c & -> & [n Hn]).
    unfold visit, found_through. rewrite Hn.
    destruct n as [m' x|m'|t].
    + unfold is_file. rewrite (stat_real_file _ _ _ _ _ Hd Hn).
      rewrite walk_canonical by (right; by exists d, c, m', x).
      exists [d ++ [c]]. split; [done|]. split; [apply NoDup_singleton|].
      intros p. by rewrite list_elem_of_singleton.
    + assert (dirs_to fs (d ++ [c])) as Hd' by (by eapply dirs_to_snoc).
      unfold is_file, is_symlink, is_dir.
      rewrite (stat_real_dir _ _ _ Hd' Hn), (lstat_entry _ _ _ _ Hd Hm), Hn. simpl.
      apply (IH _ m'); [done|done| |].
      * intros k Hk. specialize (Hdepth k Hk). rewrite length_app. simpl. lia.
      * intros rel t Ht. rewrite <- app_assoc in *. by eapply Hlinks.
    + rewrite (Hlinks [c] t Hn).
      unfold is_symlink. rewrite (lstat_entry _ _ _ _ Hd Hm), Hn. simpl.
      exists []. split; [done|]. split; [constructor|].
      intros p. split; [by intros ?%elem_of_nil | done].
  - apply NoDup_iterdir.
  - intros s s' p Hs Hs' [r ->]%found_through_prefix [r' Hp]%found_through_prefix.
    apply elem_of_iterdir in Hs as (c & -> & _).
    apply elem_of_iterdir in Hs' as (c' & -> & _).
    rewrite <- !app_assoc in Hp. apply app_inv_head in Hp.
    simpl in Hp. by injection Hp as ->.
  - exists l. split; [done|]. split; [done|].
    intros p. rewrite Hspec. symmetry. apply regular_under_entries.
Qed.

(** Whatever the tree, what is listed is a regular file. *)
Lemma find_files_from_are_files depth fs d l :
  find_files_from depth fs d = Ok l →
  ∀ p, p ∈ l → ∃ m x, fs !! p = Some (File m x).
Proof.
  revert d l. induction depth as [|depth IH]; intros d l; [done|]. simpl.
  destruct (resolve d fs) as [[d'|e] fs1]; [|done].
  destruct (negb (is_dir fs d')); [done|].
  intros Hc p Hp.
  apply (collect_Ok_inv _ _ _ Hc) in Hp as (s & found & _ & Hv & Hp).
  unfold is_file in Hv.
  destruct (stat fs s) as [[q [m x|m|t]]|] eqn:S.
  - rewrite (resolve_of_stat _ _ _ _ S) in Hv. injection Hv as <-.
    apply list_elem_of_singleton in Hp as ->. apply stat_lookup in S. eauto.
  - destruct (negb (is_symlink fs s) && is_dir fs s); [by eapply IH|].
    injection Hv as <-. by apply elem_of_nil in Hp.
  - destruct (negb (is_symlink fs s) && is_dir fs s); [by eapply IH|].
    injection Hv as <-. by apply elem_of_nil in Hp.
  - destruct (negb (is_symlink fs s) && is_dir fs s); [by eapply IH|].
    injection Hv as <-. by apply elem_of_nil in Hp.
Qed.

(** An entry that leads to a regular file, as a link does, is listed by
    the path it resolves to. *)
Lemma find_files_from_lists_target depth fs d c q m x l :
  dirs_to fs d →
  is_dir fs d = true →
  is_Some (fs !! (d ++ [c])) →
  stat fs (d ++ [c]) = Some (q, File m x) →
  find_files_from (S depth) fs d = Ok l →
  q ∈ l.
Proof.
  intros Hd Hdir Hc Hs. simpl.
  assert (∃ m0, stat fs d = Some (d, Dir m0)) as [m0 Hst].
  { unfold is_dir, stat in Hdir. rewrite walk_canonical in Hdir by (by left).
    destruct (fs !! d) as [[| m0 |]|] eqn:E; try discriminate.
    exists m0. by apply stat_real_dir. }
  rewrite (resolve_of_stat _ _ _ _ Hst), Hdir. simpl.
  intros Hl. apply (collect_Ok_inv _ _ _ Hl).
  exists (d ++ [c]), [q]. split; [apply elem_of_iterdir; eauto|].
  split; [|by apply list_elem_of_singleton].
  cbn beta. unfold is_file. rewrite Hs. cbn iota.
  by rewrite (resolve_of_stat _ _ _ _ Hs).
Qed.

Lemma stat_dir_inv fs p d m :
  stat fs p = Some (d, Dir m) → dirs_to fs d ∧ fs !! d = Some (Dir m).
Proof.
  intros H. pose proof (stat_lookup _ _ _ _ H) as Hl. split; [|done].
  unfold stat in H.
  destruct (walk MAXSYMLINKS fs [] p) as [q| | |] eqn:W; try discriminate.
  destruct (fs !! q) eqn:E; [|discriminate]. injection H as -> ->.
  destruct (walk_Found_canonical _ _ _ _ _ (dirs_to_nil fs) W)
    as [Hd|(d' & c & m' & x & -> & _ & Hf)]; [done | congruence].
Qed.

Lemma find_files_from_resolved depth fs p d n :
  stat fs p = Some (d, n) →
  find_files_from depth fs p = find_files_from depth fs d.
Proof.
  intros H. destruct depth; [done|]. simpl.
  by rewrite (resolve_of_stat _ _ _ _ H),
             (resolve_of_stat _ _ _ _ (stat_canonical _ _ _ _ H)).
Qed.

Lemma no_file_links_fs_tree : no_file_links fs_tree ["iso"].
Proof.
  intros rel t H.
  assert (fs_tree !! (["iso"] ++ rel) = Some (Symlink t) →
          (["iso"] ++ rel) ∈ [["iso"; "debian"]; ["iso"; "dangling"]]) as Hin.
  { intros Hl. apply elem_of_list_to_map_2 in Hl.
    repeat (apply elem_of_cons in Hl as [Hl|Hl]; [try discriminate Hl|]).
    - injection Hl as -> _. set_solver.
    - injection Hl as -> _. set_solver.
    - by apply elem_of_nil in Hl. }
  specialize (Hin H).
  apply elem_of_cons in Hin as [->|Hin]; [vm_compute; reflexivity|].
  apply list_elem_of_singleton in Hin as ->. vm_compute; reflexivity.
Qed.

(** ** Changes that path resolution does not see *)

Lemma kind_with_mode mode n : kind (with_mode mode n) = kind n.
Proof. by destruct n. Qed.

Lemma same_kinds_refl fs : same_kinds fs fs.
Proof. done. Qed.

Lemma same_kinds_sym fs fs' : same_kinds fs fs' → same_kinds fs' fs.
Proof. intros H k. by rewrite H. Qed.

Lemma same_kinds_trans fs1 fs2 fs3 :
  same_kinds fs1 fs2 → same_kinds fs2 fs3 → same_kinds fs1 fs3.
Proof. intros H1 H2 k. by rewrite H1, H2. Qed.

Lemma same_kinds_insert (fs : FS) k n n' :
  fs !! k = Some n → kind n' = kind n → same_kinds fs (<[k := n']> fs).
Proof.
  intros H K k0. destruct (decide (k = k0)) as [<-|Hne].
  - rewrite lookup_insert_eq, H. simpl. by rewrite K.
  - by rewrite lookup_insert_ne.
Qed.

Lemma same_kinds_extends fs fs' : same_kinds fs fs' → extends fs fs'.
Proof.
  intros H k n Hn. specialize (H k). rewrite Hn in H. simpl in H.
  destruct (fs' !! k) as [n'|]; [|done]. injection H as H. eauto.
Qed.

Lemma walk_same_kinds fs fs' fuel done todo :
  same_kinds fs fs' → walk fuel fs done todo = walk fuel fs' done todo.
Proof.
  intros H. revert fuel done todo.
  apply (walk_steps_ind fs (λ fuel done todo,
    walk fuel fs done todo = walk fuel fs' done todo)).
  - intros fuel done. by rewrite !walk_nil.
  - intros fuel done c rest IHdir IHlink. rewrite !walk_cons.
    specialize (H (done ++ [c])).
    destruct (fs !! (done ++ [c])) as [n|] eqn:E,
             (fs' !! (done ++ [c])) as [n'|] eqn:E'; try discriminate H; [|done].
    injection H as H.
    destruct n as [m d|m|t], n' as [m' d'|m'|t']; try discriminate H.
    + done.
    + eauto.
    + injection H as ->. destruct fuel; [done | eauto].
Qed.

Lemma stat_same_kinds fs fs' p :
  same_kinds fs fs' →
  stat fs' p = match stat fs p with
               | Some (q, _) => (λ n, (q, n)) <$> fs' !! q
               | None => None
               end.
Proof.
  intros H. unfold stat. rewrite <- (walk_same_kinds fs fs') by done.
  destruct (walk MAXSYMLINKS fs [] p) as [q| | |]; try done.
  specialize (H q).
  destruct (fs !! q) eqn:E1; destruct (fs' !! q) eqn:E2; simpl in *;
    rewrite ?E2; simpl; congruence.
Qed.

Lemma dirs_to_same_kinds fs fs' d : same_kinds fs fs' → dirs_to fs d → dirs_to fs' d.
Proof. intros H. apply dirs_to_extends. by apply same_kinds_extends. Qed.

(** ** The file operations, step by step *)

Lemma chmod_run p mode fs :
  chmod p mode fs =
  match stat fs p with
  | Some (_, Symlink _) | None => (Raise (FileNotFoundError p), fs)
  | Some (q, n) => (Ok tt, <[q := with_mode mode n]> fs)
  end.
Proof. unfold chmod. by destruct (stat fs p) as [[q [| |]]|]. Qed.

Lemma chmod_Ok p mode fs q n :
  stat fs p = Some (q, n) → (∀ t, n ≠ Symlink t) →
  chmod p mode fs = (Ok tt, <[q := with_mode mode n]> fs).
Proof.
  intros H Hn. rewrite chmod_run, H. destruct n as [| |t]; [done|done|].
  by destruct (Hn t).
Qed.

Lemma chmod_Ok_inv p mode fs fs' :
  chmod p mode fs = (Ok tt, fs') →
  ∃ q n, stat fs p = Some (q, n) ∧ fs !! q = Some n ∧
         fs' = <[q := with_mode mode n]> fs ∧ same_kinds fs fs'.
Proof.
  rewrite chmod_run. destruct (stat fs p) as [[q n]|] eqn:S; [|done].
  pose proof (stat_lookup _ _ _ _ S) as Hq.
  destruct n; intros [= <-]; eexists _, _; (split; [done|]); (split; [done|]);
    (split; [done|]); by eapply same_kinds_insert.
Qed.

Lemma unlink_Ok_inv p fs fs' :
  unlink p fs = (Ok tt, fs') →
  ∃ k n, lstat fs p = Some (k, n) ∧ fs' = delete k fs.
Proof.
  unfold unlink. destruct (lstat fs p) as [[k n]|]; [|done].
  destruct n; intros [= <-]; eauto.
Qed.

(** ** The loop that writes the manifest *)

Lemma regenerate_with_unfold find root :
  regenerate_with find root =
  (root' ← resolve root;
   fs ← gets id;
   if negb (is_dir fs root')
   then raise (NotADirectoryError root')
   else
     chmod (root' ++ ["md5sum.txt"]) 420;;
     chmod (parent (root' ++ ["md5sum.txt"])) 493;;
     unlink (root' ++ ["md5sum.txt"]);;
     subpaths ← find root';
     md5sum_file ← open_truncate (root' ++ ["md5sum.txt"]);
     for_each subpaths (manifest_body root' md5sum_file);;
     chmod (root' ++ ["md5sum.txt"]) 292;;
     chmod (parent (root' ++ ["md5sum.txt"])) 365).
Proof. reflexivity. Qed.

Lemma strip_prefix_app root rel : strip_prefix root (root ++ rel) = Some rel.
Proof. induction root as [|r root IH]; simpl; [done|]. by rewrite String.eqb_refl. Qed.

Lemma strip_prefix_Some root p rel : strip_prefix root p = Some rel → p = root ++ rel.
Proof.
  revert p. induction root as [|r root IH]; intros p; simpl; [by intros [= ->]|].
  destruct p as [|c p]; [done|].
  destruct (String.eqb r c) eqn:E; [|done].
  apply String.eqb_eq in E as ->. intros H. by rewrite (IH _ H).
Qed.

(** One round of the loop, on a file that is there under its own path. *)
Lemma manifest_body_run F3 root md5 mode acc p m x :
  F3 !! md5 = None →
  stat F3 p = Some (p, File m x) →
  manifest_body root md5 p (<[md5 := File mode acc]> F3) =
  match strip_prefix root p with
  | Some rel =>
      (Ok tt, <[md5 := File mode (acc ++ bytes_of (manifest_line x rel))]> F3)
  | None => (Raise (ValueError p root), <[md5 := File mode acc]> F3)
  end.
Proof.
  intros Hmd5 Hp.
  pose proof (stat_lookup _ _ _ _ Hp) as Hl.
  assert (md5 ≠ p) as Hne by congruence.
  assert (stat (<[md5 := File mode acc]> F3) p = Some (p, File m x)) as Hp'.
  { destruct (stat_extends F3 (<[md5 := File mode acc]> F3) p p (File m x))
      as (n' & Hs & Hn & _); [by apply extends_insert_fresh | done |].
    rewrite lookup_insert_ne, Hl in Hn by done. by injection Hn as <-. }
  unfold manifest_body. rewrite bind_run. unfold open_existing. rewrite Hp'.
  cbn beta iota. rewrite bind_run. unfold read_handle.
  rewrite lookup_insert_ne, Hl by done. cbn beta iota.
  rewrite bind_run. unfold relative_to.
  destruct (strip_prefix root p) as [rel|]; [|done]. cbn.
  unfold write_handle. rewrite lookup_insert_eq. by rewrite insert_insert_eq.
Qed.

Lemma entry_bytes_file F3 root p m x rel :
  F3 !! p = Some (File m x) → strip_prefix root p = Some rel →
  entry_bytes F3 root p = bytes_of (manifest_line x rel).
Proof. intros H1 H2. unfold entry_bytes. by rewrite H1, H2. Qed.

(** The whole loop, when it ends normally. *)
Lemma manifest_loop_Ok_inv F3 root md5 mode files acc fs' :
  F3 !! md5 = None →
  (∀ p, p ∈ files → ∃ m x, stat F3 p = Some (p, File m x)) →
  for_each files (manifest_body root md5) (<[md5 := File mode acc]> F3) = (Ok tt, fs') →
  fs' = <[md5 := File mode (acc ++ manifest_text F3 root files)]> F3 ∧
  ∀ p, p ∈ files → root `prefix_of` p.
Proof.
  intros Hmd5. revert acc. induction files as [|p files IH]; intros acc Hfiles.
  - simpl. intros [= <-]. unfold manifest_text. simpl. rewrite app_nil_r.
    split; [done|]. by intros p ?%elem_of_nil.
  - simpl. rewrite bind_run.
    destruct (Hfiles p) as (m & x & Hp); [left|].
    rewrite (manifest_body_run _ _ _ _ _ _ _ _ Hmd5 Hp).
    destruct (strip_prefix root p) as [rel|] eqn:Hrel; [|done].
    intros H. apply IH in H as [-> Hpre]; [|intros q Hq; apply Hfiles; by right].
    split.
    + unfold manifest_text. simpl.
      rewrite (entry_bytes_file _ _ _ _ _ _ (stat_lookup _ _ _ _ Hp) Hrel).
      by rewrite <- app_assoc.
    + intros q [->|Hq]%elem_of_cons; [|by apply Hpre].
      exists rel. by apply strip_prefix_Some.
Qed.

(** The whole loop, for files below the root. *)
Lemma manifest_loop_Ok F3 root md5 mode files acc :
  F3 !! md5 = None →
  (∀ p, p ∈ files → ∃ m x, stat F3 p = Some (p, File m x)) →
  (∀ p, p ∈ files → root `prefix_of` p) →
  for_each files (manifest_body root md5) (<[md5 := File mode acc]> F3)
  = (Ok tt, <[md5 := File mode (acc ++ manifest_text F3 root files)]> F3).
Proof.
  intros Hmd5. revert acc. induction files as [|p files IH]; intros acc Hfiles Hpre.
  - simpl. unfold manifest_text. simpl. by rewrite app_nil_r.
  - simpl. rewrite bind_run.
    destruct (Hfiles p) as (m & x & Hp); [left|].
    rewrite (manifest_body_run _ _ _ _ _ _ _ _ Hmd5 Hp).
    destruct (Hpre p) as [rel ->]; [left|].
    rewrite strip_prefix_app. rewrite IH.
    + unfold manifest_text. simpl.
      rewrite (entry_bytes_file _ _ _ _ _ _ (stat_lookup _ _ _ _ Hp)
                 (strip_prefix_app root rel)).
      by rewrite <- app_assoc.
    + intros q Hq. apply Hfiles. by right.
    + intros q Hq. apply Hpre. by right.
Qed.

Lemma find_files_from_canonical depth fs d l :
  find_files_from depth fs d = Ok l →
  ∀ p, p ∈ l → ∃ m x, stat fs p = Some (p, File m x).
Proof.
  revert d l. induction depth as [|depth IH]; intros d l; [done|]. simpl.
  destruct (resolve d fs) as [[d'|e] fs1]; [|done].
  destruct (negb (is_dir fs d')); [done|].
  intros Hc p Hp.
  apply (collect_Ok_inv _ _ _ Hc) in Hp as (s & found & _ & Hv & Hp).
  unfold is_file in Hv.
  destruct (stat fs s) as [[q [m x|m|t]]|] eqn:S.
  - rewrite (resolve_of_stat _ _ _ _ S) in Hv. injection Hv as <-.
    apply list_elem_of_singleton in Hp as ->. apply stat_canonical in S. eauto.
  - destruct (negb (is_symlink fs s) && is_dir fs s); [by eapply IH|].
    injection Hv as <-. by apply elem_of_nil in Hp.
  - destruct (negb (is_symlink fs s) && is_dir fs s); [by eapply IH|].
    injection Hv as <-. by apply elem_of_nil in Hp.
  - destruct (negb (is_symlink fs s) && is_dir fs s); [by eapply IH|].
    injection Hv as <-. by apply elem_of_nil in Hp.
Qed.

Lemma dirs_to_delete_entry fs d c : dirs_to fs d → dirs_to (delete (d ++ [c]) fs) d.
Proof.
  intros H pre c' post E. destruct (H pre c' post E) as [m Hm].
  exists m. rewrite lookup_delete_ne; [done|].
  intros Heq. apply (f_equal length) in Heq. subst d.
  rewrite !length_app in Heq. simpl in Heq. lia.
Qed.

(** ** [regenerate_iso_md5sums_file], stage by stage *)

Lemma regenerate_head find fs root root' m qm nm n3 :
  stat fs root = Some (root', Dir m) →
  stat fs (root' ++ ["md5sum.txt"]) = Some (qm, nm) →
  (∀ t, nm ≠ Symlink t) →
  (<[root' := Dir 493]> (<[qm := with_mode 420 nm]> fs)) !! (root' ++ ["md5sum.txt"])
    = Some n3 →
  (∀ mm, n3 ≠ Dir mm) →
  regenerate_with find root fs =
  (subpaths ← find root';
   md5sum_file ← open_truncate (root' ++ ["md5sum.txt"]);
   for_each subpaths (manifest_body root' md5sum_file);;
   chmod (root' ++ ["md5sum.txt"]) 292;;
   chmod (parent (root' ++ ["md5sum.txt"])) 365) (before_enumeration fs root' qm nm).
Proof.
  intros Hroot Hmd5 Hnm Hn3 Hnd.
  destruct (stat_dir_inv _ _ _ _ Hroot) as [Hd Hm].
  rewrite regenerate_with_unfold.
  step_with (resolve_of_stat _ _ _ _ Hroot).
  rewrite bind_run. unfold gets, id. cbn beta iota.
  unfold is_dir. rewrite (stat_canonical _ _ _ _ Hroot). cbn.
  step_with (chmod_Ok _ 420%N _ _ _ Hmd5 Hnm).
  unfold before_enumeration.
  set (F1 := <[qm := with_mode 420 nm]> fs) in *.
  assert (same_kinds fs F1) as HK1.
  { eapply same_kinds_insert; [by eapply stat_lookup | apply kind_with_mode]. }
  assert (∃ m1, F1 !! root' = Some (Dir m1)) as [m1 Hm1].
  { specialize (HK1 root'). rewrite Hm in HK1. simpl in HK1.
    destruct (F1 !! root') as [[| m1 |]|]; try discriminate. eauto. }
  assert (dirs_to F1 root') as Hd1 by (by eapply dirs_to_same_kinds).
  unfold parent. rewrite removelast_snoc.
  rewrite bind_run, chmod_run, (stat_real_dir _ _ _ Hd1 Hm1). cbn beta iota.
  set (F2 := <[root' := Dir 493]> F1) in *.
  assert (same_kinds F1 F2) as HK2 by (by eapply same_kinds_insert).
  assert (dirs_to F2 root') as Hd2 by (by eapply dirs_to_same_kinds).
  assert (F2 !! root' = Some (Dir 493)) as Hm2 by apply lookup_insert_eq.
  rewrite bind_run. unfold unlink.
  rewrite (lstat_entry _ _ _ _ Hd2 Hm2), Hn3. simpl.
  destruct n3 as [| mm |]; [done | by destruct (Hnd mm) | done].
Qed.

Lemma regenerate_head_inv find fs root fs' :
  regenerate_with find root fs = (Ok tt, fs') →
  ∃ root' m qm nm n3,
    stat fs root = Some (root', Dir m) ∧
    stat fs (root' ++ ["md5sum.txt"]) = Some (qm, nm) ∧
    (∀ t, nm ≠ Symlink t) ∧
    (<[root' := Dir 493]> (<[qm := with_mode 420 nm]> fs)) !! (root' ++ ["md5sum.txt"])
      = Some n3 ∧
    (∀ mm, n3 ≠ Dir mm).
Proof.
  rewrite regenerate_with_unfold. intros H.
  apply bind_Ok_inv in H as (root' & fs1 & Hres & H).
  pose proof (resolve_state _ _ _ _ Hres) as ->.
  apply bind_Ok_inv in H as (fs0 & fs1 & Hget & H).
  injection Hget as <- <-.
  destruct (is_dir fs root') eqn:Hdir; [|done]. simpl in H.
  assert (∃ m, stat fs root = Some (root', Dir m)) as [m Hroot].
  { pose proof (stat_resolve _ _ _ _ Hres) as [_ Hst].
    unfold is_dir in Hdir.
    destruct (stat fs root') as [[q [| m |]]|] eqn:S; try discriminate.
    exists m. rewrite <- Hst.
    symmetry in Hst. pose proof (resolve_of_stat _ _ _ _ Hst) as Hres'.
    rewrite Hres in Hres'. by injection Hres' as ->. }
  destruct (stat_dir_inv _ _ _ _ Hroot) as [Hd Hm].
  apply bind_Ok_inv in H as ([] & F1 & Hch1 & H).
  rewrite chmod_run in Hch1.
  destruct (stat fs (root' ++ ["md5sum.txt"])) as [[qm nm]|] eqn:Hmd5; [|done].
  assert (∀ t, nm ≠ Symlink t) as Hnm by (intros t ->; done).
  assert (F1 = <[qm := with_mode 420 nm]> fs) as ->
    by (destruct nm; by injection Hch1).
  clear Hch1. set (F1 := <[qm := with_mode 420 nm]> fs) in *.
  assert (same_kinds fs F1) as HK1.
  { eapply same_kinds_insert; [by eapply stat_lookup | apply kind_with_mode]. }
  assert (∃ m1, F1 !! root' = Some (Dir m1)) as [m1 Hm1].
  { specialize (HK1 root'). rewrite Hm in HK1. simpl in HK1.
    destruct (F1 !! root') as [[| m1 |]|]; try discriminate. eauto. }
  assert (dirs_to F1 root') as Hd1 by (by eapply dirs_to_same_kinds).
  apply bind_Ok_inv in H as ([] & F2 & Hch2 & H).
  unfold parent in Hch2. rewrite removelast_snoc in Hch2.
  rewrite chmod_run, (stat_real_dir _ _ _ Hd1 Hm1) in Hch2.
  injection Hch2 as <-. simpl in H.
  set (F2 := <[root' := Dir 493]> F1) in *.
  assert (same_kinds F1 F2) as HK2 by (by eapply same_kinds_insert).
  assert (dirs_to F2 root') as Hd2 by (by eapply dirs_to_same_kinds).
  assert (F2 !! root' = Some (Dir 493)) as Hm2 by apply lookup_insert_eq.
  apply bind_Ok_inv in H as ([] & F3 & Hun & H).
  unfold unlink in Hun. rewrite (lstat_entry _ _ _ _ Hd2 Hm2) in Hun.
  destruct (F2 !! (root' ++ ["md5sum.txt"])) as [n3|] eqn:Hn3; [|done].
  exists root', m, qm, nm, n3.
  repeat (split; [done|]). intros mm ->. done.
Qed.

Lemma snoc_ne_self {A} (d : list A) c : d ++ [c] ≠ d.
Proof. intros H. apply (f_equal length) in H. rewrite length_app in H. simpl in H. lia. Qed.

(** The two last steps: the modes are narrowed again. *)
Lemma regenerate_narrow F3 root' m3 text :
  dirs_to F3 root' →
  F3 !! root' = Some (Dir m3) →
  F3 !! (root' ++ ["md5sum.txt"]) = None →
  (chmod (root' ++ ["md5sum.txt"]) 292;;
   chmod (parent (root' ++ ["md5sum.txt"])) 365)
    (<[root' ++ ["md5sum.txt"] := File default_mode text]> F3)
  = (Ok tt, <[root' := Dir 365]> (<[root' ++ ["md5sum.txt"] := File 292 text]> F3)).
Proof.
  intros Hd Hm Hmd5.
  set (md5 := root' ++ ["md5sum.txt"]) in *.
  set (F5 := <[md5 := File default_mode text]> F3).
  assert (extends F3 F5) as He by (by apply extends_insert_fresh).
  assert (dirs_to F5 root') as Hd5 by (by eapply dirs_to_extends).
  assert (stat F5 md5 = Some (md5, File default_mode text)) as Hs.
  { apply stat_real_file; [done|]. apply lookup_insert_eq. }
  rewrite bind_run, (chmod_Ok _ 292%N _ _ _ Hs) by done. cbn beta iota.
  unfold F5. rewrite insert_insert_eq. simpl.
  set (F6 := <[md5 := File 292 text]> F3).
  assert (extends F3 F6) as He6 by (by apply extends_insert_fresh).
  assert (dirs_to F6 root') as Hd6 by (by eapply dirs_to_extends).
  assert (F6 !! root' = Some (Dir m3)) as Hm6.
  { unfold F6. rewrite lookup_insert_ne; [done|]. apply snoc_ne_self. }
  unfold parent, md5. rewrite removelast_snoc.
  by rewrite (chmod_Ok _ 365%N _ _ _ (stat_real_dir _ _ _ Hd6 Hm6)).
Qed.

Lemma regenerate_tail_run F3 root' m3 files :
  dirs_to F3 root' →
  F3 !! root' = Some (Dir m3) →
  F3 !! (root' ++ ["md5sum.txt"]) = None →
  find_files_from (S (max_depth F3)) F3 root' = Ok files →
  (∀ p, p ∈ files → root' `prefix_of` p) →
  (subpaths ← find_all_files root';
   md5sum_file ← open_truncate (root' ++ ["md5sum.txt"]);
   for_each subpaths (manifest_body root' md5sum_file);;
   chmod (root' ++ ["md5sum.txt"]) 292;;
   chmod (parent (root' ++ ["md5sum.txt"])) 365) F3
  = (Ok tt, <[root' := Dir 365]>
              (<[root' ++ ["md5sum.txt"] := File 292 (manifest_text F3 root' files)]> F3)).
Proof.
  intros Hd Hm Hmd5 Hfind Hpre.
  rewrite bind_run. unfold find_all_files at 1. rewrite Hfind. cbn beta iota.
  rewrite bind_run. unfold open_truncate.
  rewrite walk_creatable by (by exists root', "md5sum.txt"). cbn beta iota.
  rewrite bind_run, manifest_loop_Ok;
    [|done|by eapply find_files_from_canonical|done].
  cbn beta iota. simpl app. by eapply regenerate_narrow.
Qed.

Lemma regenerate_tail_inv F3 root' m3 fs' :
  dirs_to F3 root' →
  F3 !! root' = Some (Dir m3) →
  F3 !! (root' ++ ["md5sum.txt"]) = None →
  (subpaths ← find_all_files root';
   md5sum_file ← open_truncate (root' ++ ["md5sum.txt"]);
   for_each subpaths (manifest_body root' md5sum_file);;
   chmod (root' ++ ["md5sum.txt"]) 292;;
   chmod (parent (root' ++ ["md5sum.txt"])) 365) F3 = (Ok tt, fs') →
  ∃ files,
    find_files_from (S (max_depth F3)) F3 root' = Ok files ∧
    (∀ p, p ∈ files → root' `prefix_of` p) ∧
    fs' = <[root' := Dir 365]>
            (<[root' ++ ["md5sum.txt"] := File 292 (manifest_text F3 root' files)]> F3).
Proof.
  intros Hd Hm Hmd5 H.
  apply bind_Ok_inv in H as (files & F & Hfind & H).
  unfold find_all_files in Hfind. apply pair_equal_spec in Hfind as [Hfind <-].
  apply bind_Ok_inv in H as (h & F4 & Hopen & H).
  unfold open_truncate in Hopen.
  rewrite walk_creatable in Hopen by (by exists root', "md5sum.txt").
  injection Hopen as <- <-.
  apply bind_Ok_inv in H as ([] & F5 & Hloop & H).
  apply manifest_loop_Ok_inv in Hloop as [-> Hpre];
    [|done|by eapply find_files_from_canonical].
  exists files. split; [done|]. split; [done|].
  simpl app in H. rewrite (regenerate_narrow _ _ _ _ Hd Hm Hmd5) in H.
  by injection H as <-.
Qed.

(** The state before the enumeration is as the later stages need it. *)
Lemma before_enumeration_facts fs root root' m qm nm :
  stat fs root = Some (root', Dir m) →
  stat fs (root' ++ ["md5sum.txt"]) = Some (qm, nm) →
  let F3 := before_enumeration fs root' qm nm in
  dirs_to F3 root' ∧ F3 !! root' = Some (Dir 493) ∧
  F3 !! (root' ++ ["md5sum.txt"]) = None.
Proof.
  intros Hroot Hmd5. destruct (stat_dir_inv _ _ _ _ Hroot) as [Hd Hm].
  unfold before_enumeration.
  set (F1 := <[qm := with_mode 420 nm]> fs).
  assert (same_kinds fs F1) as HK1.
  { eapply same_kinds_insert; [by eapply stat_lookup | apply kind_with_mode]. }
  assert (∃ m1, F1 !! root' = Some (Dir m1)) as [m1 Hm1].
  { specialize (HK1 root'). rewrite Hm in HK1. simpl in HK1.
    destruct (F1 !! root') as [[| m1 |]|]; try discriminate. eauto. }
  assert (same_kinds F1 (<[root' := Dir 493]> F1)) as HK2
    by (by eapply same_kinds_insert).
  split; [|split].
  - apply dirs_to_delete_entry.
    eapply dirs_to_same_kinds; [exact HK2|]. by eapply dirs_to_same_kinds.
  - rewrite lookup_delete_ne by (apply snoc_ne_self). apply lookup_insert_eq.
  - apply lookup_delete_eq.
Qed.

Lemma regenerate_Ok_inv fs root fs' :
  regenerate_with find_all_files root fs = (Ok tt, fs') →
  ∃ root' m qm nm files,
    stat fs root = Some (root', Dir m) ∧
    stat fs (root' ++ ["md5sum.txt"]) = Some (qm, nm) ∧
    find_files_from (S (max_depth (before_enumeration fs root' qm nm)))
      (before_enumeration fs root' qm nm) root' = Ok files ∧
    (∀ p, p ∈ files → root' `prefix_of` p) ∧
    fs' = after_regeneration (before_enumeration fs root' qm nm) root' files.
Proof.
  intros H.
  destruct (regenerate_head_inv _ _ _ _ H)
    as (root' & m & qm & nm & n3 & Hroot & Hmd5 & Hnm & Hn3 & Hnd).
  rewrite (regenerate_head _ _ _ _ _ _ _ _ Hroot Hmd5 Hnm Hn3 Hnd) in H.
  destruct (before_enumeration_facts _ _ _ _ _ _ Hroot Hmd5) as (Hd3 & Hm3 & Hnone).
  destruct (regenerate_tail_inv _ _ _ _ Hd3 Hm3 Hnone H) as (files & Hfind & Hpre & ->).
  exists root', m, qm, nm, files. done.
Qed.

Lemma after_regeneration_stat F3 root' m3 files :
  dirs_to F3 root' →
  F3 !! root' = Some (Dir m3) →
  F3 !! (root' ++ ["md5sum.txt"]) = None →
  stat (after_regeneration F3 root' files) (root' ++ ["md5sum.txt"])
    = Some (root' ++ ["md5sum.txt"], File 292 (manifest_text F3 root' files)) ∧
  stat (after_regeneration F3 root' files) root' = Some (root', Dir 365) ∧
  ∀ p, p ≠ root' → p ≠ root' ++ ["md5sum.txt"] →
       after_regeneration F3 root' files !! p = F3 !! p.
Proof.
  intros Hd Hm Hnone. unfold after_regeneration.
  set (F6 := <[root' ++ ["md5sum.txt"] := _]> F3).
  assert (dirs_to F6 root') as Hd6
    by (eapply dirs_to_extends; [by apply extends_insert_fresh | done]).
  assert (F6 !! root' = Some (Dir m3)) as Hm6.
  { unfold F6. rewrite lookup_insert_ne; [done|]. apply snoc_ne_self. }
  assert (dirs_to (<[root' := Dir 365]> F6) root') as Hd7.
  { eapply dirs_to_same_kinds; [|done]. by eapply same_kinds_insert. }
  split; [|split].
  - apply stat_real_file; [done|].
    rewrite lookup_insert_ne by (symmetry; apply snoc_ne_self).
    apply lookup_insert_eq.
  - apply stat_real_dir; [done|]. apply lookup_insert_eq.
  - intros p H1 H2. unfold F6. by rewrite !lookup_insert_ne.
Qed.

Lemma manifest_text_agree fs fs' root files :
  (∀ p, p ∈ files → fs' !! p = fs !! p) →
  manifest_text fs' root files = manifest_text fs root files.
Proof.
  unfold manifest_text. induction files as [|p files IH]; intros H; [done|].
  simpl. rewrite IH by (intros q Hq; apply H; by right).
  f_equal. unfold entry_bytes. rewrite H by left. done.
Qed.

(** ** The tree before and after the old manifest is removed *)

Lemma file_below_delete_file fs F2 k mk xk d rel :
  same_kinds fs F2 →
  fs !! k = Some (File mk xk) →
  file_below (delete k F2) d rel ↔ file_below fs d rel ∧ d ++ rel ≠ k.
Proof.
  intros HK Hk. revert d. induction rel as [|c rel IH]; intros d; [simpl; tauto|].
  rewrite !file_below_cons, IH. rewrite <- !app_assoc. simpl.
  assert (∀ n, kind n = File 0 [] → ∃ m x, n = File m x) as HkF
    by (intros [| |]; try discriminate; eauto).
  assert (∀ n, kind n = Dir 0 → ∃ m, n = Dir m) as HkD
    by (intros [| |]; try discriminate; eauto).
  pose proof (HK (d ++ [c])) as Hc.
  split.
  - intros [[-> (m & x & Hf)]|(Hne & (m & Hm) & Hb & Hneq)].
    + apply lookup_delete_Some in Hf as [Hneq Hf].
      rewrite Hf in Hc. simpl in Hc.
      destruct (fs !! (d ++ [c])) as [n|]; [|done]. injection Hc as Hc.
      destruct (HkF n Hc) as (m' & x' & ->).
      split; [left; eauto | done].
    + apply lookup_delete_Some in Hm as [Hneq' Hm].
      rewrite Hm in Hc. simpl in Hc.
      destruct (fs !! (d ++ [c])) as [n|]; [|done]. injection Hc as Hc.
      destruct (HkD n Hc) as (m' & ->).
      split; [right; eauto | done].
  - intros [[[-> (m & x & Hf)]|(Hne & (m & Hm) & Hb)] Hneq].
    + left. split; [done|]. rewrite Hf in Hc. simpl in Hc.
      destruct (F2 !! (d ++ [c])) as [n|] eqn:E; [|done]. injection Hc as Hc.
      destruct (HkF n (eq_sym Hc)) as (m' & x' & ->).
      exists m', x'. by apply lookup_delete_Some.
    + right. split; [done|]. rewrite Hm in Hc. simpl in Hc.
      destruct (F2 !! (d ++ [c])) as [n|] eqn:E; [|done]. injection Hc as Hc.
      destruct (HkD n (eq_sym Hc)) as (m' & ->).
      split; [|done]. exists m'. apply lookup_delete_Some. split; [|done].
      congruence.
Qed.

Lemma before_enumeration_other fs root' nm p :
  p ≠ root' → p ≠ root' ++ ["md5sum.txt"] →
  before_enumeration fs root' (root' ++ ["md5sum.txt"]) nm !! p = fs !! p.
Proof.
  intros H1 H2. unfold before_enumeration.
  by rewrite lookup_delete_ne, !lookup_insert_ne.
Qed.

Lemma widened_same_kinds fs root' m mm dm :
  fs !! root' = Some (Dir m) →
  fs !! (root' ++ ["md5sum.txt"]) = Some (File mm dm) →
  same_kinds fs (<[root' := Dir 493]> (<[root' ++ ["md5sum.txt"] := File 420 dm]> fs)).
Proof.
  intros Hm Hf.
  apply (same_kinds_trans _ (<[root' ++ ["md5sum.txt"] := File 420 dm]> fs)).
  - apply (same_kinds_insert _ _ (File mm dm)); [exact Hf | done].
  - apply (same_kinds_insert _ root' (Dir m)); [|done].
    rewrite lookup_insert_ne; [exact Hm | apply snoc_ne_self].
Qed.

Lemma no_file_links_before_enumeration fs root' m mm dm :
  fs !! root' = Some (Dir m) →
  fs !! (root' ++ ["md5sum.txt"]) = Some (File mm dm) →
  no_file_links fs root' →
  no_file_links
    (before_enumeration fs root' (root' ++ ["md5sum.txt"]) (File mm dm)) root'.
Proof.
  intros Hm Hf Hlinks rel t Ht.
  pose proof (widened_same_kinds _ _ _ _ _ Hm Hf) as HK.
  unfold before_enumeration in *. simpl in *.
  set (F2 := <[root' := Dir 493]> (<[root' ++ ["md5sum.txt"] := File 420 dm]> fs)) in *.
  assert (extends (delete (root' ++ ["md5sum.txt"]) F2) fs) as He.
  { eapply extends_trans; [apply extends_delete|].
    by apply same_kinds_extends, same_kinds_sym. }
  destruct (He _ _ Ht) as (n' & Hn' & Kn'). simpl in Kn'.
  destruct n' as [| |t']; try discriminate. injection Kn' as ->.
  specialize (Hlinks rel t Hn').
  destruct (is_file (delete (root' ++ ["md5sum.txt"]) F2) (root' ++ rel)) eqn:E; [|done].
  unfold is_file in E.
  destruct (stat (delete (root' ++ ["md5sum.txt"]) F2) (root' ++ rel))
    as [[q [mq xq| |]]|] eqn:S; try discriminate.
  destruct (stat_extends _ _ _ _ _ He S) as (n'' & S' & _ & K'').
  unfold is_file in Hlinks. rewrite S' in Hlinks.
  destruct n''; done.
Qed.

(** ** The initrd rewrite, stage by stage *)

Lemma dirs_to_insert_entry fs d c n : dirs_to fs d → dirs_to (<[d ++ [c] := n]> fs) d.
Proof.
  intros H pre c' post E. destruct (H pre c' post E) as [m Hm].
  exists m. rewrite lookup_insert_ne; [done|].
  intros Heq. apply (f_equal length) in Heq. subst d.
  rewrite !length_app in Heq. simpl in Heq. lia.
Qed.

Lemma dirs_to_insert_self fs d m m' :
  fs !! d = Some (Dir m) → dirs_to fs d → dirs_to (<[d := Dir m']> fs) d.
Proof. intros Hm. apply dirs_to_same_kinds. by eapply same_kinds_insert. Qed.

Lemma with_suffix_empty_initrd d : with_suffix_empty (d ++ ["initrd.gz"]) = d ++ ["initrd"].
Proof.
  unfold with_suffix_empty, name, parent. by rewrite removelast_snoc, last_snoc'.
Qed.

Lemma entry_ne {A} (d : list A) c c' : c ≠ c' → d ++ [c] ≠ d ++ [c'].
Proof. intros H E. apply app_inv_head in E. congruence. Qed.

Lemma open_truncate_new fs d c :
  dirs_to fs d → fs !! (d ++ [c]) = None →
  open_truncate (d ++ [c]) fs = (Ok (d ++ [c]), <[d ++ [c] := File default_mode []]> fs).
Proof.
  intros Hd Hn. unfold open_truncate.
  by rewrite walk_creatable by (by exists d, c).
Qed.

Lemma open_existing_file fs d c m x :
  dirs_to fs d → fs !! (d ++ [c]) = Some (File m x) →
  open_existing (d ++ [c]) fs = (Ok (d ++ [c]), fs).
Proof.
  intros Hd Hf. unfold open_existing. by rewrite (stat_real_file _ _ _ _ _ Hd Hf).
Qed.

Lemma unlink_entry fs d c m n :
  dirs_to fs d → fs !! d = Some (Dir m) → fs !! (d ++ [c]) = Some n →
  (∀ mm, n ≠ Dir mm) →
  unlink (d ++ [c]) fs = (Ok tt, delete (d ++ [c]) fs).
Proof.
  intros Hd Hm Hn Hnd. unfold unlink. rewrite (lstat_entry _ _ _ _ Hd Hm), Hn. simpl.
  destruct n as [| mm |]; [done | by destruct (Hnd mm) | done].
Qed.

(** The archive is unpacked beside itself and removed. *)
Lemma append_unpack {A : Type} (E : Env) (fs : FS) (d : path) (md m : N)
    (data raw : list byte) (K : M A) :
  dirs_to fs d →
  fs !! d = Some (Dir md) →
  fs !! (d ++ ["initrd.gz"]) = Some (File m data) →
  fs !! (d ++ ["initrd"]) = None →
  gzip_decompress E data = Some raw →
  (chmod (d ++ ["initrd.gz"]) 420;;
   chmod (parent (d ++ ["initrd.gz"])) 493;;
   gunzip_to E (d ++ ["initrd.gz"]) (d ++ ["initrd"]);;
   unlink (d ++ ["initrd.gz"]);;
   K) fs
  = K (initrd_unpacked fs d raw).
Proof.
  intros Hd Hmd Hq Hext Hraw.
  unfold parent. rewrite removelast_snoc.
  assert (d ++ ["initrd.gz"] ≠ d ++ ["initrd"]) as Hne by (by apply entry_ne).
  assert (d ++ ["initrd.gz"] ≠ d) as Hqd by apply snoc_ne_self.
  assert (d ++ ["initrd"] ≠ d) as Hed by apply snoc_ne_self.
  step_with (chmod_Ok (d ++ ["initrd.gz"]) 420%N fs _ (File m data)
               (stat_real_file _ _ _ _ _ Hd Hq) ltac:(done)).
  simpl with_mode. set (F1 := <[d ++ ["initrd.gz"] := File 420 data]> fs).
  assert (dirs_to F1 d) as Hd1 by (by apply dirs_to_insert_entry).
  assert (F1 !! d = Some (Dir md)) as Hmd1
    by (unfold F1; by rewrite lookup_insert_ne).
  step_with (chmod_Ok d 493%N F1 d (Dir md) (stat_real_dir _ _ _ Hd1 Hmd1) ltac:(done)).
  simpl with_mode. set (F2 := <[d := Dir 493]> F1).
  assert (dirs_to F2 d) as Hd2 by (by eapply dirs_to_insert_self).
  assert (F2 !! (d ++ ["initrd.gz"]) = Some (File 420 data)) as Hq2.
  { unfold F2, F1. rewrite lookup_insert_ne by done. apply lookup_insert_eq. }
  assert (F2 !! (d ++ ["initrd"]) = None) as Hext2.
  { unfold F2, F1. by rewrite !lookup_insert_ne. }
  assert (gunzip_to E (d ++ ["initrd.gz"]) (d ++ ["initrd"]) F2
          = (Ok tt, <[d ++ ["initrd"] := File default_mode raw]> F2)) as Hg.
  { unfold gunzip_to.
    step_with (open_existing_file _ _ _ _ _ Hd2 Hq2).
    step_with (open_truncate_new _ _ _ Hd2 Hext2).
    rewrite bind_run. unfold read_handle.
    rewrite lookup_insert_ne, Hq2 by done. cbn beta iota. rewrite Hraw.
    unfold write_handle. rewrite lookup_insert_eq. simpl.
    by rewrite insert_insert_eq. }
  step_with Hg. set (F4 := <[d ++ ["initrd"] := File default_mode raw]> F2).
  assert (dirs_to F4 d) as Hd4 by (by apply dirs_to_insert_entry).
  assert (F4 !! d = Some (Dir 493)) as Hmd4.
  { unfold F4, F2. rewrite lookup_insert_ne by done. apply lookup_insert_eq. }
  assert (F4 !! (d ++ ["initrd.gz"]) = Some (File 420 data)) as Hq4
    by (unfold F4; by rewrite lookup_insert_ne).
  step_with (unlink_entry _ _ _ _ _ Hd4 Hmd4 Hq4 ltac:(done)).
  f_equal. unfold initrd_unpacked, F4, F2, F1.
  apply map_eq. intros k.
  destruct (decide (k = d ++ ["initrd.gz"])) as [->|?];
    [by rewrite !lookup_delete_eq|].
  rewrite !lookup_delete_ne by done.
  destruct (decide (k = d ++ ["initrd"])) as [->|?];
    [by rewrite !lookup_insert_eq|].
  rewrite !(lookup_insert_ne _ (d ++ ["initrd"])) by done.
  destruct (decide (k = d)) as [->|?]; [by rewrite !lookup_insert_eq|].
  by rewrite !lookup_insert_ne.
Qed.

Lemma stat_file_inv fs p d c m x :
  stat fs p = Some (d ++ [c], File m x) → dirs_to fs d.
Proof.
  intros H. pose proof (stat_lookup _ _ _ _ H) as Hl. unfold stat in H.
  destruct (walk MAXSYMLINKS fs [] p) as [q| | |] eqn:W; try discriminate.
  destruct (fs !! q) eqn:E; [|discriminate]. injection H as -> ->.
  destruct (walk_Found_canonical _ _ _ _ _ (dirs_to_nil fs) W)
    as [Hd|(d' & c' & m' & x' & Heq & Hd & _)].
  - destruct (dirs_to_lookup _ _ _ Hd) as [mm Hmm]. congruence.
  - by apply app_inj_tail in Heq as [-> _].
Qed.

(** The unpacked file is compressed into a new archive and removed, and
    the modes are narrowed. *)
Lemma append_repack (E : Env) (F6 : FS) (d : path) (md me : N) (raw' : list byte) :
  dirs_to F6 d →
  F6 !! d = Some (Dir md) →
  F6 !! (d ++ ["initrd.gz"]) = None →
  F6 !! (d ++ ["initrd"]) = Some (File me raw') →
  (gzip_from E (d ++ ["initrd.gz"]) (d ++ ["initrd"]);;
   unlink (d ++ ["initrd"]);;
   chmod (d ++ ["initrd.gz"]) 292;;
   chmod (parent (d ++ ["initrd.gz"])) 365) F6
  = (Ok tt, initrd_repacked E (delete (d ++ ["initrd"]) F6) d raw').
Proof.
  intros Hd Hmd Hq Hext.
  unfold parent. rewrite removelast_snoc.
  assert (d ++ ["initrd.gz"] ≠ d ++ ["initrd"]) as Hne by (by apply entry_ne).
  assert (d ++ ["initrd.gz"] ≠ d) as Hqd by apply snoc_ne_self.
  assert (d ++ ["initrd"] ≠ d) as Hed by apply snoc_ne_self.
  set (F7 := <[d ++ ["initrd.gz"] := File default_mode []]> F6).
  assert (dirs_to F7 d) as Hd7 by (by apply dirs_to_insert_entry).
  assert (F7 !! (d ++ ["initrd"]) = Some (File me raw')) as Hext7
    by (unfold F7; by rewrite lookup_insert_ne).
  assert (gzip_from E (d ++ ["initrd.gz"]) (d ++ ["initrd"]) F6
          = (Ok tt, <[d ++ ["initrd.gz"] := File default_mode (gzip_compress E raw')]> F6))
    as Hg.
  { unfold gzip_from. step_with (open_truncate_new _ _ _ Hd Hq). fold F7.
    unfold with_exit.
    step_with (open_existing_file _ _ _ _ _ Hd7 Hext7).
    rewrite bind_run. unfold read_handle. rewrite Hext7. cbn beta iota.
    unfold write_handle, F7. rewrite lookup_insert_eq. simpl.
    by rewrite insert_insert_eq. }
  step_with Hg.
  set (F8 := <[d ++ ["initrd.gz"] := File default_mode (gzip_compress E raw')]> F6).
  assert (dirs_to F8 d) as Hd8 by (by apply dirs_to_insert_entry).
  assert (F8 !! d = Some (Dir md)) as Hmd8
    by (unfold F8; by rewrite lookup_insert_ne).
  assert (F8 !! (d ++ ["initrd"]) = Some (File me raw')) as Hext8
    by (unfold F8; by rewrite lookup_insert_ne).
  step_with (unlink_entry _ _ _ _ _ Hd8 Hmd8 Hext8 ltac:(done)).
  set (F9 := delete (d ++ ["initrd"]) F8).
  assert (dirs_to F9 d) as Hd9 by (by apply dirs_to_delete_entry).
  assert (F9 !! (d ++ ["initrd.gz"])
          = Some (File default_mode (gzip_compress E raw'))) as Hq9.
  { unfold F9, F8. rewrite lookup_delete_ne by done. apply lookup_insert_eq. }
  step_with (chmod_Ok (d ++ ["initrd.gz"]) 292%N F9 _ _
               (stat_real_file _ _ _ _ _ Hd9 Hq9) ltac:(done)).
  simpl with_mode.
  set (F10 := <[d ++ ["initrd.gz"] := File 292 (gzip_compress E raw')]> F9).
  assert (dirs_to F10 d) as Hd10 by (by apply dirs_to_insert_entry).
  assert (F10 !! d = Some (Dir md)) as Hmd10.
  { unfold F10, F9. by rewrite lookup_insert_ne, lookup_delete_ne. }
  rewrite (chmod_Ok d 365%N F10 d (Dir md) (stat_real_dir _ _ _ Hd10 Hmd10)) by done.
  f_equal. unfold initrd_repacked, F10, F9, F8. simpl with_mode.
  apply map_eq. intros k.
  destruct (decide (k = d)) as [->|?]; [by rewrite !lookup_insert_eq|].
  rewrite !(lookup_insert_ne _ d) by done.
  destruct (decide (k = d ++ ["initrd.gz"])) as [->|?];
    [by rewrite !lookup_insert_eq|].
  rewrite !(lookup_insert_ne _ (d ++ ["initrd.gz"])) by done.
  destruct (decide (k = d ++ ["initrd"])) as [->|?];
    [by rewrite !lookup_delete_eq|].
  by rewrite !lookup_delete_ne, lookup_insert_ne.
Qed.

Lemma initrd_unpacked_facts fs d md m data raw :
  dirs_to fs d →
  fs !! d = Some (Dir md) →
  fs !! (d ++ ["initrd.gz"]) = Some (File m data) →
  let F5 := initrd_unpacked fs d raw in
  dirs_to F5 d ∧ F5 !! d = Some (Dir 493) ∧
  F5 !! (d ++ ["initrd.gz"]) = None ∧
  F5 !! (d ++ ["initrd"]) = Some (File default_mode raw) ∧
  ∀ k, k ≠ d → k ≠ d ++ ["initrd.gz"] → k ≠ d ++ ["initrd"] → F5 !! k = fs !! k.
Proof.
  intros Hd Hmd Hq. unfold initrd_unpacked.
  assert (d ++ ["initrd.gz"] ≠ d ++ ["initrd"]) as Hne by (by apply entry_ne).
  assert (d ++ ["initrd.gz"] ≠ d) as Hqd by apply snoc_ne_self.
  assert (d ++ ["initrd"] ≠ d) as Hed by apply snoc_ne_self.
  split; [|split; [|split; [|split]]].
  - apply dirs_to_delete_entry, dirs_to_insert_entry. by eapply dirs_to_insert_self.
  - rewrite lookup_delete_ne, lookup_insert_ne by done. apply lookup_insert_eq.
  - apply lookup_delete_eq.
  - rewrite lookup_delete_ne by done. apply lookup_insert_eq.
  - intros k H1 H2 H3. by rewrite lookup_delete_ne, !lookup_insert_ne.
Qed.

(** ** Temporary directories *)

Lemma walk_snoc fs fuel done todo d c :
  walk fuel fs done todo = Found d →
  (∃ m, fs !! d = Some (Dir m)) →
  (∀ t, fs !! (d ++ [c]) ≠ Some (Symlink t)) →
  walk fuel fs done (todo ++ [c]) =
    match fs !! (d ++ [c]) with
    | Some _ => Found (d ++ [c])
    | None => Absent (d ++ [c]) []
    end.
Proof.
  intros H [m Hd] Hc. revert fuel done todo H.
  apply (walk_steps_ind fs (λ fuel done todo,
    walk fuel fs done todo = Found d →
    walk fuel fs done (todo ++ [c]) =
      match fs !! (d ++ [c]) with
      | Some _ => Found (d ++ [c])
      | None => Absent (d ++ [c]) []
      end)).
  - intros fuel done. rewrite walk_nil. intros [= ->]. cbn [app].
    rewrite walk_cons.
    destruct (fs !! (d ++ [c])) as [[m' x|m'|t]|] eqn:E; try done.
    + apply walk_nil.
    + by destruct (Hc t).
  - intros fuel done c0 rest IHdir IHlink. rewrite <- app_comm_cons, !walk_cons.
    destruct (fs !! (done ++ [c0])) as [[m' x|m'|t]|] eqn:E; try done.
    + destruct rest; [|done]. intros [= <-]. congruence.
    + eauto.
    + destruct fuel; [done|]. rewrite app_assoc. eauto.
Qed.





Lemma mkdir_Ok_inv p mode fs r fs' :
  mkdir p mode fs = (Ok r, fs') →
  ∃ d m, stat fs (removelast p) = Some (d, Dir m) ∧
         fs !! (d ++ [List.last p ""]) = None ∧
         fs' = <[d ++ [List.last p ""] := Dir mode]> fs.
Proof.
  unfold mkdir, stat. destruct p as [|a l]; [done|].
  destruct (walk MAXSYMLINKS fs [] (removelast (a :: l))) as [d| | |]; try done.
  destruct (fs !! d) as [[m x|m|t]|]; try done.
  destruct (fs !! (d ++ [List.last (a :: l) ""])) eqn:K; [done|].
  intros [= _ <-]. by exists d, m.
Qed.

Lemma mkdtemp_from_Ok dir names fs t fs' :
  mkdtemp_from dir names fs = (Ok t, fs') →
  ∃ nm d m, nm ∈ names ∧ t = dir ++ [nm] ∧
            stat fs dir = Some (d, Dir m) ∧
            fs !! (d ++ [nm]) = None ∧
            fs' = <[d ++ [nm] := Dir 448]> fs.
Proof.
  induction names as [|nm rest IH]; [done|]. cbn [mkdtemp_from].
  destruct (mkdir (dir ++ [nm]) 448 fs) as [[r|e] fs1] eqn:E.
  - intros [= <- <-]. apply mkdir_Ok_inv in E as (d & m & Hd & Hk & ->).
    rewrite removelast_snoc in Hd. rewrite last_snoc' in Hk |- *.
    exists nm, d, m. split; [left|done].
  - intros H.
    assert (mkdtemp_from dir rest fs = (Ok t, fs')) as H'
      by (destruct e; try done).
    destruct (IH H') as (nm' & d & m & Hin & R).
    exists nm', d, m. split; [by right | done].
Qed.

Lemma stat_new_directory fs dir d m nm :
  stat fs dir = Some (d, Dir m) →
  fs !! (d ++ [nm]) = None →
  stat fs (dir ++ [nm]) = None ∧
  stat (<[d ++ [nm] := Dir 448]> fs) (dir ++ [nm]) = Some (d ++ [nm], Dir 448).
Proof.
  intros Hd Hk. pose proof (stat_lookup _ _ _ _ Hd) as Hm.
  assert (walk MAXSYMLINKS fs [] dir = Found d) as W.
  { unfold stat in Hd. destruct (walk MAXSYMLINKS fs [] dir) as [q| | |]; try done.
    destruct (fs !! q); [|done]. cbn in Hd. by injection Hd as -> _. }
  split.
  - unfold stat. rewrite (walk_snoc _ _ _ _ _ _ W) by (eauto || congruence).
    by rewrite Hk.
  - unfold stat.
    assert (walk MAXSYMLINKS (<[d ++ [nm] := Dir 448]> fs) [] dir = Found d) as W'.
    { apply (walk_extends fs); [|done]. by apply extends_insert_fresh. }
    rewrite (walk_snoc _ _ _ _ _ _ W').
    + rewrite lookup_insert_eq. cbn beta iota. by rewrite lookup_insert_eq.
    + exists m. rewrite lookup_insert_ne; [done|]. apply snoc_ne_self.
    + intros t. by rewrite lookup_insert_eq.
Qed.

(** ** [inject_files_into_iso] *)

Lemma gets_run {A} (f : FS → A) fs : gets f fs = (Ok (f fs), fs).
Proof. reflexivity. Qed.

Lemma TemporaryDirectory_Ok E n fs t fs' :
  TemporaryDirectory E n fs = (Ok t, fs') →
  ∃ nm, nm ∈ candidate_names E n ∧ t = gettempdir E ++ [nm] ∧
        fs ⊆ fs' ∧ path_exists fs t = false ∧ is_dir fs' t = true.
Proof.
  intros H. apply mkdtemp_from_Ok in H as (nm & d & m & Hin & -> & Hd & Hk & ->).
  destruct (stat_new_directory _ _ _ _ _ Hd Hk) as [Hnone Hnew].
  exists nm. repeat split; [done | by apply insert_subseteq | |].
  - unfold path_exists. by rewrite Hnone.
  - unfold is_dir. by rewrite Hnew.
Qed.



(** ** The manifest loop, stopped *)




(** * The claims *)

(** ** MBR extraction *)

(** C1, as amended: for a source image that is an existing file of at
    least 432 bytes with extension [.iso] or [.img], and an output path
    that leads to no node and whose directory exists, [extract_mbr_from_iso]
    (in both modules) succeeds, creates the output file and leaves in it
    exactly the first 432 bytes of the image. *)
Theorem extract_mbr_writes_first_432_bytes (fs : FS) (out src : path) (image : list byte) :
  read_file fs src = Some image →
  (MBR_SIZE ≤ length image)%nat →
  has_image_suffix src = true →
  can_create fs out = true →
  ∃ fs',
    Modiso.extract_mbr_from_iso out src fs = (Ok tt, fs') ∧
    Injection.extract_mbr_from_iso out src fs = (Ok tt, fs') ∧
    path_exists fs out = false ∧
    read_file fs' out = Some (take MBR_SIZE image) ∧
    length (take MBR_SIZE image) = MBR_SIZE ∧
    read_file fs' src = Some image.
Proof.
  intros Hsrc Hlen Hsuf Hout.
  pose proof (can_create_not_exists _ _ Hout) as Hnex.
  unfold can_create in Hout.
  destruct (walk MAXSYMLINKS fs [] out) as [|q [|]| |] eqn:W; try discriminate.
  unfold read_file in Hsrc.
  destruct (stat fs src) as [[qs [m d|m|t]]|] eqn:S; try discriminate.
  injection Hsrc as ->.
  pose proof (walk_Absent_creatable _ _ _ _ _ _ (dirs_to_nil fs) W) as Hcr.
  assert (fs !! q = None) as Hq by (by destruct Hcr as (? & ? & _ & _ & ?)).
  exists (<[q := File default_mode (take MBR_SIZE image)]> fs).
  split; [|split; [|split; [|split; [|split]]]].
  - by apply extract_mbr_checked_ok with qs m.
  - unfold Injection.extract_mbr_from_iso, mbind, M_bind, resolve.
    rewrite W, app_nil_r.
    apply extract_mbr_checked_ok with qs m; [|done|done].
    by apply walk_creatable.
  - done.
  - unfold read_file, stat.
    rewrite (walk_insert_absent fs _ _ _ q) by done.
    by rewrite lookup_insert_eq.
  - apply length_take_le. lia.
  - apply read_file_weaken with fs; [by apply insert_subseteq|].
    unfold read_file. by rewrite S.
Qed.

Lemma extract_mbr_writes_first_432_bytes_witness :
  read_file fs_image ["srv"; "debian.iso"] = Some image_500 ∧
  (MBR_SIZE ≤ length image_500)%nat ∧
  has_image_suffix ["srv"; "debian.iso"] = true ∧
  can_create fs_image ["tmp"; "mbr.bin"] = true ∧
  ∃ fs',
    Modiso.extract_mbr_from_iso ["tmp"; "mbr.bin"] ["srv"; "debian.iso"] fs_image = (Ok tt, fs') ∧
    Injection.extract_mbr_from_iso ["tmp"; "mbr.bin"] ["srv"; "debian.iso"] fs_image = (Ok tt, fs') ∧
    path_exists fs_image ["tmp"; "mbr.bin"] = false ∧
    read_file fs' ["tmp"; "mbr.bin"] = Some (take MBR_SIZE image_500) ∧
    length (take MBR_SIZE image_500) = MBR_SIZE ∧
    read_file fs' ["srv"; "debian.iso"] = Some image_500.
Proof.
  assert (read_file fs_image ["srv"; "debian.iso"] = Some image_500) as H1
    by (vm_compute; reflexivity).
  assert ((MBR_SIZE ≤ length image_500)%nat) as H2 by (vm_compute; lia).
  assert (has_image_suffix ["srv"; "debian.iso"] = true) as H3
    by (vm_compute; reflexivity).
  assert (can_create fs_image ["tmp"; "mbr.bin"] = true) as H4
    by (vm_compute; reflexivity).
  split; [exact H1|]. split; [exact H2|]. split; [exact H3|]. split; [exact H4|].
  exact (extract_mbr_writes_first_432_bytes fs_image ["tmp"; "mbr.bin"]
           ["srv"; "debian.iso"] image_500 H1 H2 H3 H4).
Defined.

(** C1 as stated fails: the image is valid and the output path does not
    exist, but the directory of the output path is missing, so [open]
    raises [FileNotFoundError] and no file is created. *)
Lemma extract_mbr_missing_output_directory :
  read_file fs_image ["srv"; "debian.iso"] = Some image_500 ∧
  (MBR_SIZE ≤ length image_500)%nat ∧
  has_image_suffix ["srv"; "debian.iso"] = true ∧
  path_exists fs_image ["srv"; "out"; "mbr.bin"] = false ∧
  Modiso.extract_mbr_from_iso ["srv"; "out"; "mbr.bin"] ["srv"; "debian.iso"] fs_image
    = (Raise (FileNotFoundError ["srv"; "out"; "mbr.bin"]), fs_image) ∧
  Injection.extract_mbr_from_iso ["srv"; "out"; "mbr.bin"] ["srv"; "debian.iso"] fs_image
    = (Raise (FileNotFoundError ["srv"; "out"; "mbr.bin"]), fs_image).
Proof.
  split; [by_evaluation|]. split; [vm_compute; lia|]. by_evaluation.
Qed.

(** C8: when the output path exists, [extract_mbr_from_iso] (in both
    modules) raises [FileExistsError] and changes nothing, so the file at
    the output path has the contents it had. *)
Theorem extract_mbr_keeps_existing_output (fs : FS) (out src : path) :
  path_exists fs out = true →
  ∀ r fs',
    Modiso.extract_mbr_from_iso out src fs = (r, fs') ∨
    Injection.extract_mbr_from_iso out src fs = (r, fs') →
    (∃ e, r = Raise e ∧ classify e = AlreadyExists) ∧
    fs' = fs ∧
    read_file fs' out = read_file fs out.
Proof.
  intros Hex r fs' [H|H].
  - unfold Modiso.extract_mbr_from_iso in H.
    rewrite extract_mbr_checked_exists in H by done.
    injection H as <- <-. eauto.
  - unfold Injection.extract_mbr_from_iso, mbind, M_bind, resolve in H.
    unfold path_exists in Hex.
    destruct (stat fs out) as [[q n]|] eqn:S; [|discriminate].
    pose proof (stat_canonical _ _ _ _ S) as Sq.
    unfold stat in S.
    destruct (walk MAXSYMLINKS fs [] out) as [q0| | |]; try discriminate.
    destruct (fs !! q0); [|discriminate]. injection S as -> ->.
    rewrite extract_mbr_checked_exists in H
      by (unfold path_exists; by rewrite Sq).
    injection H as <- <-. eauto.
Qed.

Lemma extract_mbr_keeps_existing_output_witness :
  path_exists fs_image ["tmp"; "old.bin"] = true ∧
  ∀ r fs',
    Modiso.extract_mbr_from_iso ["tmp"; "old.bin"] ["srv"; "debian.iso"] fs_image = (r, fs') ∨
    Injection.extract_mbr_from_iso ["tmp"; "old.bin"] ["srv"; "debian.iso"] fs_image = (r, fs') →
    (∃ e, r = Raise e ∧ classify e = AlreadyExists) ∧
    fs' = fs_image ∧
    read_file fs' ["tmp"; "old.bin"] = read_file fs_image ["tmp"; "old.bin"].
Proof.
  assert (path_exists fs_image ["tmp"; "old.bin"] = true) as H
    by (vm_compute; reflexivity).
  split; [exact H|].
  exact (extract_mbr_keeps_existing_output fs_image ["tmp"; "old.bin"]
           ["srv"; "debian.iso"] H).
Defined.

(** ** Repacking *)

(** C4, as amended: when the path checks of [repack_iso] pass (the output
    path does not exist, the MBR file is a file, the tree root is a
    directory), every filesystem name with a character that is neither a
    word character ([\w]: a Unicode letter or number, or [_]) nor a space,
    [.] or [-] makes [repack_iso] (in both modules) raise the
    [RuntimeError] naming the first such character, an [InvalidArgument],
    in an unchanged state: no output file is created.  That character is
    outside [[A-Za-z0-9 ._-]]. *)
Theorem repack_rejects_first_invalid_char (E : Env) (fs : FS)
    (out mbr root : path) (fsname : list N) :
  path_exists fs out = false →
  loop_free fs out = true →
  is_file fs mbr = true →
  is_dir fs root = true →
  Exists (λ c, invalid_char E c = true) fsname →
  ∃ pre c post,
    fsname = pre ++ c :: post ∧
    Forall (λ x, invalid_char E x = false) pre ∧
    invalid_char E c = true ∧
    ascii_name_char c = false ∧
    Modiso.repack_iso E out mbr root fsname fs
      = (Raise (RuntimeError (InvalidCharacter c)), fs) ∧
    Injection.repack_iso E out mbr root fsname fs
      = (Raise (RuntimeError (InvalidCharacter c)), fs) ∧
    classify (RuntimeError (InvalidCharacter c)) = InvalidArgument ∧
    path_exists fs out = false.
Proof.
  intros Hout Hloop Hmbr Hroot Hex.
  destruct (find_first_split _ _ Hex) as (pre & c & post & -> & Hpre & Hc & Hfind).
  exists pre, c, post.
  split; [done|]. split; [done|]. split; [done|].
  split; [by eapply invalid_char_outside_ascii_class|].
  split; [|split; [|done]].
  - unfold Modiso.repack_iso, mbind, M_bind, gets, raise, id, search_invalid_char.
    by rewrite Hout, Hmbr, Hroot, Hfind.
  - unfold Injection.repack_iso, mbind, M_bind, gets, raise, id, search_invalid_char.
    destruct (resolve_loop_free _ _ Hloop) as [out' Ho]. rewrite Ho.
    apply path_exists_resolve in Ho as [_ Ho].
    destruct (resolve_loop_free fs mbr) as [mbr' Hm].
    { unfold is_file in Hmbr. destruct (stat fs mbr) eqn:S; [|done].
      by eapply stat_loop_free. }
    rewrite Hm. apply is_file_resolve in Hm as [_ Hm].
    destruct (resolve_loop_free fs root) as [root' Hr].
    { unfold is_dir in Hroot. destruct (stat fs root) eqn:S; [|done].
      by eapply stat_loop_free. }
    rewrite Hr. apply is_dir_resolve in Hr as [_ Hr].
    by rewrite Ho, Hout, Hm, Hmbr, Hr, Hroot, Hfind.
Qed.

Lemma repack_rejects_first_invalid_char_witness :
  path_exists fs_image ["srv"; "new.iso"] = false ∧
  loop_free fs_image ["srv"; "new.iso"] = true ∧
  is_file fs_image ["tmp"; "old.bin"] = true ∧
  is_dir fs_image ["srv"] = true ∧
  Exists (λ c, invalid_char (demo_env 0) c = true) [68; 47; 233; 58]%N ∧
  ∃ pre c post,
    [68; 47; 233; 58]%N = pre ++ c :: post ∧
    Forall (λ x, invalid_char (demo_env 0) x = false) pre ∧
    invalid_char (demo_env 0) c = true ∧
    ascii_name_char c = false ∧
    Modiso.repack_iso (demo_env 0) ["srv"; "new.iso"] ["tmp"; "old.bin"] ["srv"]
        [68; 47; 233; 58]%N fs_image
      = (Raise (RuntimeError (InvalidCharacter c)), fs_image) ∧
    Injection.repack_iso (demo_env 0) ["srv"; "new.iso"] ["tmp"; "old.bin"] ["srv"]
        [68; 47; 233; 58]%N fs_image
      = (Raise (RuntimeError (InvalidCharacter c)), fs_image) ∧
    classify (RuntimeError (InvalidCharacter c)) = InvalidArgument ∧
    path_exists fs_image ["srv"; "new.iso"] = false.
Proof.
  assert (path_exists fs_image ["srv"; "new.iso"] = false) as H1
    by (vm_compute; reflexivity).
  assert (loop_free fs_image ["srv"; "new.iso"] = true) as H2
    by (vm_compute; reflexivity).
  assert (is_file fs_image ["tmp"; "old.bin"] = true) as H3
    by (vm_compute; reflexivity).
  assert (is_dir fs_image ["srv"] = true) as H4 by (vm_compute; reflexivity).
  assert (Exists (λ c, invalid_char (demo_env 0) c = true) [68; 47; 233; 58]%N) as H5
    by (apply Exists_cons_tl, Exists_cons_hd; vm_compute; reflexivity).
  split; [exact H1|]. split; [exact H2|]. split; [exact H3|]. split; [exact H4|].
  split; [exact H5|].
  exact (repack_rejects_first_invalid_char (demo_env 0) fs_image
           ["srv"; "new.iso"] ["tmp"; "old.bin"] ["srv"] [68; 47; 233; 58]%N
           H1 H2 H3 H4 H5).
Defined.

(** C4 as stated fails twice.  The name "Dé" has a character outside
    [[A-Za-z0-9 ._-]], but U+00E9 is a word character: nothing is rejected,
    the mastering program is run and the output image is created.  And
    with the name "a/b", whose [/] is rejected when the path checks pass,
    an existing output path makes the call fail with [FileExistsError]
    before the name is looked at. *)
Lemma repack_accepts_unicode_letters_and_checks_paths_first :
  (Exists (λ c, ascii_name_char c = false) [68; 233]%N ∧
   path_exists fs_image ["srv"; "new.iso"] = false ∧
   (Modiso.repack_iso (demo_env 0) ["srv"; "new.iso"] ["tmp"; "old.bin"] ["srv"]
      [68; 233]%N fs_image).1 = Ok tt ∧
   is_file
     (Modiso.repack_iso (demo_env 0) ["srv"; "new.iso"] ["tmp"; "old.bin"] ["srv"]
        [68; 233]%N fs_image).2 ["srv"; "new.iso"] = true ∧
   (Injection.repack_iso (demo_env 0) ["srv"; "new.iso"] ["tmp"; "old.bin"] ["srv"]
      [68; 233]%N fs_image).1 = Ok tt ∧
   is_file
     (Injection.repack_iso (demo_env 0) ["srv"; "new.iso"] ["tmp"; "old.bin"] ["srv"]
        [68; 233]%N fs_image).2 ["srv"; "new.iso"] = true) ∧
  (Exists (λ c, ascii_name_char c = false) [97; 47; 98]%N ∧
   Modiso.repack_iso (demo_env 0) ["srv"; "debian.iso"] ["tmp"; "old.bin"] ["srv"]
     [97; 47; 98]%N fs_image
     = (Raise (FileExistsError ["srv"; "debian.iso"]), fs_image) ∧
   Injection.repack_iso (demo_env 0) ["srv"; "debian.iso"] ["tmp"; "old.bin"] ["srv"]
     [97; 47; 98]%N fs_image
     = (Raise (FileExistsError ["srv"; "debian.iso"]), fs_image)).
Proof.
  split.
  - split; [apply Exists_cons_tl, Exists_cons_hd; reflexivity|]. by_evaluation.
  - split; [apply Exists_cons_tl, Exists_cons_hd; reflexivity|]. by_evaluation.
Qed.

(** ** Initrd patching *)

(** C6, as amended: when the archive path leads to an existing regular
    file whose filename is not [initrd.gz] (in [injection.py] the filename
    of the resolved path, in [modiso.py] that of the path as given),
    [append_file_contents_to_initrd_archive] raises the [AssertionError],
    an [InvalidFormat], in an unchanged state: no permission is changed,
    nothing is decompressed or deleted. *)
Theorem append_rejects_wrong_name_before_io (E : Env) (fs : FS)
    (archive q input base_dir : path) (n : node) (rel : string) :
  is_file fs archive = true →
  stat fs archive = Some (q, n) →
  (name archive ≠ "initrd.gz" →
   Modiso.append_file_contents_to_initrd_archive E archive input fs
     = (Raise (AssertionError (name archive)), fs)) ∧
  (name q ≠ "initrd.gz" →
   Injection.append_file_contents_to_initrd_archive E archive base_dir rel fs
     = (Raise (AssertionError (name q)), fs)) ∧
  classify (AssertionError (name q)) = InvalidFormat.
Proof.
  intros Hfile Hstat. split; [|split; [|done]].
  - intros Hname.
    unfold Modiso.append_file_contents_to_initrd_archive, mbind, M_bind, gets, raise, id.
    rewrite Hfile. simpl.
    by apply String.eqb_neq in Hname as ->.
  - intros Hname.
    unfold Injection.append_file_contents_to_initrd_archive, mbind, M_bind, gets, raise, id.
    rewrite (resolve_of_stat _ _ _ _ Hstat).
    unfold is_file. rewrite (stat_canonical _ _ _ _ Hstat).
    unfold is_file in Hfile. rewrite Hstat in Hfile.
    destruct n; try discriminate. simpl.
    by apply String.eqb_neq in Hname as ->.
Qed.

Lemma append_rejects_wrong_name_before_io_witness :
  is_file fs_initrd ["iso"; "vmlinuz"] = true ∧
  stat fs_initrd ["iso"; "vmlinuz"]
    = Some (["iso"; "vmlinuz"], File 292%N (bytes_of "kernel")) ∧
  name ["iso"; "vmlinuz"] ≠ "initrd.gz" ∧
  Modiso.append_file_contents_to_initrd_archive (demo_env 0)
      ["iso"; "vmlinuz"] ["stage"; "logo.png"] fs_initrd
    = (Raise (AssertionError "vmlinuz"), fs_initrd) ∧
  Injection.append_file_contents_to_initrd_archive (demo_env 0)
      ["iso"; "vmlinuz"] ["stage"] "logo.png" fs_initrd
    = (Raise (AssertionError "vmlinuz"), fs_initrd).
Proof.
  assert (is_file fs_initrd ["iso"; "vmlinuz"] = true) as H1
    by (vm_compute; reflexivity).
  assert (stat fs_initrd ["iso"; "vmlinuz"]
          = Some (["iso"; "vmlinuz"], File 292%N (bytes_of "kernel"))) as H2
    by (vm_compute; reflexivity).
  assert (name ["iso"; "vmlinuz"] ≠ "initrd.gz") as H3 by discriminate.
  split; [exact H1|]. split; [exact H2|]. split; [exact H3|].
  destruct (append_rejects_wrong_name_before_io (demo_env 0) fs_initrd
              ["iso"; "vmlinuz"] ["iso"; "vmlinuz"] ["stage"; "logo.png"]
              ["stage"] (File 292%N (bytes_of "kernel")) "logo.png" H1 H2)
    as (Hm & Hi & _).
  split; [exact (Hm H3) | exact (Hi H3)].
Defined.

(** C6 as stated fails.  For a path with another filename that leads to
    no file, the first check raises [FileNotFoundError], not the
    [InvalidFormat] error; and [injection.py] looks at the filename of the
    resolved path, so a link [ramdisk] to an [initrd.gz] passes the check
    and the archive is rewritten. *)
Lemma append_checks_existence_first_and_resolves_links :
  name ["iso"; "nothing.gz"] ≠ "initrd.gz" ∧
  Modiso.append_file_contents_to_initrd_archive (demo_env 0)
      ["iso"; "nothing.gz"] ["stage"; "logo.png"] fs_initrd
    = (Raise (FileNotFoundError ["iso"; "nothing.gz"]), fs_initrd) ∧
  Injection.append_file_contents_to_initrd_archive (demo_env 0)
      ["iso"; "nothing.gz"] ["stage"] "logo.png" fs_initrd
    = (Raise (FileNotFoundError ["iso"; "nothing.gz"]), fs_initrd) ∧
  name ["iso"; "ramdisk"] ≠ "initrd.gz" ∧
  (Injection.append_file_contents_to_initrd_archive (demo_env 0)
     ["iso"; "ramdisk"] ["stage"] "logo.png" fs_initrd).1 = Ok tt ∧
  read_file
    (Injection.append_file_contents_to_initrd_archive (demo_env 0)
       ["iso"; "ramdisk"] ["stage"] "logo.png" fs_initrd).2 ["iso"; "initrd.gz"]
    = Some (demo_gzip (bytes_of "cpio:logo.png")) ∧
  read_file fs_initrd ["iso"; "initrd.gz"] = Some (demo_gzip (bytes_of "cpio:")).
Proof.
  split; [discriminate|]. split; [by_evaluation|]. split; [by_evaluation|].
  split; [discriminate|]. by_evaluation.
Qed.

(** C3, the code at a failing input: [cpio] exits with status 2 and
    appends nothing, and [append_file_contents_to_initrd_archive] of
    [injection.py] returns normally, the archive recompressed as it was.
    No [ProcessFailure] is raised: [Popen.communicate] raises nothing for
    a non-zero return code, and the return code is not looked at. *)
Theorem append_ignores_cpio_exit_status :
  (run_process (demo_env 2) (cpio_append_argv ["iso"; "initrd"]) (Some ["stage"])
     (bytes_of "logo.png") fs_initrd).1 = Ok 2%Z ∧
  (Injection.append_file_contents_to_initrd_archive (demo_env 2)
     ["iso"; "initrd.gz"] ["stage"] "logo.png" fs_initrd).1 = Ok tt ∧
  read_file
    (Injection.append_file_contents_to_initrd_archive (demo_env 2)
       ["iso"; "initrd.gz"] ["stage"] "logo.png" fs_initrd).2 ["iso"; "initrd.gz"]
    = read_file fs_initrd ["iso"; "initrd.gz"].
Proof. by_evaluation. Qed.

(** * Further properties of the code *)

(** ** [extract_mbr_from_iso]: the other exits *)

(** X1: with an output path that does not exist, a source that is no file
    is answered by [FileNotFoundError] and a source file without the
    extension [.iso] or [.img] by the [RuntimeError] for a wrong image, in
    both modules and in an unchanged state. *)
Theorem extract_mbr_rejects_bad_source (fs : FS) (out src : path) :
  path_exists fs out = false →
  loop_free fs out = true →
  (is_file fs src = false →
   Modiso.extract_mbr_from_iso out src fs = (Raise (FileNotFoundError src), fs) ∧
   Injection.extract_mbr_from_iso out src fs = (Raise (FileNotFoundError src), fs)) ∧
  (is_file fs src = true → has_image_suffix src = false →
   Modiso.extract_mbr_from_iso out src fs = (Raise (RuntimeError (NotAnImage src)), fs) ∧
   Injection.extract_mbr_from_iso out src fs = (Raise (RuntimeError (NotAnImage src)), fs) ∧
   classify (RuntimeError (NotAnImage src)) = InvalidFormat).
Proof.
  intros Hout Hloop.
  destruct (resolve_loop_free _ _ Hloop) as [out' Hres].
  pose proof (path_exists_resolve _ _ _ _ Hres) as [_ Hout'].
  rewrite Hout in Hout'.
  split.
  - intros Hsrc. split.
    + unfold Modiso.extract_mbr_from_iso, extract_mbr_checked, mbind, M_bind,
        gets, raise, id. by rewrite Hout, Hsrc.
    + unfold Injection.extract_mbr_from_iso. rewrite bind_run, Hres.
      unfold extract_mbr_checked, mbind, M_bind, gets, raise, id.
      by rewrite Hout', Hsrc.
  - intros Hsrc Hsuf. split; [|split; [|done]].
    + unfold Modiso.extract_mbr_from_iso, extract_mbr_checked, mbind, M_bind,
        gets, raise, id. by rewrite Hout, Hsrc, Hsuf.
    + unfold Injection.extract_mbr_from_iso. rewrite bind_run, Hres.
      unfold extract_mbr_checked, mbind, M_bind, gets, raise, id.
      by rewrite Hout', Hsrc, Hsuf.
Qed.

Lemma extract_mbr_rejects_bad_source_witness :
  path_exists fs_image ["tmp"; "mbr.bin"] = false ∧
  loop_free fs_image ["tmp"; "mbr.bin"] = true ∧
  is_file fs_image ["srv"; "absent.iso"] = false ∧
  Modiso.extract_mbr_from_iso ["tmp"; "mbr.bin"] ["srv"; "absent.iso"] fs_image
    = (Raise (FileNotFoundError ["srv"; "absent.iso"]), fs_image) ∧
  is_file fs_image ["tmp"; "old.bin"] = true ∧
  has_image_suffix ["tmp"; "old.bin"] = false ∧
  Injection.extract_mbr_from_iso ["tmp"; "mbr.bin"] ["tmp"; "old.bin"] fs_image
    = (Raise (RuntimeError (NotAnImage ["tmp"; "old.bin"])), fs_image).
Proof.
  assert (path_exists fs_image ["tmp"; "mbr.bin"] = false) as H1
    by (vm_compute; reflexivity).
  assert (loop_free fs_image ["tmp"; "mbr.bin"] = true) as H2
    by (vm_compute; reflexivity).
  assert (is_file fs_image ["srv"; "absent.iso"] = false) as H3
    by (vm_compute; reflexivity).
  assert (is_file fs_image ["tmp"; "old.bin"] = true) as H4
    by (vm_compute; reflexivity).
  assert (has_image_suffix ["tmp"; "old.bin"] = false) as H5
    by (vm_compute; reflexivity).
  split; [exact H1|]. split; [exact H2|]. split; [exact H3|].
  split.
  { exact (proj1 (proj1 (extract_mbr_rejects_bad_source fs_image
             ["tmp"; "mbr.bin"] ["srv"; "absent.iso"] H1 H2) H3)). }
  split; [exact H4|]. split; [exact H5|].
  exact (proj1 (proj2 (proj2 (extract_mbr_rejects_bad_source fs_image
           ["tmp"; "mbr.bin"] ["tmp"; "old.bin"] H1 H2) H4 H5))).
Defined.

(** X2: an image shorter than 432 bytes is not refused: [read(432)]
    returns what there is and the output file is a copy of the whole
    image. *)
Theorem extract_mbr_copies_short_image (fs : FS) (out src : path) (image : list byte) :
  read_file fs src = Some image →
  (length image < MBR_SIZE)%nat →
  has_image_suffix src = true →
  can_create fs out = true →
  ∃ fs',
    Modiso.extract_mbr_from_iso out src fs = (Ok tt, fs') ∧
    Injection.extract_mbr_from_iso out src fs = (Ok tt, fs') ∧
    read_file fs' out = Some image.
Proof.
  intros Hsrc Hlen Hsuf Hout. unfold can_create in Hout.
  destruct (walk MAXSYMLINKS fs [] out) as [|q [|]| |] eqn:W; try discriminate.
  unfold read_file in Hsrc.
  destruct (stat fs src) as [[qs [m d|m|t]]|] eqn:S; try discriminate.
  injection Hsrc as ->.
  pose proof (walk_Absent_creatable _ _ _ _ _ _ (dirs_to_nil fs) W) as Hcr.
  assert (fs !! q = None) as Hq by (by destruct Hcr as (? & ? & _ & _ & ?)).
  exists (<[q := File default_mode (take MBR_SIZE image)]> fs).
  split; [|split].
  - by apply extract_mbr_checked_ok with qs m.
  - unfold Injection.extract_mbr_from_iso. rewrite bind_run.
    unfold resolve. rewrite W, app_nil_r.
    apply extract_mbr_checked_ok with qs m; [|done|done].
    by apply walk_creatable.
  - unfold read_file, stat.
    rewrite (walk_insert_absent fs _ _ _ q) by done.
    rewrite lookup_insert_eq. simpl. by rewrite take_ge by lia.
Qed.

Lemma extract_mbr_copies_short_image_witness :
  read_file fs_image ["tmp"; "old.bin"] = Some (bytes_of "previous") ∧
  ∃ fs',
    Modiso.extract_mbr_from_iso ["tmp"; "mbr.bin"] ["srv"; "debian.iso"]
      (<[ ["srv"; "debian.iso"] := File 420%N (bytes_of "previous") ]> fs_image)
      = (Ok tt, fs') ∧
    Injection.extract_mbr_from_iso ["tmp"; "mbr.bin"] ["srv"; "debian.iso"]
      (<[ ["srv"; "debian.iso"] := File 420%N (bytes_of "previous") ]> fs_image)
      = (Ok tt, fs') ∧
    read_file fs' ["tmp"; "mbr.bin"] = Some (bytes_of "previous").
Proof.
  split; [vm_compute; reflexivity|].
  apply (extract_mbr_copies_short_image
           (<[ ["srv"; "debian.iso"] := File 420%N (bytes_of "previous") ]> fs_image)
           ["tmp"; "mbr.bin"] ["srv"; "debian.iso"] (bytes_of "previous")).
  - vm_compute; reflexivity.
  - vm_compute; lia.
  - vm_compute; reflexivity.
  - vm_compute; reflexivity.
Defined.

(** X3: whatever its outcome, [extract_mbr_from_iso] changes no entry of
    the name space that was there: every file reads as before, the source
    image among them. *)
Theorem extract_mbr_changes_nothing_present (fs fs' : FS) (out src : path)
    (r : outcome unit) :
  Modiso.extract_mbr_from_iso out src fs = (r, fs') ∨
  Injection.extract_mbr_from_iso out src fs = (r, fs') →
  fs ⊆ fs' ∧
  (∀ p d, read_file fs p = Some d → read_file fs' p = Some d) ∧
  (is_file fs src = true → read_file fs' src = read_file fs src).
Proof.
  intros H.
  assert (fs ⊆ fs') as Hsub.
  { destruct H as [H|H].
    - by eapply extract_mbr_checked_grows.
    - unfold Injection.extract_mbr_from_iso in H. rewrite bind_run in H.
      destruct (resolve out fs) as [[out'|e] fs1] eqn:Hres;
        apply resolve_state in Hres as ->.
      + by eapply extract_mbr_checked_grows.
      + by injection H as _ <-. }
  split; [done|]. split.
  - intros p d. by apply read_file_weaken.
  - intros Hsrc. unfold is_file in Hsrc. unfold read_file at 2.
    destruct (stat fs src) as [[q [m d|m|t]]|] eqn:S; try discriminate.
    apply read_file_weaken with fs; [done|]. unfold read_file. by rewrite S.
Qed.

Lemma extract_mbr_changes_nothing_present_witness :
  fs_image ⊆ (Modiso.extract_mbr_from_iso ["tmp"; "mbr.bin"] ["srv"; "debian.iso"] fs_image).2 ∧
  (∀ p d, read_file fs_image p = Some d →
          read_file (Modiso.extract_mbr_from_iso ["tmp"; "mbr.bin"]
                       ["srv"; "debian.iso"] fs_image).2 p = Some d) ∧
  (is_file fs_image ["srv"; "debian.iso"] = true →
   read_file (Modiso.extract_mbr_from_iso ["tmp"; "mbr.bin"]
                ["srv"; "debian.iso"] fs_image).2 ["srv"; "debian.iso"]
   = read_file fs_image ["srv"; "debian.iso"]).
Proof.
  exact (extract_mbr_changes_nothing_present fs_image _ ["tmp"; "mbr.bin"]
           ["srv"; "debian.iso"] _ (or_introl (surjective_pairing _))).
Defined.

(** ** [extract_iso] and [repack_iso]: the external program *)

(** X4: when the output directory is a directory and the input a file,
    [extract_iso] runs [xorriso -osirrox on -indev <input> -extract /
    <output>] on the resolved paths; it returns normally when the program
    returns 0 and raises the [RuntimeError] for a failed extraction, a
    [ProcessFailure], otherwise.  The state is the one the program left:
    nothing is cleaned up after a failure. *)
Theorem extract_iso_follows_return_code (E : Env) (fs fs1 : FS)
    (out src out' src' : path) (m m' : N) (d : list byte) (rc : Z) :
  stat fs out = Some (out', Dir m) →
  stat fs src = Some (src', File m' d) →
  run_process E (osirrox_argv src' out') None [] fs = (Ok rc, fs1) →
  Modiso.extract_iso E out src fs
    = (if (rc =? 0)%Z then Ok tt else Raise (RuntimeError (ExtractFailed src)), fs1) ∧
  Injection.extract_iso E out src fs
    = (if (rc =? 0)%Z then Ok tt else Raise (RuntimeError (ExtractFailed src')), fs1) ∧
  classify (RuntimeError (ExtractFailed src)) = ProcessFailure.
Proof.
  intros Hout Hsrc Hrun. split; [|split; [|done]].
  - unfold Modiso.extract_iso. rewrite bind_run. unfold gets, id, is_dir, is_file.
    rewrite Hout, Hsrc. simpl.
    unfold try_except.
    step_with (resolve_of_stat _ _ _ _ Hsrc).
    step_with (resolve_of_stat _ _ _ _ Hout).
    unfold subprocess_run_check. rewrite bind_run, Hrun.
    by destruct (rc =? 0)%Z.
  - unfold Injection.extract_iso.
    step_with (resolve_of_stat _ _ _ _ Hout).
    step_with (resolve_of_stat _ _ _ _ Hsrc).
    rewrite bind_run. unfold gets, id, is_dir, is_file.
    rewrite (stat_canonical _ _ _ _ Hout), (stat_canonical _ _ _ _ Hsrc). simpl.
    by apply run_check_outcome.
Qed.

Lemma extract_iso_follows_return_code_witness :
  stat fs_image ["tmp"] = Some (["tmp"], Dir 511%N) ∧
  stat fs_image ["srv"; "debian.iso"] = Some (["srv"; "debian.iso"], File 420%N image_500) ∧
  (Injection.extract_iso (demo_env 0) ["tmp"] ["srv"; "debian.iso"] fs_image).1 = Ok tt ∧
  is_file (Injection.extract_iso (demo_env 0) ["tmp"] ["srv"; "debian.iso"] fs_image).2
    ["tmp"; "install.386"; "gtk"; "initrd.gz"] = true.
Proof.
  assert (stat fs_image ["tmp"] = Some (["tmp"], Dir 511%N)) as H1
    by (vm_compute; reflexivity).
  assert (stat fs_image ["srv"; "debian.iso"]
          = Some (["srv"; "debian.iso"], File 420%N image_500)) as H2
    by (vm_compute; reflexivity).
  split; [exact H1|]. split; [exact H2|].
  destruct (extract_iso_follows_return_code (demo_env 0) fs_image _
              ["tmp"] ["srv"; "debian.iso"] ["tmp"] ["srv"; "debian.iso"]
              511%N 420%N image_500 0%Z H1 H2 (surjective_pairing _))
    as (_ & Hi & _).
  rewrite Hi. split; [reflexivity|]. vm_compute; reflexivity.
Defined.

(** X5: a filesystem name made of characters of [[A-Za-z0-9 ._-]] only
    is never refused, whatever the Unicode database says; when the path
    checks pass, [repack_iso] then runs the mastering program on the
    resolved paths and returns normally when it returns 0, and raises the
    [RuntimeError] for a failed repacking, a [ProcessFailure], otherwise. *)
Theorem repack_iso_follows_return_code (E : Env) (fs fs1 : FS)
    (out mbr root out' mbr' root' : path) (fsname : list N)
    (m m' : N) (d : list byte) (rc : Z) :
  path_exists fs out = false →
  resolve out fs = (Ok out', fs) →
  stat fs mbr = Some (mbr', File m d) →
  stat fs root = Some (root', Dir m') →
  Forall (λ c, ascii_name_char c = true) fsname →
  run_process E (mkisofs_argv fsname out' mbr' root') None [] fs = (Ok rc, fs1) →
  Modiso.repack_iso E out mbr root fsname fs
    = (if (rc =? 0)%Z then Ok tt else Raise (RuntimeError (RepackFailed root)), fs1) ∧
  Injection.repack_iso E out mbr root fsname fs
    = (if (rc =? 0)%Z then Ok tt else Raise (RuntimeError (RepackFailed root')), fs1) ∧
  classify (RuntimeError (RepackFailed root)) = ProcessFailure.
Proof.
  intros Hout Hres Hmbr Hroot Hname Hrun.
  assert (search_invalid_char E fsname = None) as Hsearch.
  { apply search_invalid_char_None. eapply Forall_impl; [done|].
    intros c. apply ascii_name_char_valid. }
  pose proof (path_exists_resolve _ _ _ _ Hres) as [_ Hout'].
  split; [|split; [|done]].
  - unfold Modiso.repack_iso. rewrite bind_run. unfold gets, id, is_dir, is_file.
    rewrite Hout, Hmbr, Hroot, Hsearch. simpl.
    unfold try_except.
    step_with Hres.
    step_with (resolve_of_stat _ _ _ _ Hmbr).
    step_with (resolve_of_stat _ _ _ _ Hroot).
    unfold subprocess_run_check. rewrite bind_run, Hrun.
    by destruct (rc =? 0)%Z.
  - unfold Injection.repack_iso.
    step_with Hres.
    step_with (resolve_of_stat _ _ _ _ Hmbr).
    step_with (resolve_of_stat _ _ _ _ Hroot).
    rewrite bind_run. unfold gets, id, is_dir, is_file.
    rewrite Hout', Hout.
    rewrite (stat_canonical _ _ _ _ Hmbr), (stat_canonical _ _ _ _ Hroot).
    simpl. rewrite Hsearch. by apply run_check_outcome.
Qed.

Lemma repack_iso_follows_return_code_witness :
  path_exists fs_image ["srv"; "new.iso"] = false ∧
  Forall (λ c, ascii_name_char c = true) [68; 101; 98; 32; 49; 50; 46; 53]%N ∧
  (Injection.repack_iso (demo_env 0) ["srv"; "new.iso"] ["tmp"; "old.bin"] ["srv"]
     [68; 101; 98; 32; 49; 50; 46; 53]%N fs_image).1 = Ok tt ∧
  is_file
    (Injection.repack_iso (demo_env 0) ["srv"; "new.iso"] ["tmp"; "old.bin"] ["srv"]
       [68; 101; 98; 32; 49; 50; 46; 53]%N fs_image).2 ["srv"; "new.iso"] = true.
Proof.
  assert (path_exists fs_image ["srv"; "new.iso"] = false) as H1
    by (vm_compute; reflexivity).
  assert (resolve ["srv"; "new.iso"] fs_image = (Ok ["srv"; "new.iso"], fs_image)) as H2
    by (unfold resolve; reflexivity).
  assert (stat fs_image ["tmp"; "old.bin"]
          = Some (["tmp"; "old.bin"], File 420%N (bytes_of "previous"))) as H3
    by (vm_compute; reflexivity).
  assert (stat fs_image ["srv"] = Some (["srv"], Dir 493%N)) as H4
    by (vm_compute; reflexivity).
  assert (Forall (λ c, ascii_name_char c = true) [68; 101; 98; 32; 49; 50; 46; 53]%N) as H5
    by (repeat constructor).
  split; [exact H1|]. split; [exact H5|].
  destruct (repack_iso_follows_return_code (demo_env 0) fs_image _
              ["srv"; "new.iso"] ["tmp"; "old.bin"] ["srv"]
              ["srv"; "new.iso"] ["tmp"; "old.bin"] ["srv"]
              [68; 101; 98; 32; 49; 50; 46; 53]%N 420%N 493%N _ 0%Z
              H1 H2 H3 H4 H5 (surjective_pairing _))
    as (_ & Hi & _).
  rewrite Hi. split; [reflexivity|]. vm_compute; reflexivity.
Defined.

(** ** [_find_all_files_under] *)

(** X6: for a path that leads to a directory in whose tree no symbolic
    link leads to a regular file, [_find_all_files_under] returns, in an
    unchanged state, a list without repetition of exactly the regular
    files that are reached from the directory through real directories:
    links to directories are not entered and dangling links are passed
    over. *)
Theorem find_all_files_lists_regular_files (fs : FS) (parent_dir d : path) (m : N) :
  stat fs parent_dir = Some (d, Dir m) →
  no_file_links fs d →
  ∃ files,
    Modiso._find_all_files_under parent_dir fs = (Ok files, fs) ∧
    NoDup files ∧
    ∀ p, p ∈ files ↔ regular_under fs d p.
Proof.
  intros Hst Hlinks. destruct (stat_dir_inv _ _ _ _ Hst) as [Hd Hm].
  destruct (find_files_from_spec (S (max_depth fs)) fs d m Hd Hm) as (l & Hl & Hrest).
  - intros k Hk. apply max_depth_bound in Hk. lia.
  - done.
  - exists l. split; [|done].
    unfold Modiso._find_all_files_under, find_all_files.
    by rewrite (find_files_from_resolved _ _ _ _ _ Hst), Hl.
Qed.

Lemma find_all_files_lists_regular_files_witness :
  stat fs_tree ["iso"; "debian"] = Some (["iso"], Dir 365%N) ∧
  no_file_links fs_tree ["iso"] ∧
  ∃ files,
    Modiso._find_all_files_under ["iso"; "debian"] fs_tree = (Ok files, fs_tree) ∧
    NoDup files ∧
    ∀ p, p ∈ files ↔ regular_under fs_tree ["iso"] p.
Proof.
  assert (stat fs_tree ["iso"; "debian"] = Some (["iso"], Dir 365%N)) as H1
    by (vm_compute; reflexivity).
  split; [exact H1|]. split; [exact no_file_links_fs_tree|].
  exact (find_all_files_lists_regular_files fs_tree ["iso"; "debian"] ["iso"]
           365%N H1 no_file_links_fs_tree).
Defined.

(** X7: an entry of the directory that is a symbolic link to a regular
    file is not ignored: the file it leads to is listed, by its resolved
    path, also when that path is outside the tree. *)
Theorem find_all_files_lists_link_targets (fs : FS) (parent_dir d q t : path)
    (c : string) (m mq : N) (x : list byte) (files : list path) :
  stat fs parent_dir = Some (d, Dir m) →
  fs !! (d ++ [c]) = Some (Symlink t) →
  stat fs (d ++ [c]) = Some (q, File mq x) →
  Modiso._find_all_files_under parent_dir fs = (Ok files, fs) →
  q ∈ files.
Proof.
  intros Hst Hlink Htarget Hfiles. destruct (stat_dir_inv _ _ _ _ Hst) as [Hd Hm].
  unfold Modiso._find_all_files_under, find_all_files in Hfiles.
  rewrite (find_files_from_resolved _ _ _ _ _ Hst) in Hfiles.
  injection Hfiles as Hfiles.
  eapply find_files_from_lists_target; [done| |by eauto|done|done].
  unfold is_dir. by rewrite (stat_real_dir _ _ _ Hd Hm).
Qed.

Lemma find_all_files_lists_link_targets_witness :
  stat fs_tree_link ["iso"] = Some (["iso"], Dir 365%N) ∧
  fs_tree_link !! (["iso"] ++ ["ln"]) = Some (Symlink ["etc"; "passwd"]) ∧
  stat fs_tree_link (["iso"] ++ ["ln"])
    = Some (["etc"; "passwd"], File 420%N (bytes_of "root")) ∧
  (Modiso._find_all_files_under ["iso"] fs_tree_link).1
    = Ok [["iso"; "md5sum.txt"]; ["iso"; "a.txt"]; ["etc"; "passwd"];
        ["iso"; "b"; "c.txt"]] ∧
  ["etc"; "passwd"] ∈ [["iso"; "md5sum.txt"]; ["iso"; "a.txt"]; ["etc"; "passwd"];
        ["iso"; "b"; "c.txt"]].
Proof.
  assert (stat fs_tree_link ["iso"] = Some (["iso"], Dir 365%N)) as H1
    by (vm_compute; reflexivity).
  assert (fs_tree_link !! (["iso"] ++ ["ln"]) = Some (Symlink ["etc"; "passwd"])) as H2
    by (vm_compute; reflexivity).
  assert (stat fs_tree_link (["iso"] ++ ["ln"])
          = Some (["etc"; "passwd"], File 420%N (bytes_of "root"))) as H3
    by (vm_compute; reflexivity).
  assert (Modiso._find_all_files_under ["iso"] fs_tree_link
          = (Ok [["iso"; "md5sum.txt"]; ["iso"; "a.txt"]; ["etc"; "passwd"];
        ["iso"; "b"; "c.txt"]], fs_tree_link))
    as H4 by (unfold Modiso._find_all_files_under, find_all_files; f_equal;
              vm_compute; reflexivity).
  split; [exact H1|]. split; [exact H2|]. split; [exact H3|].
  split; [by rewrite H4|].
  exact (find_all_files_lists_link_targets fs_tree_link ["iso"] ["iso"]
           ["etc"; "passwd"] ["etc"; "passwd"] "ln" 365%N 420%N (bytes_of "root")
           _ H1 H2 H3 H4).
Defined.

(** ** [regenerate_iso_md5sums_file] *)

(** X8: a call of [regenerate_iso_md5sums_file] that returns normally
    leaves the manifest with mode 0444 and the root directory with mode
    0555.  ([injection.py] is taken with the enumeration of
    [modiso.py].) *)
Theorem regenerate_success_narrows_modes (fs fs' : FS) (root : path) :
  Modiso.regenerate_iso_md5sums_file root fs = (Ok tt, fs') ∨
  Injection.regenerate_iso_md5sums_file Modiso._find_all_files_under root fs
    = (Ok tt, fs') →
  ∃ root',
    resolve root fs = (Ok root', fs) ∧
    mode_of fs' (root' ++ ["md5sum.txt"]) = Some 292%N ∧
    is_file fs' (root' ++ ["md5sum.txt"]) = true ∧
    mode_of fs' root' = Some 365%N.
Proof.
  intros H.
  assert (regenerate_with find_all_files root fs = (Ok tt, fs')) as H'
    by (by destruct H).
  destruct (regenerate_Ok_inv _ _ _ H')
    as (root' & m & qm & nm & files & Hroot & Hmd5 & _ & _ & ->).
  destruct (before_enumeration_facts _ _ _ _ _ _ Hroot Hmd5) as (Hd3 & Hm3 & Hnone).
  destruct (after_regeneration_stat _ _ _ files Hd3 Hm3 Hnone) as (Hs1 & Hs2 & _).
  exists root'. split; [by eapply resolve_of_stat|].
  unfold mode_of, is_file. by rewrite Hs1, Hs2.
Qed.

Lemma regenerate_success_narrows_modes_witness :
  (Modiso.regenerate_iso_md5sums_file ["iso"] fs_tree).1 = Ok tt ∧
  ∃ root',
    resolve ["iso"] fs_tree = (Ok root', fs_tree) ∧
    mode_of (Modiso.regenerate_iso_md5sums_file ["iso"] fs_tree).2
      (root' ++ ["md5sum.txt"]) = Some 292%N ∧
    is_file (Modiso.regenerate_iso_md5sums_file ["iso"] fs_tree).2
      (root' ++ ["md5sum.txt"]) = true ∧
    mode_of (Modiso.regenerate_iso_md5sums_file ["iso"] fs_tree).2 root' = Some 365%N.
Proof.
  assert ((Modiso.regenerate_iso_md5sums_file ["iso"] fs_tree).1 = Ok tt) as H1
    by (vm_compute; reflexivity).
  split; [exact H1|].
  apply (regenerate_success_narrows_modes fs_tree _ ["iso"]). left.
  rewrite <- H1. apply surjective_pairing.
Defined.



(** X10: for a root that is a directory with a regular file [md5sum.txt]
    and a tree in which no symbolic link leads to a regular file,
    [regenerate_iso_md5sums_file] returns normally, and the new manifest
    has one line for each regular file reached from the root through real
    directories, the old manifest left out: no file is listed twice, none
    is missed, and every listed file is as it was.  ([injection.py] is
    taken with the enumeration of [modiso.py].) *)
Theorem regenerate_lists_every_regular_file (fs : FS) (root root' : path)
    (m mm : N) (dm : list byte) :
  stat fs root = Some (root', Dir m) →
  fs !! (root' ++ ["md5sum.txt"]) = Some (File mm dm) →
  no_file_links fs root' →
  ∃ fs' files,
    Modiso.regenerate_iso_md5sums_file root fs = (Ok tt, fs') ∧
    Injection.regenerate_iso_md5sums_file Modiso._find_all_files_under root fs
      = (Ok tt, fs') ∧
    NoDup files ∧
    (∀ p, p ∈ files ↔ regular_under fs root' p ∧ p ≠ root' ++ ["md5sum.txt"]) ∧
    read_file fs' (root' ++ ["md5sum.txt"]) = Some (manifest_text fs root' files) ∧
    (∀ p, p ∈ files → fs' !! p = fs !! p).
Proof.
  intros Hroot Hf Hlinks.
  destruct (stat_dir_inv _ _ _ _ Hroot) as [Hd Hm].
  set (md5 := root' ++ ["md5sum.txt"]) in *.
  assert (stat fs md5 = Some (md5, File mm dm)) as Hmd5
    by (by apply stat_real_file).
  pose proof (widened_same_kinds _ _ _ _ _ Hm Hf) as HK. fold md5 in HK.
  destruct (before_enumeration_facts _ _ _ _ _ _ Hroot Hmd5) as (Hd3 & Hm3 & Hnone).
  fold md5 in Hnone.
  set (F3 := before_enumeration fs root' md5 (File mm dm)) in *.
  destruct (find_files_from_spec (S (max_depth F3)) F3 root' 493%N Hd3 Hm3)
    as (files & Hfind & Hnd & Hspec).
  { intros k Hk. apply max_depth_bound in Hk. lia. }
  { by eapply no_file_links_before_enumeration. }
  assert (∀ p, regular_under F3 root' p ↔ regular_under fs root' p ∧ p ≠ md5) as Hreg.
  { intros p. unfold regular_under. split.
    - intros (rel & -> & H).
      apply (file_below_delete_file fs _ md5 mm dm) in H as [H Hne]; [|done|done].
      split; [eauto | done].
    - intros [(rel & -> & H) Hne]. exists rel. split; [done|].
      apply (file_below_delete_file fs _ md5 mm dm); done. }
  assert (∀ p, p ∈ files → F3 !! p = fs !! p) as Hsame.
  { intros p Hp. apply Hspec in Hp.
    destruct (regular_under_is_file _ _ _ Hp) as (mp & x & Hl).
    apply before_enumeration_other; intros ->; [by rewrite Hm3 in Hl|].
    fold md5 in Hl. by rewrite Hnone in Hl. }
  assert (regenerate_with find_all_files root fs
          = (Ok tt, after_regeneration F3 root' files)) as Hrun.
  { rewrite (regenerate_head _ _ _ _ m md5 (File mm dm) (File 420 dm) Hroot Hmd5);
      [|done| |done].
    - eapply regenerate_tail_run; [done|done|done|done|].
      intros p Hp. apply Hspec in Hp. by eapply regular_under_prefix.
    - simpl. rewrite lookup_insert_ne by (symmetry; apply snoc_ne_self).
      apply lookup_insert_eq. }
  destruct (after_regeneration_stat _ _ _ files Hd3 Hm3 Hnone) as (Hs1 & _ & Hother).
  exists (after_regeneration F3 root' files), files.
  split; [done|]. split; [done|]. split; [done|]. split; [|split].
  - intros p. by rewrite Hspec, Hreg.
  - unfold read_file. fold md5 in Hs1. rewrite Hs1. f_equal.
    by apply manifest_text_agree.
  - intros p Hp. rewrite <- (Hsame p Hp). apply Hspec in Hp.
    destruct (regular_under_is_file _ _ _ Hp) as (mp & x & Hl).
    apply Hother; intros ->; [by rewrite Hm3 in Hl|].
    fold md5 in Hl. by rewrite Hnone in Hl.
Qed.

Lemma regenerate_lists_every_regular_file_witness :
  stat fs_tree ["iso"; "debian"] = Some (["iso"], Dir 365%N) ∧
  fs_tree !! (["iso"] ++ ["md5sum.txt"]) = Some (File 292%N (bytes_of "stale")) ∧
  no_file_links fs_tree ["iso"] ∧
  ∃ fs' files,
    Modiso.regenerate_iso_md5sums_file ["iso"; "debian"] fs_tree = (Ok tt, fs') ∧
    Injection.regenerate_iso_md5sums_file Modiso._find_all_files_under
      ["iso"; "debian"] fs_tree = (Ok tt, fs') ∧
    NoDup files ∧
    (∀ p, p ∈ files ↔
          regular_under fs_tree ["iso"] p ∧ p ≠ ["iso"] ++ ["md5sum.txt"]) ∧
    read_file fs' (["iso"] ++ ["md5sum.txt"])
      = Some (manifest_text fs_tree ["iso"] files) ∧
    (∀ p, p ∈ files → fs' !! p = fs_tree !! p).
Proof.
  assert (stat fs_tree ["iso"; "debian"] = Some (["iso"], Dir 365%N)) as H1
    by (vm_compute; reflexivity).
  assert (fs_tree !! (["iso"] ++ ["md5sum.txt"])
          = Some (File 292%N (bytes_of "stale"))) as H2
    by (vm_compute; reflexivity).
  split; [exact H1|]. split; [exact H2|]. split; [exact no_file_links_fs_tree|].
  exact (regenerate_lists_every_regular_file fs_tree ["iso"; "debian"] ["iso"]
           365%N 292%N (bytes_of "stale") H1 H2 no_file_links_fs_tree).
Defined.

(** X11: the two failures before anything is changed.  A root that is
    no directory is answered by [NotADirectoryError]; a root directory
    without [md5sum.txt] by the [FileNotFoundError] of the first [chmod].
    In both cases the state is unchanged, whatever the enumeration
    function is. *)
Theorem regenerate_fails_before_any_change (find : path → M (list path))
    (fs : FS) (root root' : path) :
  resolve root fs = (Ok root', fs) →
  (is_dir fs root = false →
   regenerate_with find root fs = (Raise (NotADirectoryError root'), fs)) ∧
  (is_dir fs root = true →
   path_exists fs (root' ++ ["md5sum.txt"]) = false →
   regenerate_with find root fs
     = (Raise (FileNotFoundError (root' ++ ["md5sum.txt"])), fs)).
Proof.
  intros Hres. pose proof (is_dir_resolve _ _ _ _ Hres) as [_ Hdir].
  split.
  - intros Hnd. rewrite regenerate_with_unfold. step_with Hres.
    rewrite bind_run. unfold gets, id. cbn beta iota. by rewrite Hdir, Hnd.
  - intros Hd Hmissing. rewrite regenerate_with_unfold. step_with Hres.
    rewrite bind_run. unfold gets, id. cbn beta iota. rewrite Hdir, Hd. simpl.
    rewrite bind_run, chmod_run. unfold path_exists in Hmissing.
    by destruct (stat fs (root' ++ ["md5sum.txt"])).
Qed.

Lemma regenerate_fails_before_any_change_witness :
  resolve ["etc"] fs_tree = (Ok ["etc"], fs_tree) ∧
  is_dir fs_tree ["etc"] = true ∧
  path_exists fs_tree (["etc"] ++ ["md5sum.txt"]) = false ∧
  Modiso.regenerate_iso_md5sums_file ["etc"] fs_tree
    = (Raise (FileNotFoundError (["etc"] ++ ["md5sum.txt"])), fs_tree) ∧
  resolve ["etc"; "passwd"] fs_tree = (Ok ["etc"; "passwd"], fs_tree) ∧
  is_dir fs_tree ["etc"; "passwd"] = false ∧
  Modiso.regenerate_iso_md5sums_file ["etc"; "passwd"] fs_tree
    = (Raise (NotADirectoryError ["etc"; "passwd"]), fs_tree).
Proof.
  assert (resolve ["etc"] fs_tree = (Ok ["etc"], fs_tree)) as H1 by reflexivity.
  assert (is_dir fs_tree ["etc"] = true) as H2 by (vm_compute; reflexivity).
  assert (path_exists fs_tree (["etc"] ++ ["md5sum.txt"]) = false) as H3
    by (vm_compute; reflexivity).
  assert (resolve ["etc"; "passwd"] fs_tree = (Ok ["etc"; "passwd"], fs_tree)) as H4
    by reflexivity.
  assert (is_dir fs_tree ["etc"; "passwd"] = false) as H5 by (vm_compute; reflexivity).
  split; [exact H1|]. split; [exact H2|]. split; [exact H3|].
  split.
  { exact (proj2 (regenerate_fails_before_any_change Modiso._find_all_files_under
             fs_tree ["etc"] ["etc"] H1) H2 H3). }
  split; [exact H4|]. split; [exact H5|].
  exact (proj1 (regenerate_fails_before_any_change Modiso._find_all_files_under
           fs_tree ["etc"; "passwd"] ["etc"; "passwd"] H4) H5).
Defined.

(** ** [append_file_contents_to_initrd_archive] *)

(** X12: [injection.py].  For a path that leads to a regular file
    [initrd.gz] with gzip contents, in a directory that has no entry
    [initrd], and a [cpio] run that rewrites the unpacked file [initrd]
    and nothing else: whatever return code [cpio] gives, the call returns
    normally; the archive then holds the compressed contents [cpio] left
    in the unpacked file, with mode 0444, its directory has mode 0555, the
    unpacked file is gone and no other entry has changed. *)
Theorem append_repacks_whatever_cpio_returns (E : Env) (fs : FS)
    (archive base_dir d : path) (rel : string) (md m me : N)
    (data raw raw' : list byte) (rc : Z) :
  stat fs archive = Some (d ++ ["initrd.gz"], File m data) →
  fs !! d = Some (Dir md) →
  fs !! (d ++ ["initrd"]) = None →
  gzip_decompress E data = Some raw →
  run_process E (cpio_append_argv (d ++ ["initrd"])) (Some base_dir) (bytes_of rel)
      (initrd_unpacked fs d raw)
    = (Ok rc, <[d ++ ["initrd"] := File me raw']> (initrd_unpacked fs d raw)) →
  ∃ fs',
    Injection.append_file_contents_to_initrd_archive E archive base_dir rel fs
      = (Ok tt, fs') ∧
    read_file fs' archive = Some (gzip_compress E raw') ∧
    mode_of fs' archive = Some 292%N ∧
    mode_of fs' d = Some 365%N ∧
    path_exists fs' (d ++ ["initrd"]) = false ∧
    ∀ k, k ≠ d → k ≠ d ++ ["initrd.gz"] → fs' !! k = fs !! k.
Proof.
  intros Hst Hmd Hext Hraw Hrun.
  pose proof (stat_file_inv _ _ _ _ _ _ Hst) as Hd.
  pose proof (stat_lookup _ _ _ _ Hst) as Hq.
  assert (d ++ ["initrd.gz"] ≠ d ++ ["initrd"]) as Hne by (by apply entry_ne).
  assert (d ++ ["initrd.gz"] ≠ d) as Hqd by apply snoc_ne_self.
  assert (d ++ ["initrd"] ≠ d) as Hed by apply snoc_ne_self.
  destruct (initrd_unpacked_facts fs d md m data raw Hd Hmd Hq)
    as (Hd5 & Hmd5 & Hq5 & Hext5 & Hother5).
  set (F5 := initrd_unpacked fs d raw) in *.
  set (F6 := <[d ++ ["initrd"] := File me raw']> F5) in *.
  assert (dirs_to F6 d) as Hd6 by (by apply dirs_to_insert_entry).
  assert (F6 !! d = Some (Dir 493)) as Hmd6
    by (unfold F6; by rewrite lookup_insert_ne).
  assert (F6 !! (d ++ ["initrd.gz"]) = None) as Hq6
    by (unfold F6; by rewrite lookup_insert_ne).
  assert (F6 !! (d ++ ["initrd"]) = Some (File me raw')) as Hext6
    by apply lookup_insert_eq.
  set (fs' := initrd_repacked E (delete (d ++ ["initrd"]) F6) d raw').
  assert (fs' !! d = Some (Dir 365)) as Hd' by apply lookup_insert_eq.
  assert (fs' !! (d ++ ["initrd.gz"]) = Some (File 292 (gzip_compress E raw'))) as Hq'.
  { unfold fs', initrd_repacked. rewrite lookup_insert_ne by done.
    apply lookup_insert_eq. }
  assert (∀ k, k ≠ d → k ≠ d ++ ["initrd.gz"] → fs' !! k = fs !! k) as Hother.
  { intros k H1 H2. unfold fs', initrd_repacked. rewrite !lookup_insert_ne by done.
    destruct (decide (k = d ++ ["initrd"])) as [->|H3].
    - by rewrite lookup_delete_eq, Hext.
    - unfold F6. rewrite lookup_delete_ne, lookup_insert_ne by done.
      by apply Hother5. }
  assert (same_kinds fs fs') as HK.
  { intros k. destruct (decide (k = d)) as [->|H1]; [by rewrite Hmd, Hd'|].
    destruct (decide (k = d ++ ["initrd.gz"])) as [->|H2]; [by rewrite Hq, Hq'|].
    by rewrite Hother. }
  exists fs'. split; [|split; [|split; [|split; [|split; [|exact Hother]]]]].
  - unfold Injection.append_file_contents_to_initrd_archive.
    step_with (resolve_of_stat _ _ _ _ Hst).
    rewrite bind_run. unfold gets, id. cbn beta iota.
    unfold is_file. rewrite (stat_canonical _ _ _ _ Hst).
    unfold name. rewrite last_snoc'. cbn.
    rewrite with_suffix_empty_initrd.
    rewrite (append_unpack E fs d md m data raw _ Hd Hmd Hq Hext Hraw). fold F5.
    rewrite bind_run. unfold try_except.
    step_with (resolve_of_stat _ _ _ _
                 (stat_real_file _ _ _ _ _ Hd5 Hext5)).
    rewrite bind_run. unfold popen_communicate. rewrite Hrun. cbn.
    by rewrite (append_repack E F6 d 493%N me raw' Hd6 Hmd6 Hq6 Hext6).
  - unfold read_file. rewrite (stat_same_kinds _ _ archive HK), Hst. simpl.
    by rewrite Hq'.
  - unfold mode_of. rewrite (stat_same_kinds _ _ archive HK), Hst. simpl.
    by rewrite Hq'.
  - unfold mode_of.
    by rewrite (stat_real_dir fs' d 365%N (dirs_to_same_kinds _ _ _ HK Hd) Hd').
  - unfold path_exists. rewrite (stat_same_kinds _ _ _ HK).
    unfold stat at 1. by rewrite walk_creatable by (by exists d, "initrd").
Qed.

Lemma append_repacks_whatever_cpio_returns_witness :
  stat fs_initrd ["iso"; "ramdisk"]
    = Some (["iso"] ++ ["initrd.gz"], File 292%N (demo_gzip (bytes_of "cpio:"))) ∧
  ∃ fs',
    Injection.append_file_contents_to_initrd_archive (demo_env 2)
      ["iso"; "ramdisk"] ["stage"] "logo.png" fs_initrd = (Ok tt, fs') ∧
    read_file fs' ["iso"; "ramdisk"] = Some (demo_gzip (bytes_of "cpio:")) ∧
    mode_of fs' ["iso"; "ramdisk"] = Some 292%N ∧
    mode_of fs' ["iso"] = Some 365%N ∧
    path_exists fs' (["iso"] ++ ["initrd"]) = false ∧
    ∀ k, k ≠ ["iso"] → k ≠ ["iso"] ++ ["initrd.gz"] → fs' !! k = fs_initrd !! k.
Proof.
  assert (stat fs_initrd ["iso"; "ramdisk"]
          = Some (["iso"] ++ ["initrd.gz"], File 292%N (demo_gzip (bytes_of "cpio:"))))
    as H1 by (vm_compute; reflexivity).
  split; [exact H1|].
  apply (append_repacks_whatever_cpio_returns (demo_env 2) fs_initrd
           ["iso"; "ramdisk"] ["stage"] ["iso"] "logo.png" 365%N 292%N
           default_mode (demo_gzip (bytes_of "cpio:")) (bytes_of "cpio:")
           (bytes_of "cpio:") 2%Z H1).
  - vm_compute; reflexivity.
  - vm_compute; reflexivity.
  - reflexivity.
  - apply (bool_decide_unpack _). vm_compute. exact I.
Defined.

(** X13: [modiso.py].  When the shell command of the append step returns
    a non-zero code and changes nothing, the call raises the
    [RuntimeError] for a failed append, a [ProcessFailure], and stops
    there: the compressed archive is gone, the unpacked copy [initrd] is
    left beside it and the directory keeps the widened mode 0755.  The
    rewrite is not atomic. *)
Theorem modiso_append_failure_leaves_archive_unpacked (E : Env) (fs : FS)
    (d input input' : path) (md m : N) (data raw : list byte) (rc : Z) :
  dirs_to fs d →
  fs !! d = Some (Dir md) →
  fs !! (d ++ ["initrd.gz"]) = Some (File m data) →
  fs !! (d ++ ["initrd"]) = None →
  is_file fs input = true →
  gzip_decompress E data = Some raw →
  resolve input (initrd_unpacked fs d raw) = (Ok input', initrd_unpacked fs d raw) →
  run_shell E (Str "echo" :: StrOf input' :: Str "|"
               :: cpio_append_argv (d ++ ["initrd"])) (initrd_unpacked fs d raw)
    = (Ok rc, initrd_unpacked fs d raw) →
  rc ≠ 0%Z →
  Modiso.append_file_contents_to_initrd_archive E (d ++ ["initrd.gz"]) input fs
    = (Raise (RuntimeError (AppendFailed (d ++ ["initrd.gz"]))),
       initrd_unpacked fs d raw) ∧
  classify (RuntimeError (AppendFailed (d ++ ["initrd.gz"]))) = ProcessFailure ∧
  path_exists (initrd_unpacked fs d raw) (d ++ ["initrd.gz"]) = false ∧
  read_file (initrd_unpacked fs d raw) (d ++ ["initrd"]) = Some raw ∧
  mode_of (initrd_unpacked fs d raw) d = Some 493%N.
Proof.
  intros Hd Hmd Hq Hext Hin Hraw Hres Hrun Hrc.
  destruct (initrd_unpacked_facts fs d md m data raw Hd Hmd Hq)
    as (Hd5 & Hmd5 & Hq5 & Hext5 & _).
  set (F5 := initrd_unpacked fs d raw) in *.
  split; [|split; [done|split; [|split]]].
  - unfold Modiso.append_file_contents_to_initrd_archive.
    rewrite bind_run. unfold gets, id. cbn beta iota.
    unfold is_file at 1. rewrite (stat_real_file _ _ _ _ _ Hd Hq).
    unfold name. rewrite last_snoc'. rewrite Hin. cbn.
    rewrite with_suffix_empty_initrd.
    rewrite (append_unpack E fs d md m data raw _ Hd Hmd Hq Hext Hraw). fold F5.
    rewrite bind_run. unfold try_except.
    step_with Hres.
    step_with (resolve_of_stat _ _ _ _ (stat_real_file _ _ _ _ _ Hd5 Hext5)).
    unfold subprocess_run_shell_check. rewrite bind_run, Hrun.
    apply Z.eqb_neq in Hrc. by rewrite Hrc.
  - unfold path_exists, stat.
    by rewrite walk_creatable by (by exists d, "initrd.gz").
  - unfold read_file. by rewrite (stat_real_file _ _ _ _ _ Hd5 Hext5).
  - unfold mode_of. by rewrite (stat_real_dir _ _ _ Hd5 Hmd5).
Qed.

Lemma modiso_append_failure_leaves_archive_unpacked_witness :
  Modiso.append_file_contents_to_initrd_archive demo_env_failing_shell
      (["iso"] ++ ["initrd.gz"]) ["stage"; "logo.png"] fs_initrd
    = (Raise (RuntimeError (AppendFailed (["iso"] ++ ["initrd.gz"]))),
       initrd_unpacked fs_initrd ["iso"] (bytes_of "cpio:")) ∧
  classify (RuntimeError (AppendFailed (["iso"] ++ ["initrd.gz"]))) = ProcessFailure ∧
  path_exists (initrd_unpacked fs_initrd ["iso"] (bytes_of "cpio:"))
    (["iso"] ++ ["initrd.gz"]) = false ∧
  read_file (initrd_unpacked fs_initrd ["iso"] (bytes_of "cpio:"))
    (["iso"] ++ ["initrd"]) = Some (bytes_of "cpio:") ∧
  mode_of (initrd_unpacked fs_initrd ["iso"] (bytes_of "cpio:")) ["iso"] = Some 493%N.
Proof.
  apply (modiso_append_failure_leaves_archive_unpacked demo_env_failing_shell
           fs_initrd ["iso"] ["stage"; "logo.png"] ["stage"; "logo.png"]
           365%N 292%N (demo_gzip (bytes_of "cpio:")) (bytes_of "cpio:") 1%Z).
  - intros pre c post E. destruct pre as [|a [|b pre]]; try discriminate.
    injection E as <- _. exists 365%N. vm_compute; reflexivity.
  - vm_compute; reflexivity.
  - vm_compute; reflexivity.
  - vm_compute; reflexivity.
  - vm_compute; reflexivity.
  - reflexivity.
  - apply (bool_decide_unpack _). vm_compute. exact I.
  - reflexivity.
  - discriminate.
Defined.

(** ** [inject_files_into_iso] *)

(** X14: [inject_files_into_iso] checks its two paths before it does
    anything else.  An input that is no file is answered by
    [FileNotFoundError]; with an input file, an output path that leads to
    a file by [FileExistsError]; otherwise an output path whose parent is
    no directory by [NotADirectoryError].  In each case nothing has been
    changed: no temporary directory has been made and no program run. *)
Theorem inject_checks_paths_before_any_work (E : Env) (find : path → M (list path))
    (out inp inp' out' : path) (fsname : list N) (fs : FS) :
  resolve inp fs = (Ok inp', fs) →
  resolve out fs = (Ok out', fs) →
  (is_file fs inp = false →
   Injection.inject_files_into_iso E find out inp fsname fs
     = (Raise (FileNotFoundError inp'), fs)) ∧
  (is_file fs inp = true → is_file fs out = true →
   Injection.inject_files_into_iso E find out inp fsname fs
     = (Raise (FileExistsError out'), fs)) ∧
  (is_file fs inp = true → is_file fs out = false →
   is_dir fs (parent out') = false →
   Injection.inject_files_into_iso E find out inp fsname fs
     = (Raise (NotADirectoryError (parent out')), fs)).
Proof.
  intros Hinp Hout.
  pose proof (is_file_resolve _ _ _ _ Hinp) as [_ Hi].
  pose proof (is_file_resolve _ _ _ _ Hout) as [_ Ho].
  unfold Injection.inject_files_into_iso, id.
  repeat split.
  - intros Hf. step_with Hinp. rewrite bind_run, gets_run. cbn beta iota.
    by rewrite Hi, Hf.
  - intros Hf Hf'. step_with Hinp. rewrite bind_run, gets_run. cbn beta iota.
    rewrite Hi, Hf. cbn [negb]. step_with Hout.
    rewrite bind_run, gets_run. cbn beta iota. by rewrite Ho, Hf'.
  - intros Hf Hf' Hd. step_with Hinp. rewrite bind_run, gets_run. cbn beta iota.
    rewrite Hi, Hf. cbn [negb]. step_with Hout.
    rewrite bind_run, gets_run. cbn beta iota. by rewrite Ho, Hf', Hd.
Qed.


Lemma inject_checks_paths_before_any_work_witness :
  Injection.inject_files_into_iso (demo_env 0) find_all_files
    ["srv"; "out.iso"] ["srv"; "absent.iso"] [68%N] fs_image
    = (Raise (FileNotFoundError ["srv"; "absent.iso"]), fs_image) ∧
  Injection.inject_files_into_iso (demo_env 0) find_all_files
    ["tmp"; "old.bin"] ["srv"; "debian.iso"] [68%N] fs_image
    = (Raise (FileExistsError ["tmp"; "old.bin"]), fs_image) ∧
  Injection.inject_files_into_iso (demo_env 0) find_all_files
    ["nowhere"; "out.iso"] ["srv"; "debian.iso"] [68%N] fs_image
    = (Raise (NotADirectoryError ["nowhere"]), fs_image).
Proof.
  assert (resolve ["srv"; "absent.iso"] fs_image = (Ok ["srv"; "absent.iso"], fs_image))
    as R1 by by_evaluation.
  assert (resolve ["srv"; "debian.iso"] fs_image = (Ok ["srv"; "debian.iso"], fs_image))
    as R2 by by_evaluation.
  assert (resolve ["srv"; "out.iso"] fs_image = (Ok ["srv"; "out.iso"], fs_image))
    as R3 by by_evaluation.
  assert (resolve ["tmp"; "old.bin"] fs_image = (Ok ["tmp"; "old.bin"], fs_image))
    as R4 by by_evaluation.
  assert (resolve ["nowhere"; "out.iso"] fs_image = (Ok ["nowhere"; "out.iso"], fs_image))
    as R5 by by_evaluation.
  split; [|split].
  - apply (proj1 (inject_checks_paths_before_any_work (demo_env 0) find_all_files
                    _ _ _ _ [68%N] fs_image R1 R3)).
    vm_compute; reflexivity.
  - apply (proj1 (proj2 (inject_checks_paths_before_any_work (demo_env 0) find_all_files
                    _ _ _ _ [68%N] fs_image R2 R4))); vm_compute; reflexivity.
  - apply (proj2 (proj2 (inject_checks_paths_before_any_work (demo_env 0) find_all_files
                    _ _ _ _ [68%N] fs_image R2 R5))); vm_compute; reflexivity.
Defined.




(** X16: nothing removes a temporary directory when a stage fails.  When
    the paths pass the checks and the extraction program returns a code
    other than 0, [inject_files_into_iso] raises the [RuntimeError] of
    [extract_iso] in the state the program left, without any [cleanup()]:
    the directory that was made for the extracted tree, which did not
    exist before the call, is still there unless the program itself
    removed it. *)
Theorem inject_failed_extraction_skips_cleanup (E : Env)
    (find : path → M (list path)) (out inp inp' out' t t' : path)
    (fsname : list N) (fs fs0 fs1 : FS) (rc : Z) :
  resolve inp fs = (Ok inp', fs) → is_file fs inp = true →
  resolve out fs = (Ok out', fs) → is_file fs out = false →
  is_dir fs (parent out') = true →
  TemporaryDirectory E 0 fs = (Ok t, fs0) →
  resolve t fs0 = (Ok t', fs0) →
  run_process E (osirrox_argv inp' t') None [] fs0 = (Ok rc, fs1) →
  rc ≠ 0%Z →
  Injection.inject_files_into_iso E find out inp fsname fs
    = (Raise (RuntimeError (ExtractFailed inp')), fs1) ∧
  path_exists fs t = false ∧
  (fs0 ⊆ fs1 → is_dir fs1 t = true).
Proof.
  intros Hinp Hfi Hout Hfo Hd Htmp Hres Hrun Hrc.
  pose proof (is_file_resolve _ _ _ _ Hinp) as [_ Hi].
  pose proof (is_file_resolve _ _ _ _ Hout) as [_ Ho].
  pose proof (TemporaryDirectory_Ok _ _ _ _ _ Htmp) as (nm & _ & _ & Hsub & Hnone & Hdir).
  assert (∃ n, stat fs0 inp' = Some (inp', n) ∧ is_file fs0 inp' = true)
    as (n & Hst & Hfile).
  { unfold is_file in Hfi.
    destruct (stat fs inp) as [[q [m x|m|l]]|] eqn:S; try done.
    pose proof (stat_resolve _ _ _ _ Hinp) as [_ S'].
    rewrite S in S'. 
    assert (q = inp') as ->.
    { apply resolve_of_stat in S. congruence. }
    apply stat_canonical in S.
    apply (stat_weaken _ fs0) in S; [|done].
    exists (File m x). split; [done|]. unfold is_file. by rewrite S. }
  assert (Injection.extract_iso E t inp' fs0
          = (Raise (RuntimeError (ExtractFailed inp')), fs1)) as Hex.
  { unfold Injection.extract_iso, id. step_with Hres.
    step_with (resolve_of_stat _ _ _ _ Hst).
    rewrite bind_run, gets_run. cbn beta iota.
    destruct (is_dir_resolve _ _ _ _ Hres) as [_ ->]. rewrite Hdir, Hfile.
    cbn [negb]. rewrite (run_check_outcome _ _ _ _ _ _ Hrun).
    by destruct (Z.eqb_spec rc 0). }
  split; [|split; [done|]].
  - unfold Injection.inject_files_into_iso, id.
    step_with Hinp. rewrite bind_run, gets_run. cbn beta iota.
    rewrite Hi, Hfi. cbn [negb]. step_with Hout.
    rewrite bind_run, gets_run. cbn beta iota. rewrite Ho, Hfo, Hd. cbn [negb].
    step_with Htmp. by rewrite bind_run, Hex.
  - intros Hsub'. unfold is_dir in Hdir |- *.
    destruct (stat fs0 t) as [[q [m x|m|l]]|] eqn:S; try done.
    by rewrite (stat_weaken _ _ _ _ _ Hsub' S).
Qed.

Lemma inject_failed_extraction_skips_cleanup_witness :
  Injection.inject_files_into_iso demo_env_failing_programs find_all_files
    ["srv"; "out.iso"] ["srv"; "debian.iso"] [68%N] fs_image
    = (Raise (RuntimeError (ExtractFailed ["srv"; "debian.iso"])), fs_image_tmpa) ∧
  path_exists fs_image ["tmp"; "tmpa"] = false ∧
  is_dir fs_image_tmpa ["tmp"; "tmpa"] = true.
Proof.
  assert (resolve ["srv"; "debian.iso"] fs_image = (Ok ["srv"; "debian.iso"], fs_image))
    as H1 by by_evaluation.
  assert (is_file fs_image ["srv"; "debian.iso"] = true) as H2 by (vm_compute; reflexivity).
  assert (resolve ["srv"; "out.iso"] fs_image = (Ok ["srv"; "out.iso"], fs_image))
    as H3 by by_evaluation.
  assert (is_file fs_image ["srv"; "out.iso"] = false) as H4 by (vm_compute; reflexivity).
  assert (is_dir fs_image (parent ["srv"; "out.iso"]) = true) as H5
    by (vm_compute; reflexivity).
  assert (TemporaryDirectory demo_env_failing_programs 0 fs_image
          = (Ok ["tmp"; "tmpa"], fs_image_tmpa)) as H6 by by_evaluation.
  assert (resolve ["tmp"; "tmpa"] fs_image_tmpa = (Ok ["tmp"; "tmpa"], fs_image_tmpa))
    as H7 by by_evaluation.
  assert (run_process demo_env_failing_programs
            (osirrox_argv ["srv"; "debian.iso"] ["tmp"; "tmpa"]) None [] fs_image_tmpa
          = (Ok 1%Z, fs_image_tmpa)) as H8 by by_evaluation.
  assert (1%Z ≠ 0%Z) as H9 by lia.
  destruct (inject_failed_extraction_skips_cleanup demo_env_failing_programs
              find_all_files _ _ _ _ _ _ [68%N] _ _ _ _ H1 H2 H3 H4 H5 H6 H7 H8 H9)
    as (A & B & C).
  split; [exact A|]. split; [exact B|]. by apply C.
Defined.

(** ** [regenerate_iso_md5sums_file]: a failure half-way *)



(** X18: [modiso.py].  For a regular file [initrd.gz] with gzip contents
    in a directory without an entry [initrd], and a shell command that
    returns 0 after rewriting the unpacked file [initrd] and nothing else:
    the call returns normally; the archive then holds the compressed
    contents the command left in the unpacked file, with mode 0444, its
    directory has mode 0555, the unpacked file is gone and no other entry
    has changed. *)
Theorem modiso_append_repacks_after_success (E : Env) (fs : FS)
    (d input input' : path) (md m me : N) (data raw raw' : list byte) :
  dirs_to fs d →
  fs !! d = Some (Dir md) →
  fs !! (d ++ ["initrd.gz"]) = Some (File m data) →
  fs !! (d ++ ["initrd"]) = None →
  is_file fs input = true →
  gzip_decompress E data = Some raw →
  resolve input (initrd_unpacked fs d raw) = (Ok input', initrd_unpacked fs d raw) →
  run_shell E (Str "echo" :: StrOf input' :: Str "|"
               :: cpio_append_argv (d ++ ["initrd"])) (initrd_unpacked fs d raw)
    = (Ok 0%Z, <[d ++ ["initrd"] := File me raw']> (initrd_unpacked fs d raw)) →
  ∃ fs',
    Modiso.append_file_contents_to_initrd_archive E (d ++ ["initrd.gz"]) input fs
      = (Ok tt, fs') ∧
    read_file fs' (d ++ ["initrd.gz"]) = Some (gzip_compress E raw') ∧
    mode_of fs' (d ++ ["initrd.gz"]) = Some 292%N ∧
    mode_of fs' d = Some 365%N ∧
    path_exists fs' (d ++ ["initrd"]) = false ∧
    ∀ k, k ≠ d → k ≠ d ++ ["initrd.gz"] → fs' !! k = fs !! k.
Proof.
  intros Hd Hmd Hq Hext Hin Hraw Hres Hrun.
  assert (d ++ ["initrd.gz"] ≠ d ++ ["initrd"]) as Hne by (by apply entry_ne).
  assert (d ++ ["initrd.gz"] ≠ d) as Hqd by apply snoc_ne_self.
  assert (d ++ ["initrd"] ≠ d) as Hed by apply snoc_ne_self.
  destruct (initrd_unpacked_facts fs d md m data raw Hd Hmd Hq)
    as (Hd5 & Hmd5 & Hq5 & Hext5 & Hother5).
  set (F5 := initrd_unpacked fs d raw) in *.
  set (F6 := <[d ++ ["initrd"] := File me raw']> F5) in *.
  assert (dirs_to F6 d) as Hd6 by (by apply dirs_to_insert_entry).
  assert (F6 !! d = Some (Dir 493)) as Hmd6
    by (unfold F6; by rewrite lookup_insert_ne).
  assert (F6 !! (d ++ ["initrd.gz"]) = None) as Hq6
    by (unfold F6; by rewrite lookup_insert_ne).
  assert (F6 !! (d ++ ["initrd"]) = Some (File me raw')) as Hext6
    by apply lookup_insert_eq.
  set (fs' := initrd_repacked E (delete (d ++ ["initrd"]) F6) d raw').
  assert (fs' !! d = Some (Dir 365)) as Hd' by apply lookup_insert_eq.
  assert (fs' !! (d ++ ["initrd.gz"]) = Some (File 292 (gzip_compress E raw'))) as Hq'.
  { unfold fs', initrd_repacked. rewrite lookup_insert_ne by done.
    apply lookup_insert_eq. }
  assert (∀ k, k ≠ d → k ≠ d ++ ["initrd.gz"] → fs' !! k = fs !! k) as Hother.
  { intros k H1 H2. unfold fs', initrd_repacked. rewrite !lookup_insert_ne by done.
    destruct (decide (k = d ++ ["initrd"])) as [->|H3].
    - by rewrite lookup_delete_eq, Hext.
    - unfold F6. rewrite lookup_delete_ne, lookup_insert_ne by done.
      by apply Hother5. }
  assert (same_kinds fs fs') as HK.
  { intros k. destruct (decide (k = d)) as [->|H1]; [by rewrite Hmd, Hd'|].
    destruct (decide (k = d ++ ["initrd.gz"])) as [->|H2]; [by rewrite Hq, Hq'|].
    by rewrite Hother. }
  assert (dirs_to fs' d) as Hdd by (by eapply dirs_to_same_kinds).
  exists fs'. split; [|split; [|split; [|split; [|split; [|exact Hother]]]]].
  - unfold Modiso.append_file_contents_to_initrd_archive.
    rewrite bind_run. unfold gets, id. cbn beta iota.
    unfold is_file at 1. rewrite (stat_real_file _ _ _ _ _ Hd Hq).
    unfold name. rewrite last_snoc'. rewrite Hin. cbn.
    rewrite with_suffix_empty_initrd.
    rewrite (append_unpack E fs d md m data raw _ Hd Hmd Hq Hext Hraw). fold F5.
    rewrite bind_run. unfold try_except.
    step_with Hres.
    step_with (resolve_of_stat _ _ _ _ (stat_real_file _ _ _ _ _ Hd5 Hext5)).
    unfold subprocess_run_shell_check. rewrite bind_run, Hrun. cbn.
    by rewrite (append_repack E F6 d 493%N me raw' Hd6 Hmd6 Hq6 Hext6).
  - unfold read_file. by rewrite (stat_real_file _ _ _ _ _ Hdd Hq').
  - unfold mode_of. by rewrite (stat_real_file _ _ _ _ _ Hdd Hq').
  - unfold mode_of. by rewrite (stat_real_dir fs' d 365%N Hdd Hd').
  - unfold path_exists. rewrite (stat_same_kinds _ _ _ HK).
    unfold stat at 1. by rewrite walk_creatable by (by exists d, "initrd").
Qed.

Lemma modiso_append_repacks_after_success_witness :
  ∃ fs',
    Modiso.append_file_contents_to_initrd_archive demo_env_shell
      (["iso"] ++ ["initrd.gz"]) ["stage"; "logo.png"] fs_initrd = (Ok tt, fs') ∧
    read_file fs' (["iso"] ++ ["initrd.gz"])
      = Some (demo_gzip (bytes_of "cpio:" ++ bytes_of "logo")) ∧
    mode_of fs' (["iso"] ++ ["initrd.gz"]) = Some 292%N ∧
    mode_of fs' ["iso"] = Some 365%N ∧
    path_exists fs' (["iso"] ++ ["initrd"]) = false ∧
    ∀ k, k ≠ ["iso"] → k ≠ ["iso"] ++ ["initrd.gz"] → fs' !! k = fs_initrd !! k.
Proof.
  apply (modiso_append_repacks_after_success demo_env_shell
           fs_initrd ["iso"] ["stage"; "logo.png"] ["stage"; "logo.png"]
           365%N 292%N default_mode (demo_gzip (bytes_of "cpio:")) (bytes_of "cpio:")
           (bytes_of "cpio:" ++ bytes_of "logo")).
  - intros pre c post E. destruct pre as [|a [|b pre]]; try discriminate.
    injection E as <- _. exists 365%N. vm_compute; reflexivity.
  - vm_compute; reflexivity.
  - vm_compute; reflexivity.
  - vm_compute; reflexivity.
  - vm_compute; reflexivity.
  - reflexivity.
  - apply (bool_decide_unpack _). vm_compute. exact I.
  - apply (bool_decide_unpack _). vm_compute. exact I.
Defined.

(** ** [extract_iso] and [repack_iso]: the path checks *)

(** X19: [extract_iso] runs no program unless the output path leads to a
    directory and the input path to a file.  An output path that is no
    directory is answered by [NotADirectoryError], whatever the input;
    otherwise an input that is no file by [FileNotFoundError]; in both
    modules, in an unchanged state. *)
Theorem extract_iso_checks_paths_first (E : Env) (fs : FS) (out src out' src' : path) :
  resolve out fs = (Ok out', fs) →
  resolve src fs = (Ok src', fs) →
  (is_dir fs out = false →
   Modiso.extract_iso E out src fs = (Raise (NotADirectoryError out), fs) ∧
   Injection.extract_iso E out src fs = (Raise (NotADirectoryError out'), fs)) ∧
  (is_dir fs out = true → is_file fs src = false →
   Modiso.extract_iso E out src fs = (Raise (FileNotFoundError src), fs) ∧
   Injection.extract_iso E out src fs = (Raise (FileNotFoundError src'), fs)).
Proof.
  intros Hout Hsrc.
  pose proof (is_dir_resolve _ _ _ _ Hout) as [_ Ho].
  pose proof (is_file_resolve _ _ _ _ Hsrc) as [_ Hs].
  split.
  - intros Hd. split.
    + unfold Modiso.extract_iso, id. rewrite bind_run, gets_run. cbn beta iota.
      by rewrite Hd.
    + unfold Injection.extract_iso, id. step_with Hout. step_with Hsrc.
      rewrite bind_run, gets_run. cbn beta iota. by rewrite Ho, Hd.
  - intros Hd Hf. split.
    + unfold Modiso.extract_iso, id. rewrite bind_run, gets_run. cbn beta iota.
      by rewrite Hd, Hf.
    + unfold Injection.extract_iso, id. step_with Hout. step_with Hsrc.
      rewrite bind_run, gets_run. cbn beta iota. by rewrite Ho, Hd, Hs, Hf.
Qed.

Lemma extract_iso_checks_paths_first_witness :
  (Modiso.extract_iso (demo_env 0) ["tmp"; "old.bin"] ["srv"; "debian.iso"] fs_image
     = (Raise (NotADirectoryError ["tmp"; "old.bin"]), fs_image) ∧
   Injection.extract_iso (demo_env 0) ["tmp"; "old.bin"] ["srv"; "debian.iso"] fs_image
     = (Raise (NotADirectoryError ["tmp"; "old.bin"]), fs_image)) ∧
  (Modiso.extract_iso (demo_env 0) ["tmp"] ["srv"; "absent.iso"] fs_image
     = (Raise (FileNotFoundError ["srv"; "absent.iso"]), fs_image) ∧
   Injection.extract_iso (demo_env 0) ["tmp"] ["srv"; "absent.iso"] fs_image
     = (Raise (FileNotFoundError ["srv"; "absent.iso"]), fs_image)).
Proof.
  assert (resolve ["tmp"; "old.bin"] fs_image = (Ok ["tmp"; "old.bin"], fs_image))
    as R1 by by_evaluation.
  assert (resolve ["srv"; "debian.iso"] fs_image = (Ok ["srv"; "debian.iso"], fs_image))
    as R2 by by_evaluation.
  assert (resolve ["tmp"] fs_image = (Ok ["tmp"], fs_image)) as R3 by by_evaluation.
  assert (resolve ["srv"; "absent.iso"] fs_image = (Ok ["srv"; "absent.iso"], fs_image))
    as R4 by by_evaluation.
  assert (is_dir fs_image ["tmp"; "old.bin"] = false) as H1 by by_evaluation.
  assert (is_dir fs_image ["tmp"] = true) as H2 by by_evaluation.
  assert (is_file fs_image ["srv"; "absent.iso"] = false) as H3 by by_evaluation.
  split.
  - exact (proj1 (extract_iso_checks_paths_first (demo_env 0) fs_image _ _ _ _ R1 R2) H1).
  - exact (proj2 (extract_iso_checks_paths_first (demo_env 0) fs_image _ _ _ _ R3 R4) H2 H3).
Defined.

(** X20: [repack_iso] looks at its three paths before it looks at the
    filesystem name, and runs no program when one of them is wrong.  An
    output path that exists is answered by [FileExistsError]; otherwise an
    MBR path that is no file by [FileNotFoundError]; otherwise a root
    that is no directory by [NotADirectoryError]; for every name, valid
    or not, in both modules and in an unchanged state. *)
Theorem repack_iso_checks_paths_first (E : Env) (fs : FS)
    (out mbr root out' mbr' root' : path) (fsname : list N) :
  resolve out fs = (Ok out', fs) →
  resolve mbr fs = (Ok mbr', fs) →
  resolve root fs = (Ok root', fs) →
  (path_exists fs out = true →
   Modiso.repack_iso E out mbr root fsname fs = (Raise (FileExistsError out), fs) ∧
   Injection.repack_iso E out mbr root fsname fs = (Raise (FileExistsError out'), fs)) ∧
  (path_exists fs out = false → is_file fs mbr = false →
   Modiso.repack_iso E out mbr root fsname fs = (Raise (FileNotFoundError mbr), fs) ∧
   Injection.repack_iso E out mbr root fsname fs = (Raise (FileNotFoundError mbr'), fs)) ∧
  (path_exists fs out = false → is_file fs mbr = true → is_dir fs root = false →
   Modiso.repack_iso E out mbr root fsname fs = (Raise (NotADirectoryError root), fs) ∧
   Injection.repack_iso E out mbr root fsname fs
     = (Raise (NotADirectoryError root'), fs)).
Proof.
  intros Hout Hmbr Hroot.
  pose proof (path_exists_resolve _ _ _ _ Hout) as [_ Ho].
  pose proof (is_file_resolve _ _ _ _ Hmbr) as [_ Hm].
  pose proof (is_dir_resolve _ _ _ _ Hroot) as [_ Hr].
  split; [|split].
  - intros He. split.
    + unfold Modiso.repack_iso, id. rewrite bind_run, gets_run. cbn beta iota.
      by rewrite He.
    + unfold Injection.repack_iso, id. step_with Hout. step_with Hmbr.
      step_with Hroot. rewrite bind_run, gets_run. cbn beta iota. by rewrite Ho, He.
  - intros He Hf. split.
    + unfold Modiso.repack_iso, id. rewrite bind_run, gets_run. cbn beta iota.
      by rewrite He, Hf.
    + unfold Injection.repack_iso, id. step_with Hout. step_with Hmbr.
      step_with Hroot. rewrite bind_run, gets_run. cbn beta iota.
      by rewrite Ho, He, Hm, Hf.
  - intros He Hf Hd. split.
    + unfold Modiso.repack_iso, id. rewrite bind_run, gets_run. cbn beta iota.
      by rewrite He, Hf, Hd.
    + unfold Injection.repack_iso, id. step_with Hout. step_with Hmbr.
      step_with Hroot. rewrite bind_run, gets_run. cbn beta iota.
      by rewrite Ho, He, Hm, Hf, Hr, Hd.
Qed.

Lemma repack_iso_checks_paths_first_witness :
  (Modiso.repack_iso (demo_env 0) ["tmp"; "old.bin"] ["tmp"; "mbr.bin"] ["srv"]
     [68%N; 47%N] fs_image = (Raise (FileExistsError ["tmp"; "old.bin"]), fs_image) ∧
   Injection.repack_iso (demo_env 0) ["tmp"; "old.bin"] ["tmp"; "mbr.bin"] ["srv"]
     [68%N; 47%N] fs_image = (Raise (FileExistsError ["tmp"; "old.bin"]), fs_image)) ∧
  (Modiso.repack_iso (demo_env 0) ["srv"; "out.iso"] ["tmp"; "mbr.bin"] ["srv"]
     [68%N; 47%N] fs_image = (Raise (FileNotFoundError ["tmp"; "mbr.bin"]), fs_image) ∧
   Injection.repack_iso (demo_env 0) ["srv"; "out.iso"] ["tmp"; "mbr.bin"] ["srv"]
     [68%N; 47%N] fs_image = (Raise (FileNotFoundError ["tmp"; "mbr.bin"]), fs_image)) ∧
  (Modiso.repack_iso (demo_env 0) ["srv"; "out.iso"] ["tmp"; "old.bin"] ["nowhere"]
     [68%N; 47%N] fs_image = (Raise (NotADirectoryError ["nowhere"]), fs_image) ∧
   Injection.repack_iso (demo_env 0) ["srv"; "out.iso"] ["tmp"; "old.bin"] ["nowhere"]
     [68%N; 47%N] fs_image = (Raise (NotADirectoryError ["nowhere"]), fs_image)).
Proof.
  assert (resolve ["tmp"; "old.bin"] fs_image = (Ok ["tmp"; "old.bin"], fs_image))
    as R1 by by_evaluation.
  assert (resolve ["tmp"; "mbr.bin"] fs_image = (Ok ["tmp"; "mbr.bin"], fs_image))
    as R2 by by_evaluation.
  assert (resolve ["srv"] fs_image = (Ok ["srv"], fs_image)) as R3 by by_evaluation.
  assert (resolve ["srv"; "out.iso"] fs_image = (Ok ["srv"; "out.iso"], fs_image))
    as R4 by by_evaluation.
  assert (resolve ["nowhere"] fs_image = (Ok ["nowhere"], fs_image))
    as R5 by by_evaluation.
  assert (path_exists fs_image ["tmp"; "old.bin"] = true) as H1 by by_evaluation.
  assert (path_exists fs_image ["srv"; "out.iso"] = false) as H2 by by_evaluation.
  assert (is_file fs_image ["tmp"; "mbr.bin"] = false) as H3 by by_evaluation.
  assert (is_file fs_image ["tmp"; "old.bin"] = true) as H4 by by_evaluation.
  assert (is_dir fs_image ["nowhere"] = false) as H5 by by_evaluation.
  split; [|split].
  - exact (proj1 (repack_iso_checks_paths_first (demo_env 0) fs_image
                    _ _ _ _ _ _ [68%N; 47%N] R1 R2 R3) H1).
  - exact (proj1 (proj2 (repack_iso_checks_paths_first (demo_env 0) fs_image
                    _ _ _ _ _ _ [68%N; 47%N] R4 R2 R3)) H2 H3).
  - exact (proj2 (proj2 (repack_iso_checks_paths_first (demo_env 0) fs_image
                    _ _ _ _ _ _ [68%N; 47%N] R4 R1 R5)) H2 H4 H5).
Defined.
